(** * TelX: the signed-payload verifier and the social-graph handlers of [app.py]

    A shallow embedding of the request handlers of [src/app.py] and of the
    library routines they call, followed by the properties stated about them.

    - Python [str] values are lists of Unicode code points ([pystr]), so that
      [len], slicing, [strip] and string comparison count code points as
      Python does; [bytes] values are lists of octets.
    - The relational store is a record of tables, each table the list of its
      rows in insertion order.  A handler is a function from the store, the
      request and the clock reading to a response and the store after commit.
    - [hashlib.sha256], [hmac.new], [urllib.parse.parse_qs] and
      [urllib.parse.unquote] are written out; [json.loads] is a parameter of
      the verifier. *)

From Stdlib Require Import Ascii String.
From Stdlib Require Import ZArith List Bool Lia.
From Stdlib Require Import Permutation Sorted.
From Stdlib Require DecimalString.
Import ListNotations.

Local Open Scope Z_scope.

(* ================================================================== *)
(** ** Python strings and bytes *)

(** A Python [str]: its code points. *)
Definition pystr := list Z.

(** A Python [bytes]: its octets, each in [0, 256). *)
Definition pybytes := list Z.

(** A string literal of the source, as a [pystr]. *)
Definition py (s : string) : pystr :=
  map (fun a => Z.of_N (N_of_ascii a)) (list_ascii_of_string s).

Fixpoint str_eqb (s t : pystr) : bool :=
  match s, t with
  | [], [] => true
  | c :: s', d :: t' => (c =? d) && str_eqb s' t'
  | _, _ => false
  end.

(** Truth value of a [str]: non-empty. *)
Definition nonempty (s : pystr) : bool :=
  match s with [] => false | _ :: _ => true end.

(** [s <= t] on [str]: lexicographic on code points. *)
Fixpoint str_leb (s t : pystr) : bool :=
  match s, t with
  | [], _ => true
  | _ :: _, [] => false
  | c :: s', d :: t' => (c <? d) || ((c =? d) && str_leb s' t')
  end.

(** [sep.join(parts)]. *)
Fixpoint join (sep : pystr) (parts : list pystr) : pystr :=
  match parts with
  | [] => []
  | [p] => p
  | p :: rest => p ++ sep ++ join sep rest
  end.

(** The UTF-8 encoding of one code point; surrogates (and values that are
    not code points) have none: [str.encode] raises [UnicodeEncodeError]. *)
Definition utf8_char (c : Z) : option pybytes :=
  if c <? 0 then None
  else if c <? 0x80 then Some [c]
  else if c <? 0x800 then
    Some [Z.lor 0xC0 (Z.shiftr c 6); Z.lor 0x80 (Z.land c 0x3F)]
  else if c <? 0x10000 then
    if (0xD800 <=? c) && (c <=? 0xDFFF) then None
    else Some [Z.lor 0xE0 (Z.shiftr c 12);
               Z.lor 0x80 (Z.land (Z.shiftr c 6) 0x3F);
               Z.lor 0x80 (Z.land c 0x3F)]
  else if c <? 0x110000 then
    Some [Z.lor 0xF0 (Z.shiftr c 18);
          Z.lor 0x80 (Z.land (Z.shiftr c 12) 0x3F);
          Z.lor 0x80 (Z.land (Z.shiftr c 6) 0x3F);
          Z.lor 0x80 (Z.land c 0x3F)]
  else None.

(** [s.encode()], [None] when it raises. *)
Fixpoint encode (s : pystr) : option pybytes :=
  match s with
  | [] => Some []
  | c :: s' =>
      match utf8_char c, encode s' with
      | Some b, Some bs => Some (b ++ bs)
      | _, _ => None
      end
  end.

(* ================================================================== *)
(** ** SHA-256 and HMAC ([hashlib.sha256], [hmac.new]) *)

Module SHA256.

Definition w32 (x : Z) : Z := x mod 2 ^ 32.
Definition add32 (a b : Z) : Z := w32 (a + b).
Definition rotr (n x : Z) : Z :=
  Z.lor (Z.shiftr x n) (w32 (Z.shiftl x (32 - n))).
Definition not32 (x : Z) : Z := Z.lxor x 0xFFFFFFFF.

Definition Ch (x y z : Z) := Z.lxor (Z.land x y) (Z.land (not32 x) z).
Definition Maj (x y z : Z) :=
  Z.lxor (Z.lxor (Z.land x y) (Z.land x z)) (Z.land y z).
Definition Sigma0 x := Z.lxor (Z.lxor (rotr 2 x) (rotr 13 x)) (rotr 22 x).
Definition Sigma1 x := Z.lxor (Z.lxor (rotr 6 x) (rotr 11 x)) (rotr 25 x).
Definition sigma0 x := Z.lxor (Z.lxor (rotr 7 x) (rotr 18 x)) (Z.shiftr x 3).
Definition sigma1 x := Z.lxor (Z.lxor (rotr 17 x) (rotr 19 x)) (Z.shiftr x 10).

(** The first 64 primes. *)
Definition primes : list Z :=
  [2; 3; 5; 7; 11; 13; 17; 19; 23; 29; 31; 37; 41; 43; 47; 53; 59; 61; 67;
   71; 73; 79; 83; 89; 97; 101; 103; 107; 109; 113; 127; 131; 137; 139;
   149; 151; 157; 163; 167; 173; 179; 181; 191; 193; 197; 199; 211; 223;
   227; 229; 233; 239; 241; 251; 257; 263; 269; 271; 277; 281; 283; 293;
   307; 311].

(** The integer cube root of [n], for [n] below [2 ^ (3 * k)]: its bits
    from the top down. *)
Fixpoint cube_root (k : nat) (r n : Z) : Z :=
  match k with
  | O => r
  | S k' =>
      let r' := r + 2 ^ Z.of_nat k' in
      if r' * r' * r' <=? n then cube_root k' r' n else cube_root k' r n
  end.

(** The round constants: the first 32 bits of the fractional parts of the
    cube roots of the first 64 primes. *)
Definition K : list Z :=
  Eval vm_compute in map (fun p => w32 (cube_root 40 0 (p * 2 ^ 96))) primes.

(** The initial hash value: the first 32 bits of the fractional parts of
    the square roots of the first 8 primes. *)
Definition H0 : list Z :=
  Eval vm_compute in map (fun p => w32 (Z.sqrt (p * 2 ^ 64))) (firstn 8 primes).

(** Big-endian words of a byte string (four octets each). *)
Fixpoint words (bs : pybytes) : list Z :=
  match bs with
  | a :: b :: c :: d :: rest =>
      (Z.shiftl a 24 + Z.shiftl b 16 + Z.shiftl c 8 + d) :: words rest
  | _ => []
  end.

(** The octets of a word, most significant first. *)
Definition word_bytes (w : Z) : pybytes :=
  [Z.land (Z.shiftr w 24) 0xFF; Z.land (Z.shiftr w 16) 0xFF;
   Z.land (Z.shiftr w 8) 0xFF; Z.land w 0xFF].

(** The message schedule: [n] further words appended to [w]. *)
Fixpoint schedule (n : nat) (w : list Z) : list Z :=
  match n with
  | O => w
  | S n' =>
      let i := length w in
      let at_ k := nth (i - k) w 0 in
      schedule n'
        (w ++ [add32 (add32 (sigma1 (at_ 2%nat)) (at_ 7%nat))
                     (add32 (sigma0 (at_ 15%nat)) (at_ 16%nat))])
  end.

Record regs := Regs { ra : Z; rb : Z; rc : Z; rd : Z;
                      re : Z; rf : Z; rg : Z; rh : Z }.

Definition round (r : regs) (kw : Z * Z) : regs :=
  let t1 := add32 (add32 (add32 (rh r) (Sigma1 (re r)))
                         (add32 (Ch (re r) (rf r) (rg r)) (fst kw))) (snd kw) in
  let t2 := add32 (Sigma0 (ra r)) (Maj (ra r) (rb r) (rc r)) in
  Regs (add32 t1 t2) (ra r) (rb r) (rc r) (add32 (rd r) t1) (re r) (rf r) (rg r).

Definition regs_of (h : list Z) : regs :=
  Regs (nth 0 h 0) (nth 1 h 0) (nth 2 h 0) (nth 3 h 0)
       (nth 4 h 0) (nth 5 h 0) (nth 6 h 0) (nth 7 h 0).

Definition compress (h : list Z) (block : pybytes) : list Z :=
  let w := schedule 48 (words block) in
  let r := fold_left round (combine K w) (regs_of h) in
  map (fun p => add32 (fst p) (snd p))
      (combine h [ra r; rb r; rc r; rd r; re r; rf r; rg r; rh r]).

Fixpoint blocks (fuel : nat) (h : list Z) (bs : pybytes) : list Z :=
  match fuel, bs with
  | S fuel', _ :: _ => blocks fuel' (compress h (firstn 64 bs)) (skipn 64 bs)
  | _, _ => h
  end.

(** The padded message: a one bit, zeros up to 56 modulo 64, and the bit
    length on eight octets. *)
Definition pad (m : pybytes) : pybytes :=
  let n := Z.of_nat (length m) in
  let zeros := Z.to_nat ((55 - n) mod 64) in
  let bits := 8 * n in
  m ++ [0x80] ++ repeat 0 zeros
    ++ word_bytes (Z.shiftr bits 32) ++ word_bytes (w32 bits).

(** [hashlib.sha256(m).digest()]. *)
Definition digest (m : pybytes) : pybytes :=
  let p := pad m in
  flat_map word_bytes (blocks (length p) H0 p).

End SHA256.

(** [hmac.new(key, msg, hashlib.sha256).digest()]. *)
Definition hmac_sha256 (key msg : pybytes) : pybytes :=
  let key' := if (64 <? Z.of_nat (length key)) then SHA256.digest key else key in
  let padded := key' ++ repeat 0 (64 - length key') in
  let ipad := map (Z.lxor 0x36) padded in
  let opad := map (Z.lxor 0x5C) padded in
  SHA256.digest (opad ++ SHA256.digest (ipad ++ msg)).

Definition hex_digit (d : Z) : Z := if d <? 10 then 48 + d else 87 + d.

(** [.hexdigest()]: two lowercase hexadecimal digits per octet. *)
Definition hexlify (bs : pybytes) : pystr :=
  flat_map (fun b => [hex_digit (Z.shiftr b 4); hex_digit (Z.land b 15)]) bs.

Definition bytes_of (s : string) : pybytes := py s.

(* ================================================================== *)
(** ** [urllib.parse.unquote] and [urllib.parse.parse_qs] *)

Definition REPLACEMENT : Z := 0xFFFD.

Definition is_cont (b : Z) : bool := (0x80 <=? b) && (b <=? 0xBF).

(** The second octet a three- or four-octet lead admits. *)
Definition second_ok (b0 b1 : Z) : bool :=
  if b0 =? 0xE0 then (0xA0 <=? b1) && (b1 <=? 0xBF)
  else if b0 =? 0xED then (0x80 <=? b1) && (b1 <=? 0x9F)
  else if b0 =? 0xF0 then (0x90 <=? b1) && (b1 <=? 0xBF)
  else if b0 =? 0xF4 then (0x80 <=? b1) && (b1 <=? 0x8F)
  else is_cont b1.

Definition low6 (b : Z) : Z := Z.land b 0x3F.

(** [bs.decode('utf-8', 'replace')]: every ill-formed sequence gives one
    U+FFFD for its longest well-formed start (one octet at least). *)
Fixpoint utf8_decode (bs : pybytes) : pystr :=
  match bs with
  | [] => []
  | b0 :: r0 =>
      if b0 <? 0x80 then b0 :: utf8_decode r0
      else if (b0 <? 0xC2) || (0xF4 <? b0) then REPLACEMENT :: utf8_decode r0
      else
        match r0 with
        | [] => [REPLACEMENT]
        | b1 :: r1 =>
            if b0 <? 0xE0 then
              if is_cont b1
              then (Z.shiftl (Z.land b0 0x1F) 6 + low6 b1) :: utf8_decode r1
              else REPLACEMENT :: utf8_decode r0
            else if negb (second_ok b0 b1) then REPLACEMENT :: utf8_decode r0
            else
              match r1 with
              | [] => [REPLACEMENT]
              | b2 :: r2 =>
                  if negb (is_cont b2) then REPLACEMENT :: utf8_decode r1
                  else if b0 <? 0xF0 then
                    (Z.shiftl (Z.land b0 0x0F) 12 + Z.shiftl (low6 b1) 6
                     + low6 b2) :: utf8_decode r2
                  else
                    match r2 with
                    | [] => [REPLACEMENT]
                    | b3 :: r3 =>
                        if is_cont b3 then
                          (Z.shiftl (Z.land b0 0x07) 18
                           + Z.shiftl (low6 b1) 12 + Z.shiftl (low6 b2) 6
                           + low6 b3) :: utf8_decode r3
                        else REPLACEMENT :: utf8_decode r2
                    end
              end
        end
  end.

(** The value of a hexadecimal digit, of either case. *)
Definition hex_value (c : Z) : option Z :=
  if (48 <=? c) && (c <=? 57) then Some (c - 48)
  else if (65 <=? c) && (c <=? 70) then Some (c - 55)
  else if (97 <=? c) && (c <=? 102) then Some (c - 87)
  else None.

Definition PERCENT : Z := 37.

(** [unquote_to_bytes] on an ASCII run: [%XX] gives the octet [XX]; a
    [%] that two hexadecimal digits do not follow stays. *)
Fixpoint unquote_to_bytes (s : pystr) : pybytes :=
  match s with
  | [] => []
  | c :: r =>
      if c =? PERCENT then
        match r with
        | h1 :: h2 :: r' =>
            match hex_value h1, hex_value h2 with
            | Some a, Some b => (16 * a + b) :: unquote_to_bytes r'
            | _, _ => c :: unquote_to_bytes r
            end
        | _ => c :: unquote_to_bytes r
        end
      else c :: unquote_to_bytes r
  end.

Definition is_ascii (c : Z) : bool := (0 <=? c) && (c <=? 0x7F).

(** The runs of [unquote]: each maximal ASCII run (held reversed in
    [run]) is percent-decoded and read as UTF-8; other characters stay. *)
Fixpoint unquote_runs (run s : pystr) : pystr :=
  match s with
  | [] => utf8_decode (unquote_to_bytes (rev run))
  | c :: r =>
      if is_ascii c then unquote_runs (c :: run) r
      else utf8_decode (unquote_to_bytes (rev run)) ++ c :: unquote_runs [] r
  end.

(** [urllib.parse.unquote(s)], with its defaults [encoding='utf-8'] and
    [errors='replace']. *)
Definition unquote (s : pystr) : pystr :=
  if existsb (Z.eqb PERCENT) s then unquote_runs [] s else s.

(** [s.split(sep)] for a one-character separator. *)
Fixpoint split (sep : Z) (s : pystr) : list pystr :=
  match s with
  | [] => [[]]
  | c :: r =>
      if c =? sep then [] :: split sep r
      else match split sep r with
           | p :: ps => (c :: p) :: ps
           | [] => [[c]]
           end
  end.

(** [s.split(sep, 1)]: the text before the first [sep] and, when there is
    a [sep], the text after it. *)
Fixpoint split1 (sep : Z) (s : pystr) : pystr * option pystr :=
  match s with
  | [] => ([], None)
  | c :: r =>
      if c =? sep then ([], Some r)
      else let (a, b) := split1 sep r in (c :: a, b)
  end.

(** [s.replace('+', ' ')]. *)
Definition plus_to_space (s : pystr) : pystr :=
  map (fun c => if c =? 43 then 32 else c) s.

Definition AMP : Z := 38.
Definition EQUALS : Z := 61.

(** What [parse_qsl] keeps of one [&]-separated field, with
    [keep_blank_values] and [strict_parsing] false: nothing for an empty
    field, a field without [=] or a field with an empty value. *)
Definition parse_field (name_value : pystr) : list (pystr * pystr) :=
  if negb (nonempty name_value) then []
  else
    match split1 EQUALS name_value with
    | (_, None) => []
    | (n, Some v) =>
        if nonempty v
        then [(unquote (plus_to_space n), unquote (plus_to_space v))]
        else []
    end.

(** [urllib.parse.parse_qsl(qs)]. *)
Definition parse_qsl (qs : pystr) : list (pystr * pystr) :=
  if nonempty qs then flat_map parse_field (split AMP qs) else [].

(** The non-empty list of values [parse_qs] holds for a name. *)
Record values := Values { first_value : pystr; more_values : list pystr }.

(** The [dict] of [parse_qs]: names in order of first insertion. *)
Definition qs_dict := list (pystr * values).

(** [d[name].append(value)] when [name in d], else [d[name] = [value]]. *)
Fixpoint dict_add (d : qs_dict) (name value : pystr) : qs_dict :=
  match d with
  | [] => [(name, Values value [])]
  | (k, vs) :: d' =>
      if str_eqb name k
      then (k, Values (first_value vs) (more_values vs ++ [value])) :: d'
      else (k, vs) :: dict_add d' name value
  end.

(** [urllib.parse.parse_qs(qs)]. *)
Definition parse_qs (qs : pystr) : qs_dict :=
  fold_left (fun d nv => dict_add d (fst nv) (snd nv)) (parse_qsl qs) [].

(** [d.get(name, [None])[0]]. *)
Fixpoint get_first (d : qs_dict) (name : pystr) : option pystr :=
  match d with
  | [] => None
  | (k, vs) :: d' =>
      if str_eqb name k then Some (first_value vs) else get_first d' name
  end.

(** Sorting by a comparison [leb], as [sorted] and SQL's [ORDER BY] do: a
    stable insertion sort (rows that compare equal keep their order). *)
Section Sort.

Context {A : Type} (leb : A -> A -> bool).

Fixpoint insert_by (x : A) (l : list A) : list A :=
  match l with
  | [] => [x]
  | y :: l' => if leb x y then x :: l else y :: insert_by x l'
  end.

Definition sort_by (l : list A) : list A := fold_right insert_by [] l.

End Sort.

(** [sorted(l)] on a list of [str]. *)
Definition sorted (l : list pystr) : list pystr := sort_by str_leb l.

(* ================================================================== *)
(** ** [validate_telegram_data] *)

Definition NEWLINE : pystr := [10].

(** The [name=value] lines of every field but [hash], in the order of
    the dictionary. *)
Definition data_to_check (parsed_data : qs_dict) : list pystr :=
  flat_map (fun kv =>
              if str_eqb (fst kv) (py "hash") then []
              else [fst kv ++ [EQUALS] ++ first_value (snd kv)])
           parsed_data.

(** [data_check_string]: the sorted lines joined by newlines. *)
Definition data_check_string (parsed_data : qs_dict) : pystr :=
  join NEWLINE (sorted (data_to_check parsed_data)).

(** [hmac.new(secret_key, data_check_string.encode(),
    hashlib.sha256).hexdigest()] with [secret_key = hmac.new(b"WebAppData",
    bot_token.encode(), hashlib.sha256).digest()]; [None] when one of the
    two [encode] calls raises. *)
Definition calculated_hash (check_string bot_token : pystr)
  : option pystr :=
  match encode bot_token, encode check_string with
  | Some token, Some msg =>
      let secret_key := hmac_sha256 (bytes_of "WebAppData") token in
      Some (hexlify (hmac_sha256 secret_key msg))
  | _, _ => None
  end.

Section Verifier.

(** The values [json.loads] yields, [None] apart. *)
Variable json : Type.

(** [json.loads(text)]: [None] when it raises and when the text is the
    JSON [null]; [validate_telegram_data] returns [None] on both. *)
Variable json_loads : pystr -> option json.

(** [validate_telegram_data(init_data, bot_token)]: the parsed [user]
    record, or [None]. Every exception ends in [return None]. *)
Definition validate_telegram_data (init_data bot_token : pystr)
  : option json :=
  let parsed_data := parse_qs init_data in
  match get_first parsed_data (py "hash") with
  | None => None
  | Some received_hash =>
      if negb (nonempty received_hash) then None
      else
        match calculated_hash (data_check_string parsed_data) bot_token with
        | None => None
        | Some calculated =>
            if str_eqb calculated received_hash then
              match get_first parsed_data (py "user") with
              | Some user_data =>
                  if nonempty user_data
                  then json_loads (unquote user_data)
                  else None
              | None => None
              end
            else None
        end
  end.

End Verifier.

(* ================================================================== *)
(** ** More of [str] *)

(** [c.isspace()]. *)
Definition is_space (c : Z) : bool :=
  ((0x09 <=? c) && (c <=? 0x0D)) || ((0x1C <=? c) && (c <=? 0x20))
  || (c =? 0x85) || (c =? 0xA0) || (c =? 0x1680)
  || ((0x2000 <=? c) && (c <=? 0x200A))
  || (c =? 0x2028) || (c =? 0x2029) || (c =? 0x202F) || (c =? 0x205F)
  || (c =? 0x3000).

Fixpoint lstrip (s : pystr) : pystr :=
  match s with
  | c :: s' => if is_space c then lstrip s' else s
  | [] => []
  end.

(** [s.strip()]. *)
Definition strip (s : pystr) : pystr := rev (lstrip (rev (lstrip s))).

(** [len(s)]. *)
Definition len (s : pystr) : Z := Z.of_nat (length s).

(** [str(n)] for an [int]. *)
Definition str_of_int (n : Z) : pystr :=
  py (DecimalString.NilZero.string_of_int (Z.to_int n)).

(** Truth value of an optional [str]: neither [None] nor empty. *)
Definition some_nonempty (s : option pystr) : bool :=
  match s with Some t => nonempty t | None => false end.

(** [s or ''] for an optional [str]. *)
Definition or_empty (s : option pystr) : pystr :=
  match s with Some t => t | None => [] end.

(* ================================================================== *)
(** ** The tables *)

Module User.
Record t := mk {
  id : Z;
  telegram_id : Z;
  username : option pystr;
  first_name : pystr;
  last_name : option pystr;
  language_code : option pystr;
  photo_url : option pystr;
  bio : option pystr;
  created_at : Z;
  updated_at : Z }.
End User.

Module Post.
Record t := mk {
  id : Z;
  user_id : Z;
  content : pystr;
  image_url : option pystr;
  created_at : Z;
  updated_at : Z }.
End Post.

Module Like.
Record t := mk { id : Z; user_id : Z; post_id : Z; created_at : Z }.
End Like.

Module Comment.
Record t := mk {
  id : Z;
  user_id : Z;
  post_id : Z;
  content : pystr;
  created_at : Z;
  updated_at : Z }.
End Comment.

Module Follow.
Record t := mk { id : Z; follower_id : Z; following_id : Z; created_at : Z }.
End Follow.

(** The database: one list of rows per model, in insertion order.
    Timestamps are clock readings, larger is later.  The models declare
    foreign keys, which the default engine ([sqlite:///telx.db]) does not
    enforce: a row may name an account that has no row, and the
    serializers then raise.  The handlers add a like or a follow only
    after finding none for the pair, so the unique constraints never
    refuse an insertion here. *)
Record Store := mkStore {
  users : list User.t;
  posts : list Post.t;
  likes : list Like.t;
  comments : list Comment.t;
  follows : list Follow.t }.

(** The key of a new row, as SQLite gives it to an [INTEGER PRIMARY KEY]
    column: one more than the largest key of the table. *)
Definition fresh_id (ids : list Z) : Z := 1 + fold_right Z.max 0 ids.

(** [Model.query.filter(...).count()]. *)
Definition count {A : Type} (f : A -> bool) (rows : list A) : Z :=
  Z.of_nat (length (filter f rows)).

(** [User.query.get(id)] and [Post.query.get(id)]. *)
Definition get_user (st : Store) (id : Z) : option User.t :=
  find (fun u => User.id u =? id) (users st).

Definition get_post (st : Store) (id : Z) : option Post.t :=
  find (fun p => Post.id p =? id) (posts st).

(** [Like.query.filter_by(user_id=u, post_id=p)]. *)
Definition is_like (u p : Z) (l : Like.t) : bool :=
  (Like.user_id l =? u) && (Like.post_id l =? p).

(** [Follow.query.filter_by(follower_id=a, following_id=b)]. *)
Definition is_follow (a b : Z) (f : Follow.t) : bool :=
  (Follow.follower_id f =? a) && (Follow.following_id f =? b).

(** The caller of a request: the [X-User-ID] header read by [int], or
    [None] when the header is absent or empty. *)
Definition caller := option Z.

(** [if current_user_id:] on the value the serializers receive: an [int]
    or [None]; the integer zero is false. *)
Definition truthy (current_user_id : caller) : bool :=
  match current_user_id with
  | Some n => negb (n =? 0)
  | None => false
  end.

(* ================================================================== *)
(** ** The views ([serialize_user], [serialize_post], [serialize_comment]) *)

Module UserView.
Record t := mk {
  id : Z;
  telegram_id : Z;
  username : option pystr;
  first_name : pystr;
  last_name : option pystr;
  full_name : pystr;
  photo_url : option pystr;
  bio : pystr;
  following_count : Z;
  followers_count : Z;
  posts_count : Z;
  is_following : bool;
  created_at : Z;
  handle : pystr }.
End UserView.

Module PostView.
Record t := mk {
  id : Z;
  content : pystr;
  image_url : option pystr;
  author : UserView.t;
  likes_count : Z;
  comments_count : Z;
  is_liked : bool;
  created_at : Z;
  updated_at : Z }.
End PostView.

Module CommentView.
Record t := mk {
  id : Z;
  content : pystr;
  author : UserView.t;
  created_at : Z;
  updated_at : Z }.
End CommentView.

(** [serialize_user(user, current_user_id)]; [isoformat()] is left as
    the clock reading. *)
Definition serialize_user (st : Store) (user : User.t)
    (current_user_id : caller) : UserView.t :=
  let following_count :=
    count (fun f => Follow.follower_id f =? User.id user) (follows st) in
  let followers_count :=
    count (fun f => Follow.following_id f =? User.id user) (follows st) in
  let posts_count :=
    count (fun p => Post.user_id p =? User.id user) (posts st) in
  let is_following :=
    match current_user_id with
    | Some me =>
        truthy current_user_id
        && existsb (is_follow me (User.id user)) (follows st)
    | None => false
    end in
  UserView.mk
    (User.id user) (User.telegram_id user) (User.username user)
    (User.first_name user) (User.last_name user)
    (strip (User.first_name user ++ py " " ++ or_empty (User.last_name user)))
    (User.photo_url user) (or_empty (User.bio user))
    following_count followers_count posts_count is_following
    (User.created_at user)
    (if some_nonempty (User.username user)
     then py "@" ++ or_empty (User.username user)
     else py "@user" ++ str_of_int (User.telegram_id user)).

(** [serialize_post(post, current_user_id)]; [None] when [post.author] is
    [None] (no row for [post.user_id]) and the call raises. *)
Definition serialize_post (st : Store) (post : Post.t)
    (current_user_id : caller) : option PostView.t :=
  let likes_count :=
    count (fun l => Like.post_id l =? Post.id post) (likes st) in
  let comments_count :=
    count (fun c => Comment.post_id c =? Post.id post) (comments st) in
  let is_liked :=
    match current_user_id with
    | Some me =>
        truthy current_user_id
        && existsb (is_like me (Post.id post)) (likes st)
    | None => false
    end in
  match get_user st (Post.user_id post) with
  | Some author =>
      Some (PostView.mk (Post.id post) (Post.content post)
              (Post.image_url post)
              (serialize_user st author current_user_id)
              likes_count comments_count is_liked
              (Post.created_at post) (Post.updated_at post))
  | None => None
  end.

(** [serialize_comment(comment, current_user_id)]; [None] when it raises
    for want of an author row. *)
Definition serialize_comment (st : Store) (comment : Comment.t)
    (current_user_id : caller) : option CommentView.t :=
  match get_user st (Comment.user_id comment) with
  | Some author =>
      Some (CommentView.mk (Comment.id comment) (Comment.content comment)
              (serialize_user st author current_user_id)
              (Comment.created_at comment) (Comment.updated_at comment))
  | None => None
  end.

(** [[f(x) for x in rows]] where [f] may raise. *)
Fixpoint traverse {A B : Type} (f : A -> option B) (rows : list A)
  : option (list B) :=
  match rows with
  | [] => Some []
  | x :: rows' =>
      match f x, traverse f rows' with
      | Some y, Some ys => Some (y :: ys)
      | _, _ => None
      end
  end.

(** What a handler answers. *)
Inductive response (A : Type) : Type :=
| Json (status : Z) (body : A)
    (** [jsonify(body), status] *)
| Rejected (status : Z) (error : string)
    (** [jsonify({'error': error}), status] *)
| NotFound
    (** [get_or_404] found no row: 404 *)
| Raised.
    (** an exception left the handler: 500 *)

Arguments Json {A} status body.
Arguments Rejected {A} status error.
Arguments NotFound {A}.
Arguments Raised {A}.

(** A JSON body with a ['message'] beside its entity. *)
Record with_message (A : Type) := WithMessage { entity : A; message : string }.
Arguments WithMessage {A} entity message.
Arguments entity {A} w.
Arguments message {A} w.

(** The JSON object of a request, for the keys whose values are strings. *)
Definition body := list (pystr * pystr).

(** [data.get(key)] ([key in data] when it is not [None]). *)
Fixpoint data_get (data : body) (key : pystr) : option pystr :=
  match data with
  | [] => None
  | (k, v) :: data' => if str_eqb key k then Some v else data_get data' key
  end.

(* ================================================================== *)
(** ** Feed queries and pagination ([get_posts]) *)

(** [ORDER BY post.created_at DESC]. *)
Definition newer_first (p q : Post.t) : bool :=
  Post.created_at q <=? Post.created_at p.

(** [Post.query.join(Like)]: the pairs of a post and a like of that post
    ([like.post_id = post.id]). *)
Definition join_likes (st : Store) : list (Post.t * Like.t) :=
  flat_map
    (fun p => map (pair p)
                  (filter (fun l => Like.post_id l =? Post.id p) (likes st)))
    (posts st).

(** [GROUP BY post.id] with [count(like.id)]: a joined row adds one to the
    group of its post, or opens that group. *)
Fixpoint add_to_group (groups : list (Post.t * Z)) (p : Post.t)
  : list (Post.t * Z) :=
  match groups with
  | [] => [(p, 1)]
  | (q, n) :: groups' =>
      if Post.id p =? Post.id q then (q, n + 1) :: groups'
      else (q, n) :: add_to_group groups' p
  end.

Definition group_by_post (rows : list (Post.t * Like.t)) : list (Post.t * Z) :=
  fold_left (fun groups row => add_to_group groups (fst row)) rows [].

(** [ORDER BY count(like.id) DESC, post.created_at DESC]. *)
Definition more_liked_first (g h : Post.t * Z) : bool :=
  (snd h <? snd g) || ((snd h =? snd g) && newer_first (fst g) (fst h)).

(** The ['trending'] query. *)
Definition trending (st : Store) : list Post.t :=
  map fst (sort_by more_liked_first (group_by_post (join_likes st))).

(** The ['following'] query for the caller [me], before its ordering. *)
Definition followed_posts (st : Store) (me : Z) : list Post.t :=
  let following_ids :=
    map Follow.following_id
        (filter (fun f => Follow.follower_id f =? me) (follows st)) in
  filter (fun p => existsb (Z.eqb (Post.user_id p)) following_ids) (posts st).

(** A page of a query, as Flask-SQLAlchemy's [Pagination] holds it. *)
Record Pagination (A : Type) := mkPagination {
  items : list A;
  total : Z;
  pages : Z;
  has_next : bool;
  has_prev : bool }.
Arguments mkPagination {A}.
Arguments items {A}.
Arguments total {A}.
Arguments pages {A}.
Arguments has_next {A}.
Arguments has_prev {A}.

(** The body of the feed response. *)
Module Feed.
Record t := mk {
  posts : list PostView.t;
  has_next : bool;
  has_prev : bool;
  page : Z;
  pages : Z;
  total : Z }.
End Feed.

(** The body of the like toggle's response. *)
Module LikeResult.
Record t := mk { action : string; likes_count : Z; is_liked : bool }.
End LikeResult.

(** The body of the follow toggle's response. *)
Module FollowResult.
Record t := mk { action : string; user : UserView.t }.
End FollowResult.

(** The body of the comment list's response. *)
Module CommentList.
Record t := mk { post : PostView.t; comments : list CommentView.t }.
End CommentList.

Section Handlers.

(** The page-size cap [max_per_page] of [Query.paginate]: [get_posts]
    does not pass it, so it is the library's default, [None] for no cap. *)
Variable max_per_page : option Z.

(** [query.paginate(page=page, per_page=per_page, error_out=False)]
    (Flask-SQLAlchemy 3): a page below one is the first page, a size below
    one is twenty, and the page is [LIMIT per_page OFFSET (page - 1) *
    per_page] of the query. *)
Definition paginate {A : Type} (page per_page : Z) (query : list A)
  : Pagination A :=
  let per_page :=
    match max_per_page with
    | Some m => Z.min per_page m
    | None => per_page
    end in
  let page := if page <? 1 then 1 else page in
  let per_page := if per_page <? 1 then 20 else per_page in
  let total := Z.of_nat (length query) in
  let pages :=
    if total =? 0 then 0 else (total + per_page - 1) / per_page in
  mkPagination
    (firstn (Z.to_nat per_page)
            (skipn (Z.to_nat ((page - 1) * per_page)) query))
    total pages (page <? pages) (1 <? page).

(** The query [get_posts] builds for a filter and a caller. *)
Definition feed_query (st : Store) (current_user_id : caller)
    (filter_type : pystr) : list Post.t :=
  let query :=
    match current_user_id with
    | Some me =>
        if str_eqb filter_type (py "following") && truthy current_user_id
        then followed_posts st me
        else if str_eqb filter_type (py "trending") then trending st
        else posts st
    | None =>
        if str_eqb filter_type (py "trending") then trending st
        else posts st
    end in
  if negb (str_eqb filter_type (py "trending"))
  then sort_by newer_first query
  else query.

(** [get_posts()]: [GET /api/posts] with the [filter], [page] and
    [per_page] arguments read. *)
Definition get_posts (st : Store) (current_user_id : caller)
    (filter_type : pystr) (page per_page : Z) : response Feed.t :=
  let posts := paginate page per_page (feed_query st current_user_id filter_type) in
  match traverse (fun post => serialize_post st post current_user_id)
                 (items posts) with
  | Some views =>
      Json 200 (Feed.mk views (has_next posts) (has_prev posts) page
                        (pages posts) (total posts))
  | None => Raised
  end.

End Handlers.

(* ================================================================== *)
(** ** Handlers that write *)

Definition with_posts (st : Store) (rows : list Post.t) : Store :=
  mkStore (users st) rows (likes st) (comments st) (follows st).
Definition with_likes (st : Store) (rows : list Like.t) : Store :=
  mkStore (users st) (posts st) rows (comments st) (follows st).
Definition with_comments (st : Store) (rows : list Comment.t) : Store :=
  mkStore (users st) (posts st) (likes st) rows (follows st).
Definition with_follows (st : Store) (rows : list Follow.t) : Store :=
  mkStore (users st) (posts st) (likes st) (comments st) rows.
Definition with_users (st : Store) (rows : list User.t) : Store :=
  mkStore rows (posts st) (likes st) (comments st) (follows st).

Definition AUTH_REQUIRED : string := "Authentication required".
Definition CONTENT_LENGTH : string :=
  "Content must be between 1 and 280 characters".
Definition SELF_FOLLOW : string := "Cannot follow yourself".

(** [data.get('content', '').strip()]. *)
Definition content_of (data : body) : pystr :=
  strip (or_empty (data_get data (py "content"))).

(** [not content or len(content) > 280]. *)
Definition bad_content (content : pystr) : bool :=
  negb (nonempty content) || (280 <? len content).

(** [create_post()]: [POST /api/posts] at the clock reading [now]. *)
Definition create_post (st : Store) (current_user_id : caller)
    (data : body) (now : Z) : response (with_message PostView.t) * Store :=
  match current_user_id with
  | None => (Rejected 401 AUTH_REQUIRED, st)
  | Some me =>
      let content := content_of data in
      let image_url := data_get data (py "image_url") in
      if bad_content content then (Rejected 400 CONTENT_LENGTH, st)
      else
        let post :=
          Post.mk (fresh_id (map Post.id (posts st))) me content image_url
                  now now in
        let st' := with_posts st (posts st ++ [post]) in
        (match serialize_post st' post (Some me) with
         | Some view => Json 201 (WithMessage view "Post created successfully")
         | None => Raised
         end, st')
  end.

(** [toggle_like(post_id)]: [POST /api/posts/<post_id>/like]. *)
Definition toggle_like (st : Store) (current_user_id : caller)
    (post_id now : Z) : response LikeResult.t * Store :=
  match current_user_id with
  | None => (Rejected 401 AUTH_REQUIRED, st)
  | Some me =>
      match get_post st post_id with
      | None => (NotFound, st)
      | Some _ =>
          let (action, st') :=
            match find (is_like me post_id) (likes st) with
            | Some existing_like =>
                ("unliked"%string,
                 with_likes st
                   (filter (fun l => negb (Like.id l =? Like.id existing_like))
                           (likes st)))
            | None =>
                ("liked"%string,
                 with_likes st
                   (likes st
                    ++ [Like.mk (fresh_id (map Like.id (likes st)))
                                me post_id now]))
            end in
          (Json 200
             (LikeResult.mk action
                (count (fun l => Like.post_id l =? post_id) (likes st'))
                (String.eqb action "liked")),
           st')
      end
  end.

(** [get_comments(post_id)]: [GET /api/posts/<post_id>/comments]. *)
Definition get_comments (st : Store) (current_user_id : caller)
    (post_id : Z) : response CommentList.t :=
  match get_post st post_id with
  | None => NotFound
  | Some post =>
      let comments :=
        sort_by (fun c d => Comment.created_at d <=? Comment.created_at c)
                (filter (fun c => Comment.post_id c =? post_id) (comments st)) in
      match serialize_post st post current_user_id,
            traverse (fun c => serialize_comment st c current_user_id)
                     comments with
      | Some view, Some views => Json 200 (CommentList.mk view views)
      | _, _ => Raised
      end
  end.

(** [create_comment(post_id)]: [POST /api/posts/<post_id>/comments]. *)
Definition create_comment (st : Store) (current_user_id : caller)
    (post_id : Z) (data : body) (now : Z)
  : response (with_message CommentView.t) * Store :=
  match current_user_id with
  | None => (Rejected 401 AUTH_REQUIRED, st)
  | Some me =>
      let content := content_of data in
      if bad_content content then (Rejected 400 CONTENT_LENGTH, st)
      else
        match get_post st post_id with
        | None => (NotFound, st)
        | Some _ =>
            let comment :=
              Comment.mk (fresh_id (map Comment.id (comments st))) me post_id
                         content now now in
            let st' := with_comments st (comments st ++ [comment]) in
            (match serialize_comment st' comment (Some me) with
             | Some view =>
                 Json 201 (WithMessage view "Comment created successfully")
             | None => Raised
             end, st')
        end
  end.

(** [toggle_follow(user_id)]: [POST /api/users/<user_id>/follow]. *)
Definition toggle_follow (st : Store) (current_user_id : caller)
    (user_id now : Z) : response FollowResult.t * Store :=
  match current_user_id with
  | None => (Rejected 401 AUTH_REQUIRED, st)
  | Some me =>
      if me =? user_id then (Rejected 400 SELF_FOLLOW, st)
      else
        match get_user st user_id with
        | None => (NotFound, st)
        | Some target_user =>
            let (action, st') :=
              match find (is_follow me user_id) (follows st) with
              | Some existing_follow =>
                  ("unfollowed"%string,
                   with_follows st
                     (filter
                        (fun f => negb (Follow.id f =? Follow.id existing_follow))
                        (follows st)))
              | None =>
                  ("followed"%string,
                   with_follows st
                     (follows st
                      ++ [Follow.mk (fresh_id (map Follow.id (follows st)))
                                    me user_id now]))
              end in
            (Json 200
               (FollowResult.mk action
                  (serialize_user st' target_user (Some me))),
             st')
        end
  end.

(** The columns [update_profile] writes on the caller's row: [bio] when
    the request has one, cut by [[:160]], and [updated_at]. *)
Definition set_profile (data : body) (now : Z) (u : User.t) : User.t :=
  User.mk (User.id u) (User.telegram_id u) (User.username u)
          (User.first_name u) (User.last_name u) (User.language_code u)
          (User.photo_url u)
          (match data_get data (py "bio") with
           | Some text => Some (firstn 160 text)
           | None => User.bio u
           end)
          (User.created_at u) now.

(** [update_profile()]: [PUT /api/user/profile]. *)
Definition update_profile (st : Store) (current_user_id : caller)
    (data : body) (now : Z) : response (with_message UserView.t) * Store :=
  match current_user_id with
  | None => (Rejected 401 AUTH_REQUIRED, st)
  | Some me =>
      match get_user st me with
      | None => (NotFound, st)
      | Some user =>
          let user' := set_profile data now user in
          let st' :=
            with_users st
              (map (fun u => if User.id u =? me then set_profile data now u
                             else u)
                   (users st)) in
          (Json 200
             (WithMessage (serialize_user st' user' (Some me))
                          "Profile updated successfully"),
           st')
      end
  end.

(* ================================================================== *)
(** ** Handlers that read accounts ([get_users], [get_user_profile]) *)

(** The body of the profile response. *)
Module Profile.
Record t := mk { user : UserView.t; posts : list PostView.t }.
End Profile.

(** [get_users()]: [GET /api/users].  Here [if current_user_id:] tests
    the header itself, so every caller, the identity zero included, is
    taken out of the list with the accounts it follows.  [LIMIT 20]
    without an ordering keeps the first rows of the table. *)
Definition get_users (st : Store) (current_user_id : caller)
  : response (list UserView.t) :=
  match current_user_id with
  | Some me =>
      let following_ids :=
        map Follow.following_id
            (filter (fun f => Follow.follower_id f =? me) (follows st))
        ++ [me] in
      let users :=
        firstn 20
          (filter (fun u => negb (existsb (Z.eqb (User.id u)) following_ids))
                  (users st)) in
      Json 200 (map (fun user => serialize_user st user current_user_id) users)
  | None =>
      Json 200
        (map (fun user => serialize_user st user None) (firstn 20 (users st)))
  end.

(** [get_user_profile(user_id)]: [GET /api/users/<user_id>]. *)
Definition get_user_profile (st : Store) (current_user_id : caller)
    (user_id : Z) : response Profile.t :=
  match get_user st user_id with
  | None => NotFound
  | Some user =>
      let posts :=
        sort_by newer_first
                (filter (fun p => Post.user_id p =? user_id) (posts st)) in
      match traverse (fun post => serialize_post st post current_user_id)
                     posts with
      | Some views =>
          Json 200 (Profile.mk (serialize_user st user current_user_id) views)
      | None => Raised
      end
  end.

(* ================================================================== *)
(** ** [authenticate] *)

(** The keys [authenticate] reads of the record [json.loads] returned:
    [user_data['id']] and [user_data['first_name']] raise when the key is
    missing ([None] here, as for a value that cannot be subscripted or
    stored), the other keys are read with [get]. *)
Module Identity.
Record t := mk {
  id : option Z;
  username : option pystr;
  first_name : option pystr;
  last_name : option pystr;
  language_code : option pystr;
  photo_url : option pystr }.
End Identity.

(** The value [validate_telegram_data] returns, [None] apart, as
    [authenticate] tests it: a false one (an empty record, zero, an empty
    text or list) or a true one. *)
Inductive user_record : Type :=
| FalseValue
| TrueValue (fields : Identity.t).

(** The columns [authenticate] writes on the row of a known account. *)
Definition refresh_user (username : option pystr) (first_name : pystr)
    (last_name language_code photo_url : option pystr) (now : Z)
    (u : User.t) : User.t :=
  User.mk (User.id u) (User.telegram_id u) username first_name last_name
          language_code photo_url (User.bio u) (User.created_at u) now.

Definition NO_INIT_DATA : string := "No init data provided".
Definition INVALID_DATA : string := "Invalid Telegram data".

Section Authenticate.

(** [json.loads], as for [validate_telegram_data]. *)
Variable json_loads : pystr -> option user_record.

(** [app.config['BOT_TOKEN']]. *)
Variable BOT_TOKEN : pystr.

(** [authenticate()]: [POST /api/auth], with [init_data] the value of
    [data.get('initData')]. *)
Definition authenticate (st : Store) (init_data : option pystr) (now : Z)
  : response (with_message UserView.t) * Store :=
  if negb (some_nonempty init_data) then (Rejected 400 NO_INIT_DATA, st)
  else
    match validate_telegram_data user_record json_loads
            (or_empty init_data) BOT_TOKEN with
    | None | Some FalseValue => (Rejected 401 INVALID_DATA, st)
    | Some (TrueValue user_data) =>
        match Identity.id user_data with
        | None => (Raised, st)
        | Some telegram_id =>
            match find (fun u => User.telegram_id u =? telegram_id)
                       (users st),
                  Identity.first_name user_data with
            | _, None => (Raised, st)
            | None, Some first_name =>
                let user :=
                  User.mk (fresh_id (map User.id (users st))) telegram_id
                          (Identity.username user_data) first_name
                          (Identity.last_name user_data)
                          (Identity.language_code user_data)
                          (Identity.photo_url user_data)
                          (Some []) now now in
                let st' := with_users st (users st ++ [user]) in
                (Json 200
                   (WithMessage (serialize_user st' user (Some (User.id user)))
                                "Authentication successful"),
                 st')
            | Some existing, Some first_name =>
                let refresh :=
                  refresh_user (Identity.username user_data) first_name
                               (Identity.last_name user_data)
                               (Identity.language_code user_data)
                               (Identity.photo_url user_data) now in
                let st' :=
                  with_users st
                    (map (fun u => if User.id u =? User.id existing
                                   then refresh u else u)
                         (users st)) in
                (Json 200
                   (WithMessage
                      (serialize_user st' (refresh existing)
                                      (Some (User.id existing)))
                      "Authentication successful"),
                 st')
            end
        end
    end.

End Authenticate.

(* ================================================================== *)
(** ** The database URL *)

(** [s.startswith(prefix)]. *)
Fixpoint starts_with (prefix s : pystr) : bool :=
  match prefix, s with
  | [], _ => true
  | c :: prefix', d :: s' => (c =? d) && starts_with prefix' s'
  | _ :: _, [] => false
  end.

(** [s.replace(old, new, 1)] for a non-empty [old]: the leftmost
    occurrence of [old] gives way to [new]. *)
Fixpoint replace_first (old new s : pystr) : pystr :=
  if starts_with old s then new ++ skipn (length old) s
  else match s with
       | [] => []
       | c :: s' => c :: replace_first old new s'
       end.

(** [app.config['SQLALCHEMY_DATABASE_URI']] for the value of the
    environment variable [DATABASE_URL] ([None] when unset). *)
Definition SQLALCHEMY_DATABASE_URI (DATABASE_URL : option pystr) : pystr :=
  let DATABASE_URL :=
    match DATABASE_URL with
    | Some url =>
        if nonempty url && starts_with (py "postgres://") url
        then Some (replace_first (py "postgres://") (py "postgresql://") url)
        else Some url
    | None => None
    end in
  if some_nonempty DATABASE_URL then or_empty DATABASE_URL
  else py "sqlite:///telx.db".

(* ================================================================== *)
(** ** Notions of the statements *)

(** The dictionary of pairwise distinct names: one entry per pair. *)
Definition single (nv : pystr * pystr) : pystr * values :=
  (fst nv, Values (snd nv) []).

(** The likes of a post, as [serialize_post] counts them. *)
Definition like_count (st : Store) (p : Post.t) : Z :=
  count (fun l => Like.post_id l =? Post.id p) (likes st).

(** The groups of the rows of one post: none without a like, else one
    group with the number of its likes. *)
Definition group_of (st : Store) (p : Post.t) : list (Post.t * Z) :=
  if 0 <? like_count st p then [(p, like_count st p)] else [].

(** The order of the ['trending'] feed on posts: more likes first, and
    among posts with as many likes, the newer first. *)
Definition trending_order (st : Store) (p q : Post.t) : Prop :=
  like_count st q < like_count st p
  \/ (like_count st q = like_count st p
      /\ Post.created_at q <= Post.created_at p).

(** The characters [0-9a-f]. *)
Definition lowercase_hex (c : Z) : Prop := 48 <= c <= 57 \/ 97 <= c <= 102.

(** A text as [create_post] and [create_comment] store it: from 1 to 280
    characters, the first and the last of which are not blanks. *)
Definition clean_text (s : pystr) : Prop :=
  0 < len s <= 280
  /\ (forall c, hd_error s = Some c -> is_space c = false)
  /\ (forall c, hd_error (rev s) = Some c -> is_space c = false).

(** An answer that refuses the request: an error with its status (400,
    401), or the 404 of a row that is not there. *)
Definition refused {A : Type} (r : response A) : bool :=
  match r with
  | Rejected _ _ | NotFound => true
  | Json _ _ | Raised => false
  end.

(** The followers of an account, as [serialize_user] counts them. *)
Definition follower_count (st : Store) (user_id : Z) : Z :=
  count (fun f => Follow.following_id f =? user_id) (follows st).

(** The likes of the post with a given key. *)
Definition likes_of (st : Store) (post_id : Z) : Z :=
  count (fun l => Like.post_id l =? post_id) (likes st).

(** The names of a dictionary, each with the first of its values. *)
Definition first_values (d : qs_dict) : list (pystr * pystr) :=
  map (fun kv => (fst kv, first_value (snd kv))) d.

(** The comments of the post with a given key. *)
Definition comments_of (st : Store) (post_id : Z) : Z :=
  count (fun c => Comment.post_id c =? post_id) (comments st).

(** Whether an account follows the author of a post. *)
Definition follows_author (st : Store) (me : Z) (p : Post.t) : bool :=
  existsb (is_follow me (Post.user_id p)) (follows st).

(** Views listed the newest first. *)
Definition newest_first (views : list PostView.t) : Prop :=
  StronglySorted (fun v w => PostView.created_at w <= PostView.created_at v)
                 views.

(* ================================================================== *)
(** ** Concrete inputs *)

(** A [json.loads] that accepts every text and returns it unparsed. *)
Definition accept_text (text : pystr) : option pystr := Some text.

(** The shared secret of the examples. *)
Definition secret_S : pystr := py "S".

(** A payload signed under [secret_S] that carries no [user] field. *)
Definition payload_without_user : pystr :=
  py "auth_date=1700000000&hash=3cfb8bdded42e9d84f2c1db3c554ecb243155b488920563bacfef5f4ada2bc5e".

(** The fields of a payload signed under [secret_S]. *)
Definition signed_fields : list pystr :=
  [py "user=%7B%22id%22%3A1%2C%22first_name%22%3A%22A%22%7D";
   py "auth_date=1700000000";
   py "hash=b92df681ee029df6194981daa176e11ac9622e08f76d608dbbf81e127c8244b4"].

(** A payload with an [auth_date] field only. *)
Definition payload_without_hash : pystr := py "auth_date=1700000000".

(** A store with two accounts, three posts (the third without a like),
    three likes, two comments on the first post and one follow. *)
Definition alice : User.t :=
  User.mk 1 1001 (Some (py "alice")) (py "Alice") None (Some (py "en")) None
          (Some []) 10 10.
Definition bob : User.t :=
  User.mk 2 1002 None (py "Bob") (Some (py "B")) None None (Some []) 20 20.

Definition demo_store : Store :=
  mkStore
    [alice; bob]
    [Post.mk 1 1 (py "hello") None 100 100;
     Post.mk 2 2 (py "world") None 200 200;
     Post.mk 3 1 (py "quiet") None 300 300]
    [Like.mk 1 2 1 210; Like.mk 2 1 2 220; Like.mk 3 1 1 230]
    [Comment.mk 1 2 1 (py "nice") 240 240;
     Comment.mk 2 1 1 (py "thanks") 250 250]
    [Follow.mk 1 1 2 150].

(** A text of 280 characters between blanks, and one of 281. *)
Definition text_280 : pystr := py "  " ++ repeat 97 280 ++ py " ".
Definition text_281 : pystr := repeat 97 281.

(** A text of 200 characters. *)
Definition text_200 : pystr := repeat 98 200.

(** A [json.loads] for the examples: it reads the [user] text of
    [signed_fields], a record with the keys [id] (1) and [first_name]
    (A), and refuses every other text. *)
Definition loads_signed_user (text : pystr) : option user_record :=
  if str_eqb text (unquote (py "%7B%22id%22%3A1%2C%22first_name%22%3A%22A%22%7D"))
  then Some (TrueValue
               (Identity.mk (Some 1) None (Some (py "A")) None None None))
  else None.

(** The fields of [signed_fields] in one payload, and that payload with a
    second [user] field and a field without a value appended. *)
Definition signed_payload : pystr := join [AMP] signed_fields.
Definition second_user_field : pystr := py "user=%7B%22id%22%3A2%7D".
Definition padded_payload : pystr :=
  (signed_payload ++ [AMP] ++ second_user_field) ++ [AMP] ++ py "note=".

(* ================================================================== *)
(** * Properties *)

(** ** Test vectors *)

Example sha256_abc :
  hexlify (SHA256.digest (bytes_of "abc"))
  = py "ba7816bf8f01cfea414140de5dae2223b00361a396177a9cb410ff61f20015ad".
Proof. vm_compute. reflexivity. Qed.

Example sha256_two_blocks :
  hexlify (SHA256.digest
    (bytes_of "abcdbcdecdefdefgefghfghighijhijkijkljklmklmnlmnomnopnopq"))
  = py "248d6a61d20638b8e5c026930c3e6039a33ce45964ff2167f6ecedd419db06c1".
Proof. vm_compute. reflexivity. Qed.

(** RFC 4231, test case 2. *)
Example hmac_rfc4231_2 :
  hexlify (hmac_sha256 (bytes_of "Jefe") (bytes_of "what do ya want for nothing?"))
  = py "5bdcc146bf60754e6a042426089575c75a003f089d2739839dec58b964ec3843".
Proof. vm_compute. reflexivity. Qed.


(** ** Strings and sorting *)

Lemma str_eqb_eq (s t : pystr) : str_eqb s t = true <-> s = t.
Proof.
  revert t; induction s as [|c s IH]; intros [|d t]; simpl;
    try (split; [discriminate | discriminate]); try tauto.
  rewrite andb_true_iff, Z.eqb_eq, IH.
  split; [intros [-> ->]; reflexivity | intros [= -> ->]; auto].
Qed.

Lemma str_eqb_refl (s : pystr) : str_eqb s s = true.
Proof. apply str_eqb_eq; reflexivity. Qed.

Lemma str_eqb_neq (s t : pystr) : str_eqb s t = false <-> s <> t.
Proof.
  rewrite <- str_eqb_eq. destruct (str_eqb s t); split; congruence.
Qed.

Lemma str_leb_total (s t : pystr) : str_leb s t = true \/ str_leb t s = true.
Proof.
  revert t; induction s as [|c s IH]; intros [|d t]; simpl; auto.
  destruct (Z.ltb_spec c d), (Z.ltb_spec d c); simpl; auto; try lia.
  assert (c = d) as -> by lia. rewrite Z.eqb_refl; simpl. apply IH.
Qed.

Lemma str_leb_antisym (s t : pystr) :
  str_leb s t = true -> str_leb t s = true -> s = t.
Proof.
  revert t; induction s as [|c s IH]; intros [|d t]; simpl;
    try discriminate; auto.
  rewrite !orb_true_iff, !andb_true_iff, !Z.ltb_lt, !Z.eqb_eq.
  intros [H1|[H1 H1']] [H2|[H2 H2']]; try lia.
  subst; f_equal; auto.
Qed.

Lemma str_leb_trans (s t u : pystr) :
  str_leb s t = true -> str_leb t u = true -> str_leb s u = true.
Proof.
  revert t u; induction s as [|c s IH]; intros [|d t] [|e u]; simpl;
    try discriminate; auto.
  rewrite !orb_true_iff, !andb_true_iff, !Z.ltb_lt, !Z.eqb_eq.
  intros [H1|[H1 H1']] [H2|[H2 H2']]; try (left; lia).
  right; split; [lia | eauto].
Qed.

Section SortFacts.

Context {A : Type} (leb : A -> A -> bool).

Let le (x y : A) : Prop := leb x y = true.

Lemma insert_by_perm (x : A) (l : list A) :
  Permutation (insert_by leb x l) (x :: l).
Proof.
  induction l as [|y l IH]; simpl; [reflexivity|].
  destruct (leb x y); [reflexivity|].
  rewrite IH. apply perm_swap.
Qed.

Lemma sort_by_perm (l : list A) : Permutation (sort_by leb l) l.
Proof.
  induction l as [|x l IH]; simpl; [reflexivity|].
  rewrite insert_by_perm. auto.
Qed.

Hypothesis leb_total : forall x y, leb x y = true \/ leb y x = true.
Hypothesis leb_trans :
  forall x y z, leb x y = true -> leb y z = true -> leb x z = true.

Lemma insert_by_sorted (x : A) (l : list A) :
  StronglySorted le l -> StronglySorted le (insert_by leb x l).
Proof.
  induction 1 as [|y l Hs IH Hy]; simpl.
  - repeat constructor.
  - destruct (leb x y) eqn:E.
    + constructor; [constructor; assumption|].
      constructor; [exact E|].
      eapply Forall_impl; [|exact Hy]. intros z Hz. eapply leb_trans; eauto.
    + constructor; [exact IH|].
      assert (Hyx : le y x) by (destruct (leb_total x y); [congruence|auto]).
      eapply Permutation_Forall;
        [apply Permutation_sym, insert_by_perm |].
      constructor; assumption.
Qed.

Lemma sort_by_sorted (l : list A) : StronglySorted le (sort_by leb l).
Proof.
  induction l as [|x l IH]; simpl; [constructor|].
  apply insert_by_sorted, IH.
Qed.

Hypothesis leb_antisym :
  forall x y, leb x y = true -> leb y x = true -> x = y.

Lemma sorted_perm_eq (l l' : list A) :
  StronglySorted le l -> StronglySorted le l' -> Permutation l l' -> l = l'.
Proof.
  intros Hl; revert l'. induction Hl as [|x l Hs IH Hx]; intros l' Hl' P.
  - apply Permutation_nil in P. auto.
  - destruct Hl' as [|y l' Hs' Hy].
    + apply Permutation_sym, Permutation_nil in P. discriminate.
    + assert (x = y) as ->.
      { assert (Hin1 : In x (y :: l'))
          by (eapply Permutation_in; [exact P | left; reflexivity]).
        assert (Hin2 : In y (x :: l))
          by (eapply Permutation_in;
              [apply Permutation_sym; exact P | left; reflexivity]).
        destruct Hin1 as [->|Hin1]; [reflexivity|].
        destruct Hin2 as [->|Hin2]; [reflexivity|].
        rewrite Forall_forall in Hx, Hy.
        apply leb_antisym; [apply Hx | apply Hy]; assumption. }
      f_equal. apply IH; [assumption|].
      eapply Permutation_cons_inv; exact P.
Qed.

Lemma sort_by_perm_eq (l l' : list A) :
  Permutation l l' -> sort_by leb l = sort_by leb l'.
Proof.
  intros P. apply sorted_perm_eq; try apply sort_by_sorted.
  rewrite !sort_by_perm. exact P.
Qed.

End SortFacts.

(** ** The query string and its dictionary *)

Lemma split_no_sep (sep : Z) (p : pystr) :
  ~ In sep p -> split sep p = [p].
Proof.
  induction p as [|c p IH]; simpl; intros H; [reflexivity|].
  destruct (Z.eqb_spec c sep) as [->|_]; [tauto|].
  rewrite IH by tauto. reflexivity.
Qed.

Lemma split_app_sep (sep : Z) (p rest : pystr) :
  ~ In sep p -> split sep (p ++ sep :: rest) = p :: split sep rest.
Proof.
  induction p as [|c p IH]; simpl; intros H.
  - rewrite Z.eqb_refl. reflexivity.
  - destruct (Z.eqb_spec c sep) as [->|_]; [tauto|].
    rewrite IH by tauto. reflexivity.
Qed.

Lemma split_join (sep : Z) (fields : list pystr) :
  Forall (fun f => ~ In sep f) fields -> fields <> [] ->
  split sep (join [sep] fields) = fields.
Proof.
  induction 1 as [|f fields Hf Hfs IH]; intros Hne; [now destruct Hne|].
  destruct fields as [|g fields]; simpl.
  - apply split_no_sep, Hf.
  - rewrite split_app_sep by exact Hf.
    f_equal. apply IH. discriminate.
Qed.

Lemma parse_field_nil : parse_field [] = [].
Proof. reflexivity. Qed.

(** The pairs of a payload are those of its fields, in order. *)
Lemma parse_qsl_join (fields : list pystr) :
  Forall (fun f => ~ In AMP f) fields ->
  parse_qsl (join [AMP] fields) = flat_map parse_field fields.
Proof.
  intros H. unfold parse_qsl.
  destruct (nonempty (join [AMP] fields)) eqn:E.
  - rewrite split_join; auto. intros ->; discriminate.
  - destruct fields as [|f [|g fields]]; simpl in *; try reflexivity.
    + destruct f; [reflexivity | discriminate].
    + destruct f; discriminate.
Qed.

Lemma dict_add_fresh (d : qs_dict) (name value : pystr) :
  ~ In name (map fst d) ->
  dict_add d name value = d ++ [single (name, value)].
Proof.
  induction d as [|[k vs] d IH]; simpl; intros H; [reflexivity|].
  destruct (str_eqb name k) eqn:E.
  - apply str_eqb_eq in E. subst. tauto.
  - rewrite IH by tauto. reflexivity.
Qed.

Lemma fold_dict_add_distinct (pairs : list (pystr * pystr)) (d : qs_dict) :
  NoDup (map fst d ++ map fst pairs) ->
  fold_left (fun d nv => dict_add d (fst nv) (snd nv)) pairs d
  = d ++ map single pairs.
Proof.
  revert d; induction pairs as [|[n v] pairs IH]; intros d H; simpl.
  - rewrite app_nil_r. reflexivity.
  - simpl in H. rewrite dict_add_fresh.
    + rewrite IH.
      * rewrite <- app_assoc. reflexivity.
      * rewrite map_app, <- app_assoc. exact H.
    + apply NoDup_remove_2 in H. intros Hin. apply H.
      apply in_or_app; auto.
Qed.

Lemma parse_qs_distinct (qs : pystr) :
  NoDup (map fst (parse_qsl qs)) ->
  parse_qs qs = map single (parse_qsl qs).
Proof.
  intros H. unfold parse_qs. rewrite fold_dict_add_distinct; auto.
Qed.

Lemma get_first_not_in (d : qs_dict) (name : pystr) :
  ~ In name (map fst d) -> get_first d name = None.
Proof.
  induction d as [|[k vs] d IH]; simpl; intros H; [reflexivity|].
  destruct (str_eqb name k) eqn:E; [apply str_eqb_eq in E; subst; tauto|].
  apply IH; tauto.
Qed.

(** With pairwise distinct names, lookup does not depend on the order of
    the entries. *)
Lemma get_first_perm (d d' : qs_dict) (name : pystr) :
  Permutation d d' -> NoDup (map fst d) ->
  get_first d name = get_first d' name.
Proof.
  induction 1 as [| [k vs] d d' P IH | [k vs] [k' vs'] d | d d' d'' P IH P' IH'];
    intros ND; simpl.
  - reflexivity.
  - inversion ND; subst. rewrite IH by assumption. reflexivity.
  - destruct (str_eqb name k') eqn:E', (str_eqb name k) eqn:E; try reflexivity.
    apply str_eqb_eq in E, E'. subst. inversion ND; subst.
    simpl in *. tauto.
  - rewrite IH by assumption. apply IH'.
    eapply Permutation_NoDup; [|exact ND].
    apply Permutation_map, P.
Qed.

Lemma data_to_check_perm (d d' : qs_dict) :
  Permutation d d' -> Permutation (data_to_check d) (data_to_check d').
Proof. apply Permutation_flat_map. Qed.

Lemma sorted_perm (l l' : list pystr) :
  Permutation l l' -> sorted l = sorted l'.
Proof.
  apply sort_by_perm_eq.
  - apply str_leb_total.
  - apply str_leb_trans.
  - apply str_leb_antisym.
Qed.

(** ** The shape of a signature *)

Lemma word_bytes_range (w : Z) :
  Forall (fun b => 0 <= b < 256) (SHA256.word_bytes w).
Proof.
  unfold SHA256.word_bytes.
  repeat (apply Forall_cons; [|]); try apply Forall_nil;
    change 255 with (Z.ones 8); rewrite Z.land_ones by lia;
    apply Z.mod_pos_bound; lia.
Qed.

Lemma compress_length (h : list Z) (block : pybytes) :
  length h = 8%nat -> length (SHA256.compress h block) = 8%nat.
Proof.
  intros H. unfold SHA256.compress.
  rewrite length_map, length_combine, H. reflexivity.
Qed.

Lemma blocks_length (fuel : nat) (h : list Z) (bs : pybytes) :
  length h = 8%nat -> length (SHA256.blocks fuel h bs) = 8%nat.
Proof.
  revert h bs; induction fuel as [|fuel IH]; intros h bs H; [exact H|].
  destruct bs as [|b bs]; [exact H|].
  cbn [SHA256.blocks]. apply IH, compress_length, H.
Qed.

Lemma flat_map_length_const {A B : Type} (f : A -> list B) (n : nat)
    (l : list A) :
  (forall x, length (f x) = n) -> length (flat_map f l) = (n * length l)%nat.
Proof.
  intros H. induction l as [|x l IH]; cbn [flat_map length]; [lia|].
  rewrite length_app, H, IH. lia.
Qed.

(** A digest has 32 octets. *)
Lemma digest_shape (m : pybytes) :
  length (SHA256.digest m) = 32%nat
  /\ Forall (fun b => 0 <= b < 256) (SHA256.digest m).
Proof.
  unfold SHA256.digest. split.
  - rewrite flat_map_length_const with (n := 4%nat) by reflexivity.
    rewrite blocks_length by reflexivity. reflexivity.
  - apply Forall_flat_map, Forall_forall. intros w _. apply word_bytes_range.
Qed.

Lemma hex_digit_lowercase (d : Z) : 0 <= d < 16 -> lowercase_hex (hex_digit d).
Proof.
  unfold hex_digit, lowercase_hex. destruct (Z.ltb_spec d 10); lia.
Qed.

Lemma hexlify_shape (bs : pybytes) :
  Forall (fun b => 0 <= b < 256) bs ->
  length (hexlify bs) = (2 * length bs)%nat
  /\ Forall lowercase_hex (hexlify bs).
Proof.
  intros H. unfold hexlify. split.
  - apply flat_map_length_const. reflexivity.
  - apply Forall_flat_map. eapply Forall_impl; [|exact H].
    intros b Hb. cbv beta in Hb.
    apply Forall_cons; [|apply Forall_cons; [|apply Forall_nil]];
      apply hex_digit_lowercase.
    + rewrite Z.shiftr_div_pow2 by lia. change (2 ^ 4) with 16.
      split; [apply Z.div_pos; lia | apply Z.div_lt_upper_bound; lia].
    + change 15 with (Z.ones 4). rewrite Z.land_ones by lia.
      apply Z.mod_pos_bound. lia.
Qed.

Lemma hmac_shape (key msg : pybytes) :
  length (hmac_sha256 key msg) = 32%nat
  /\ Forall (fun b => 0 <= b < 256) (hmac_sha256 key msg).
Proof. unfold hmac_sha256. apply digest_shape. Qed.

(** ** The verifier *)

#[local] Opaque hmac_sha256 hexlify unquote.

(** The signature the verifier recomputes: HMAC-SHA256 of the encoded
    check string under the key HMAC-SHA256([b"WebAppData"], token), in
    lowercase hexadecimal. *)
Lemma calculated_hash_some (check_string bot_token h : pystr) :
  calculated_hash check_string bot_token = Some h <->
  exists token msg,
    encode bot_token = Some token /\ encode check_string = Some msg /\
    h = hexlify (hmac_sha256 (hmac_sha256 (bytes_of "WebAppData") token) msg).
Proof.
  unfold calculated_hash.
  destruct (encode bot_token) as [token|], (encode check_string) as [msg|];
    split; try discriminate.
  - intros [= <-]. eauto.
  - intros (? & ? & [= <-] & [= <-] & ->). reflexivity.
  - intros (? & ? & _ & [=] & _).
  - intros (? & ? & [=] & _).
  - intros (? & ? & [=] & _).
Qed.

Lemma nonempty_true (s : pystr) : nonempty s = true <-> s <> [].
Proof. destruct s; simpl; split; congruence. Qed.

(** The recomputed signature is 64 characters of lowercase hexadecimal. *)
Lemma calculated_hash_shape (check_string bot_token h : pystr) :
  calculated_hash check_string bot_token = Some h ->
  length h = 64%nat /\ Forall lowercase_hex h.
Proof.
  intros H. apply calculated_hash_some in H.
  destruct H as (token & msg & _ & _ & ->).
  destruct (hmac_shape (hmac_sha256 (bytes_of "WebAppData") token) msg)
    as [Hlen Hrange].
  destruct (hexlify_shape _ Hrange) as [Hl Hhex].
  split; [rewrite Hl, Hlen; reflexivity | exact Hhex].
Qed.

Section VerifierFacts.

Variable json : Type.
Variable json_loads : pystr -> option json.

(** C1, as amended: the verifier returns an identity exactly when the
    payload has a non-empty [hash] equal to the recomputed signature (the
    lowercase hexadecimal HMAC-SHA256 of the check string under the key
    HMAC-SHA256(["WebAppData"], secret)) and a non-empty [user] field whose
    decoded text [json.loads] accepts.  A payload without [hash], and one
    whose [hash] is not the recomputed signature, are refused.  The
    recomputed signature is 64 characters among [0-9a-f]. *)
Theorem validate_succeeds_iff (init_data bot_token : pystr) :
  (forall identity : json,
     validate_telegram_data json json_loads init_data bot_token = Some identity <->
     exists received_hash user_data token msg,
       get_first (parse_qs init_data) (py "hash") = Some received_hash /\
       received_hash <> [] /\
       encode bot_token = Some token /\
       encode (data_check_string (parse_qs init_data)) = Some msg /\
       received_hash
       = hexlify (hmac_sha256 (hmac_sha256 (bytes_of "WebAppData") token) msg) /\
       get_first (parse_qs init_data) (py "user") = Some user_data /\
       user_data <> [] /\
       json_loads (unquote user_data) = Some identity)
  /\ (get_first (parse_qs init_data) (py "hash") = None ->
      validate_telegram_data json json_loads init_data bot_token = None)
  /\ (forall received_hash,
        get_first (parse_qs init_data) (py "hash") = Some received_hash ->
        calculated_hash (data_check_string (parse_qs init_data)) bot_token
        <> Some received_hash ->
        validate_telegram_data json json_loads init_data bot_token = None)
  /\ (forall calculated,
        calculated_hash (data_check_string (parse_qs init_data)) bot_token
        = Some calculated ->
        length calculated = 64%nat /\ Forall lowercase_hex calculated).
Proof.
  unfold validate_telegram_data.
  split; [|split; [|split]]; [| | |intros calculated; apply calculated_hash_shape].
  - intros identity.
    destruct (get_first (parse_qs init_data) (py "hash")) as [rh|] eqn:Hh.
    2:{ split; [discriminate|]. intros (? & ? & ? & ? & [=] & _). }
    destruct (nonempty rh) eqn:Hne; cbn [negb].
    2:{ split; [discriminate|].
        intros (? & ? & ? & ? & [= <-] & Hn & _).
        apply nonempty_true in Hn. congruence. }
    destruct (calculated_hash _ bot_token) as [calc|] eqn:Hc.
    2:{ split; [discriminate|].
        intros (? & ? & token & msg & [= <-] & _ & Ht & Hm & -> & _).
        assert (calculated_hash (data_check_string (parse_qs init_data))
                                bot_token <> None) as Hx.
        { intros _. unfold calculated_hash in Hc.
          rewrite Ht, Hm in Hc. discriminate. }
        congruence. }
    apply calculated_hash_some in Hc. destruct Hc as (token & msg & Ht & Hm & ->).
    destruct (str_eqb _ rh) eqn:Heq.
    2:{ split; [discriminate|].
        intros (? & ? & token' & msg' & [= <-] & _ & Ht' & Hm' & -> & _).
        apply str_eqb_neq in Heq. congruence. }
    apply str_eqb_eq in Heq. subst rh.
    destruct (get_first (parse_qs init_data) (py "user")) as [ud|] eqn:Hu.
    2:{ split; [discriminate|].
        intros (? & ? & ? & ? & _ & _ & _ & _ & _ & [=] & _). }
    destruct (nonempty ud) eqn:Hun.
    2:{ split; [discriminate|].
        intros (? & ? & ? & ? & _ & _ & _ & _ & _ & [= <-] & Hn & _).
        apply nonempty_true in Hn. congruence. }
    split.
    + intros Hj. exists (hexlify (hmac_sha256
                           (hmac_sha256 (bytes_of "WebAppData") token) msg)),
                  ud, token, msg.
      repeat split; auto; apply nonempty_true; assumption.
    + intros (? & ? & ? & ? & _ & _ & _ & _ & _ & [= <-] & _ & Hj). exact Hj.
  - intros ->. reflexivity.
  - intros rh -> Hneq.
    destruct (nonempty rh); cbn [negb]; [|reflexivity].
    destruct (calculated_hash _ bot_token) as [calc|]; [|reflexivity].
    destruct (str_eqb calc rh) eqn:Heq; [|reflexivity].
    apply str_eqb_eq in Heq. congruence.
Qed.

(** C8: for a payload whose parsed field names are pairwise distinct, the
    order of the [&]-separated fields changes neither the check string nor
    the verifier's result; the check string is the newline-joined list of
    the [name=value] lines in sorted order, whatever list of these lines,
    sorted for [<=] on strings, one takes. *)
Theorem field_order_irrelevant (fields fields' : list pystr)
    (bot_token : pystr) :
  Forall (fun f => ~ In AMP f) fields ->
  Permutation fields fields' ->
  NoDup (map fst (parse_qsl (join [AMP] fields))) ->
  validate_telegram_data json json_loads (join [AMP] fields) bot_token
  = validate_telegram_data json json_loads (join [AMP] fields') bot_token
  /\ data_check_string (parse_qs (join [AMP] fields))
     = data_check_string (parse_qs (join [AMP] fields'))
  /\ forall lines,
       Permutation lines (data_to_check (parse_qs (join [AMP] fields))) ->
       StronglySorted (fun s t => str_leb s t = true) lines ->
       data_check_string (parse_qs (join [AMP] fields)) = join NEWLINE lines.
Proof.
  intros Hamp P ND.
  assert (Hamp' : Forall (fun f => ~ In AMP f) fields').
  { rewrite Forall_forall in *. intros f Hf. apply Hamp.
    eapply Permutation_in; [apply Permutation_sym; exact P | exact Hf]. }
  assert (PQ : Permutation (parse_qsl (join [AMP] fields))
                           (parse_qsl (join [AMP] fields'))).
  { rewrite !parse_qsl_join by assumption. apply Permutation_flat_map, P. }
  assert (ND' : NoDup (map fst (parse_qsl (join [AMP] fields')))).
  { eapply Permutation_NoDup; [apply Permutation_map; exact PQ | exact ND]. }
  assert (PD : Permutation (parse_qs (join [AMP] fields))
                           (parse_qs (join [AMP] fields'))).
  { rewrite !parse_qs_distinct by assumption. apply Permutation_map, PQ. }
  assert (NDD : NoDup (map fst (parse_qs (join [AMP] fields)))).
  { rewrite parse_qs_distinct by assumption.
    rewrite map_map. simpl. exact ND. }
  assert (CS : data_check_string (parse_qs (join [AMP] fields))
               = data_check_string (parse_qs (join [AMP] fields'))).
  { unfold data_check_string. f_equal.
    apply sorted_perm, data_to_check_perm, PD. }
  split; [|split].
  - unfold validate_telegram_data.
    rewrite <- CS.
    rewrite <- !(get_first_perm _ _ _ PD NDD). reflexivity.
  - exact CS.
  - intros lines PL SL. unfold data_check_string. f_equal.
    apply sorted_perm_eq with (leb := str_leb).
    + apply str_leb_antisym.
    + apply sort_by_sorted; [apply str_leb_total | apply str_leb_trans].
    + exact SL.
    + unfold sorted. rewrite sort_by_perm. apply Permutation_sym, PL.
Qed.

End VerifierFacts.

#[local] Transparent hmac_sha256 hexlify unquote.

(** ** The verifier on concrete payloads *)

(** [NoDup] of a list of concrete keys or names. *)
Ltac distinct_by_computation :=
  vm_compute; repeat constructor; simpl; intuition discriminate.

Lemma no_amp_check (fields : list pystr) :
  forallb (fun f => negb (existsb (Z.eqb AMP) f)) fields = true ->
  Forall (fun f => ~ In AMP f) fields.
Proof.
  rewrite forallb_forall, Forall_forall. intros H f Hf Hin.
  specialize (H f Hf). apply negb_true_iff in H.
  assert (existsb (Z.eqb AMP) f = true); [|congruence].
  apply existsb_exists. exists AMP. split; [exact Hin | apply Z.eqb_refl].
Qed.

(** The signed payload verifies and yields the decoded [user] text. *)
Example signed_payload_verifies :
  validate_telegram_data pystr accept_text (join [AMP] signed_fields) secret_S
  = Some (unquote (py "%7B%22id%22%3A1%2C%22first_name%22%3A%22A%22%7D")).
Proof. vm_compute. reflexivity. Qed.

(** The same payload with the last character of [hash] cut off does not. *)
Example truncated_hash_refused :
  validate_telegram_data pystr accept_text
    (removelast (join [AMP] signed_fields)) secret_S = None.
Proof. vm_compute. reflexivity. Qed.

(** C1, the counterexample: the supplied [hash] is the recomputed
    signature, and the verifier returns [None] all the same (the payload
    has no [user] field), even with a [json.loads] that accepts any text. *)
Lemma signature_match_not_sufficient :
  get_first (parse_qs payload_without_user) (py "hash")
  = Some (py "3cfb8bdded42e9d84f2c1db3c554ecb243155b488920563bacfef5f4ada2bc5e")
  /\ calculated_hash (data_check_string (parse_qs payload_without_user)) secret_S
     = Some (py "3cfb8bdded42e9d84f2c1db3c554ecb243155b488920563bacfef5f4ada2bc5e")
  /\ validate_telegram_data pystr accept_text payload_without_user secret_S
     = None.
Proof. vm_compute. repeat split; reflexivity. Qed.

(** C8 on the signed payload, its fields reversed. *)
Lemma field_order_irrelevant_witness :
  validate_telegram_data pystr accept_text (join [AMP] signed_fields) secret_S
  = validate_telegram_data pystr accept_text
      (join [AMP] (rev signed_fields)) secret_S
  /\ data_check_string (parse_qs (join [AMP] signed_fields))
     = data_check_string (parse_qs (join [AMP] (rev signed_fields)))
  /\ forall lines,
       Permutation lines
         (data_to_check (parse_qs (join [AMP] signed_fields))) ->
       StronglySorted (fun s t => str_leb s t = true) lines ->
       data_check_string (parse_qs (join [AMP] signed_fields))
       = join NEWLINE lines.
Proof.
  apply (field_order_irrelevant pystr accept_text signed_fields
           (rev signed_fields) secret_S).
  - apply no_amp_check. reflexivity.
  - apply Permutation_rev.
  - distinct_by_computation.
Defined.

(** ** Keys and toggles *)

Lemma fresh_id_above (ids : list Z) (x : Z) : In x ids -> x < fresh_id ids.
Proof.
  unfold fresh_id. induction ids as [|y ids IH]; cbn [fold_right In]; [tauto|].
  intros [->|H]; [lia|]. specialize (IH H). lia.
Qed.

Section Toggle.

(** A table of rows with a key column, the row a toggle looks for
    ([matches]) and the row it would add ([row]). *)
Context {R : Type} (key : R -> Z) (matches : R -> bool).

Lemma count_zero_find (rows : list R) :
  count matches rows = 0 <-> find matches rows = None.
Proof.
  unfold count. induction rows as [|r rows IH]; cbn [filter find length].
  - tauto.
  - destruct (matches r); cbn [length]; [|exact IH].
    split; [lia | discriminate].
Qed.

Lemma find_added (rows : list R) (row : R) :
  find matches rows = None -> matches row = true ->
  find matches (rows ++ [row]) = Some row.
Proof.
  induction rows as [|r rows IH]; simpl; intros H Hm.
  - rewrite Hm. reflexivity.
  - destruct (matches r); [discriminate | auto].
Qed.

Lemma count_added (rows : list R) (row : R) :
  matches row = true ->
  count matches (rows ++ [row]) = count matches rows + 1.
Proof.
  intros Hm. unfold count. rewrite filter_app, length_app. simpl.
  rewrite Hm. simpl. lia.
Qed.

(** Deleting the row just added gives the table back. *)
Lemma delete_added (rows : list R) (row : R) :
  key row = fresh_id (map key rows) ->
  filter (fun r => negb (key r =? key row)) (rows ++ [row]) = rows.
Proof.
  intros Hk. rewrite filter_app. simpl. rewrite Z.eqb_refl. simpl.
  rewrite app_nil_r. apply forallb_filter_id.
  apply forallb_forall. intros r Hr. apply negb_true_iff, Z.eqb_neq.
  assert (key r < fresh_id (map key rows))
    by (apply fresh_id_above, in_map, Hr).
  lia.
Qed.

End Toggle.

Lemma with_likes_same (st : Store) : with_likes st (likes st) = st.
Proof. destruct st; reflexivity. Qed.

Lemma with_follows_same (st : Store) : with_follows st (follows st) = st.
Proof. destruct st; reflexivity. Qed.

Section Replace.

(** A table of rows with a key column; [f] is any filter on it. *)
Context {R : Type} (key : R -> Z) (f : R -> bool).

Lemma count_app (rows rows' : list R) :
  count f (rows ++ rows') = count f rows + count f rows'.
Proof. unfold count. rewrite filter_app, length_app. lia. Qed.

(** Deleting by key a row of a table with pairwise distinct keys takes
    that row away and no other. *)
Lemma count_deleted (rows : list R) (e : R) :
  NoDup (map key rows) -> In e rows ->
  count f rows
  = count f (filter (fun r => negb (key r =? key e)) rows)
    + (if f e then 1 else 0).
Proof.
  induction rows as [|r rows IH]; intros ND Hin; [destruct Hin|].
  inversion ND as [|? ? Hr ND']; subst.
  change (r :: rows) with ([r] ++ rows) at 1. rewrite count_app.
  cbn [filter]. destruct Hin as [->|Hin].
  - rewrite Z.eqb_refl. cbn [negb].
    rewrite forallb_filter_id.
    + unfold count at 1. cbn [filter]. destruct (f e); cbn [length]; lia.
    + apply forallb_forall. intros r Hr'. apply negb_true_iff, Z.eqb_neq.
      intros E. apply Hr. rewrite <- E. apply in_map, Hr'.
  - destruct (Z.eqb_spec (key r) (key e)) as [E|E].
    + exfalso. apply Hr. rewrite E. apply in_map, Hin.
    + cbn [negb].
      change (r :: filter ?g rows) with ([r] ++ filter g rows).
      rewrite count_app, (IH ND' Hin). lia.
Qed.

End Replace.

Lemma is_like_of (me post_id : Z) (e : Like.t) :
  is_like me post_id e = true <->
  Like.user_id e = me /\ Like.post_id e = post_id.
Proof. unfold is_like. rewrite andb_true_iff, !Z.eqb_eq. tauto. Qed.

Lemma is_follow_of (me target : Z) (e : Follow.t) :
  is_follow me target e = true <->
  Follow.follower_id e = me /\ Follow.following_id e = target.
Proof. unfold is_follow. rewrite andb_true_iff, !Z.eqb_eq. tauto. Qed.

(** The store a like toggle leaves. *)
Lemma toggle_like_store (st : Store) (me post_id now : Z) :
  snd (toggle_like st (Some me) post_id now)
  = match get_post st post_id with
    | None => st
    | Some _ =>
        match find (is_like me post_id) (likes st) with
        | Some e =>
            with_likes st
              (filter (fun l => negb (Like.id l =? Like.id e)) (likes st))
        | None =>
            with_likes st
              (likes st
               ++ [Like.mk (fresh_id (map Like.id (likes st))) me post_id now])
        end
    end.
Proof.
  unfold toggle_like. destruct (get_post st post_id); [|reflexivity].
  destruct (find (is_like me post_id) (likes st)); reflexivity.
Qed.

(** The store a follow toggle leaves. *)
Lemma toggle_follow_store (st : Store) (me target now : Z) :
  snd (toggle_follow st (Some me) target now)
  = if me =? target then st
    else
      match get_user st target with
      | None => st
      | Some _ =>
          match find (is_follow me target) (follows st) with
          | Some e =>
              with_follows st
                (filter (fun f => negb (Follow.id f =? Follow.id e))
                        (follows st))
          | None =>
              with_follows st
                (follows st
                 ++ [Follow.mk (fresh_id (map Follow.id (follows st)))
                               me target now])
          end
      end.
Proof.
  unfold toggle_follow. destruct (me =? target); [reflexivity|].
  destruct (get_user st target); [|reflexivity].
  destruct (find (is_follow me target) (follows st)); reflexivity.
Qed.

(** Two like toggles leave as many rows for every pair as there were,
    and touch no other table. *)
Lemma toggle_like_twice_counts (st : Store) (me post_id now now' : Z) :
  NoDup (map Like.id (likes st)) ->
  count (is_like me post_id) (likes st) <= 1 ->
  (forall u p,
      count (is_like u p)
            (likes (snd (toggle_like
                           (snd (toggle_like st (Some me) post_id now))
                           (Some me) post_id now')))
      = count (is_like u p) (likes st))
  /\ with_likes (snd (toggle_like (snd (toggle_like st (Some me) post_id now))
                                  (Some me) post_id now'))
                (likes st)
     = st.
Proof.
  intros ND Hone. rewrite (toggle_like_store st).
  destruct (get_post st post_id) as [post|] eqn:Hp.
  2:{ rewrite toggle_like_store, Hp.
      split; [reflexivity | apply with_likes_same]. }
  destruct (find (is_like me post_id) (likes st)) as [e|] eqn:Hfind.
  - (* the row is there: deleted, then added anew *)
    destruct (find_some _ _ Hfind) as [Hin He].
    set (rest := filter (fun l => negb (Like.id l =? Like.id e)) (likes st)).
    assert (Hrest : forall g, count g (likes st)
                              = count g rest + (if g e then 1 else 0))
      by (intros g; apply count_deleted; assumption).
    assert (Hnone : find (is_like me post_id) rest = None).
    { apply count_zero_find. specialize (Hrest (is_like me post_id)).
      rewrite He in Hrest. unfold count in *. lia. }
    rewrite toggle_like_store. unfold get_post in *.
    cbn [posts with_likes likes]. rewrite Hp, Hnone. cbn [likes with_likes].
    split; [|destruct st; reflexivity].
    intros u p. rewrite count_app, Hrest. f_equal.
    unfold count. cbn [filter].
    apply is_like_of in He. destruct He as [Hu Hq].
    unfold is_like. cbn [Like.user_id Like.post_id]. rewrite Hu, Hq.
    destruct ((me =? u) && (post_id =? p)); reflexivity.
  - (* no row: added, then deleted *)
    set (like := Like.mk (fresh_id (map Like.id (likes st))) me post_id now).
    assert (Hm : is_like me post_id like = true)
      by (apply is_like_of; split; reflexivity).
    rewrite toggle_like_store. unfold get_post in *.
    cbn [posts with_likes likes].
    rewrite Hp, (find_added _ _ _ Hfind Hm). cbn [likes with_likes].
    rewrite (delete_added Like.id (likes st) like eq_refl).
    split; [reflexivity | destruct st; reflexivity].
Qed.

(** Two follow toggles leave as many rows for every pair as there were,
    and touch no other table. *)
Lemma toggle_follow_twice_counts (st : Store) (me target now now' : Z) :
  NoDup (map Follow.id (follows st)) ->
  count (is_follow me target) (follows st) <= 1 ->
  (forall a b,
      count (is_follow a b)
            (follows (snd (toggle_follow
                             (snd (toggle_follow st (Some me) target now))
                             (Some me) target now')))
      = count (is_follow a b) (follows st))
  /\ with_follows (snd (toggle_follow
                          (snd (toggle_follow st (Some me) target now))
                          (Some me) target now'))
                  (follows st)
     = st.
Proof.
  intros ND Hone. rewrite (toggle_follow_store st).
  destruct (me =? target) eqn:Hself.
  { rewrite toggle_follow_store, Hself.
    split; [reflexivity | apply with_follows_same]. }
  destruct (get_user st target) as [user|] eqn:Hu.
  2:{ rewrite toggle_follow_store, Hself, Hu.
      split; [reflexivity | apply with_follows_same]. }
  destruct (find (is_follow me target) (follows st)) as [e|] eqn:Hfind.
  - destruct (find_some _ _ Hfind) as [Hin He].
    set (rest :=
           filter (fun f => negb (Follow.id f =? Follow.id e)) (follows st)).
    assert (Hrest : forall g, count g (follows st)
                              = count g rest + (if g e then 1 else 0))
      by (intros g; apply count_deleted; assumption).
    assert (Hnone : find (is_follow me target) rest = None).
    { apply count_zero_find. specialize (Hrest (is_follow me target)).
      rewrite He in Hrest. unfold count in *. lia. }
    rewrite toggle_follow_store, Hself. unfold get_user in *.
    cbn [users with_follows follows]. rewrite Hu, Hnone.
    cbn [follows with_follows].
    split; [|destruct st; reflexivity].
    intros a b. rewrite count_app, Hrest. f_equal.
    unfold count. cbn [filter].
    apply is_follow_of in He. destruct He as [Ha Hb].
    unfold is_follow. cbn [Follow.follower_id Follow.following_id].
    rewrite Ha, Hb.
    destruct ((me =? a) && (target =? b)); reflexivity.
  - set (follow :=
           Follow.mk (fresh_id (map Follow.id (follows st))) me target now).
    assert (Hm : is_follow me target follow = true)
      by (apply is_follow_of; split; reflexivity).
    rewrite toggle_follow_store, Hself. unfold get_user in *.
    cbn [users with_follows follows].
    rewrite Hu, (find_added _ _ _ Hfind Hm). cbn [follows with_follows].
    rewrite (delete_added Follow.id (follows st) follow eq_refl).
    split; [reflexivity | destruct st; reflexivity].
Qed.

(** C6: a follow toggle whose caller is its target is answered with the
    400 error [Cannot follow yourself] and the store is the one before:
    no follow row is added or deleted. *)
Theorem self_follow_rejected (st : Store) (me now : Z) :
  toggle_follow st (Some me) me now = (Rejected 400 SELF_FOLLOW, st).
Proof. unfold toggle_follow. rewrite Z.eqb_refl. reflexivity. Qed.

(** C3: for a pair with no row yet, the first toggle answers [liked]
    (resp. [followed]) and leaves exactly one row for the pair, and the
    second toggle answers [unliked] (resp. [unfollowed]) and gives back
    the store the first one started from.  The post (resp. the target
    account) exists, and follower and target differ.  Whether or not the
    pair has its row, in a table with pairwise distinct keys and at most
    one row for the pair, two toggles leave as many rows for every pair
    as there were and touch no other table. *)
Theorem toggle_twice_restores (st : Store) (me post_id target now now' : Z) :
  (get_post st post_id <> None ->
   count (is_like me post_id) (likes st) = 0 ->
   exists r r' st',
     toggle_like st (Some me) post_id now = (Json 200 r, st')
     /\ LikeResult.action r = "liked"%string
     /\ count (is_like me post_id) (likes st') = 1
     /\ toggle_like st' (Some me) post_id now' = (Json 200 r', st)
     /\ LikeResult.action r' = "unliked"%string)
  /\ (me <> target ->
      get_user st target <> None ->
      count (is_follow me target) (follows st) = 0 ->
      exists r r' st',
        toggle_follow st (Some me) target now = (Json 200 r, st')
        /\ FollowResult.action r = "followed"%string
        /\ count (is_follow me target) (follows st') = 1
        /\ toggle_follow st' (Some me) target now' = (Json 200 r', st)
        /\ FollowResult.action r' = "unfollowed"%string)
  /\ (NoDup (map Like.id (likes st)) ->
      count (is_like me post_id) (likes st) <= 1 ->
      (forall u p,
          count (is_like u p)
                (likes (snd (toggle_like
                               (snd (toggle_like st (Some me) post_id now))
                               (Some me) post_id now')))
          = count (is_like u p) (likes st))
      /\ with_likes
           (snd (toggle_like (snd (toggle_like st (Some me) post_id now))
                             (Some me) post_id now'))
           (likes st)
         = st)
  /\ (NoDup (map Follow.id (follows st)) ->
      count (is_follow me target) (follows st) <= 1 ->
      (forall a b,
          count (is_follow a b)
                (follows (snd (toggle_follow
                                 (snd (toggle_follow st (Some me) target now))
                                 (Some me) target now')))
          = count (is_follow a b) (follows st))
      /\ with_follows
           (snd (toggle_follow (snd (toggle_follow st (Some me) target now))
                               (Some me) target now'))
           (follows st)
         = st).
Proof.
  split; [|split; [|split]].
  - intros Hpost Hnone.
    pose proof Hnone as Hfind. apply count_zero_find in Hfind.
    set (like := Like.mk (fresh_id (map Like.id (likes st))) me post_id now).
    assert (Hm : is_like me post_id like = true)
      by (unfold is_like; simpl; rewrite !Z.eqb_refl; reflexivity).
    unfold toggle_like at 1.
    destruct (get_post st post_id) as [post|] eqn:Hp; [|congruence].
    rewrite Hfind. fold like.
    eexists _, _, _. split; [reflexivity|].
    split; [reflexivity|].
    split; [simpl; rewrite (count_added _ _ _ Hm), Hnone; reflexivity|].
    unfold toggle_like. unfold get_post in *. simpl. rewrite Hp.
    rewrite (find_added _ _ _ Hfind Hm).
    rewrite (delete_added Like.id (likes st) like eq_refl).
    unfold with_likes; simpl. fold (with_likes st (likes st)).
    rewrite with_likes_same. split; reflexivity.
  - intros Hne Htarget Hnone.
    pose proof Hnone as Hfind. apply count_zero_find in Hfind.
    set (follow :=
           Follow.mk (fresh_id (map Follow.id (follows st))) me target now).
    assert (Hm : is_follow me target follow = true)
      by (unfold is_follow; simpl; rewrite !Z.eqb_refl; reflexivity).
    apply Z.eqb_neq in Hne.
    unfold toggle_follow at 1. rewrite Hne.
    destruct (get_user st target) as [user|] eqn:Hu; [|congruence].
    rewrite Hfind. fold follow.
    eexists _, _, _. split; [reflexivity|].
    split; [reflexivity|].
    split; [simpl; rewrite (count_added _ _ _ Hm), Hnone; reflexivity|].
    unfold toggle_follow. rewrite Hne. unfold get_user in *. simpl. rewrite Hu.
    rewrite (find_added _ _ _ Hfind Hm).
    rewrite (delete_added Follow.id (follows st) follow eq_refl).
    unfold with_follows; simpl. fold (with_follows st (follows st)).
    rewrite with_follows_same. split; reflexivity.
  - apply toggle_like_twice_counts.
  - apply toggle_follow_twice_counts.
Qed.

(** ** Creating posts and comments *)

Lemma nonempty_len (s : pystr) : nonempty s = true <-> 0 < len s.
Proof. unfold len. destruct s; cbn [nonempty length]; split; lia || congruence. Qed.

Lemma bad_content_iff (content : pystr) :
  bad_content content = false <-> 0 < len content <= 280.
Proof.
  unfold bad_content. rewrite orb_false_iff, negb_false_iff, nonempty_len.
  rewrite Z.ltb_ge. tauto.
Qed.

Lemma content_of_some (data : body) (text : pystr) :
  data_get data (py "content") = Some text -> content_of data = strip text.
Proof. unfold content_of. intros ->. reflexivity. Qed.

Lemma find_fresh_key {R : Type} (key : R -> Z) (rows : list R) :
  find (fun r => key r =? fresh_id (map key rows)) rows = None.
Proof.
  destruct (find _ rows) as [r|] eqn:E; [|reflexivity].
  apply find_some in E. destruct E as [Hin Hkey]. apply Z.eqb_eq in Hkey.
  pose proof (fresh_id_above (map key rows) (key r) (in_map key rows r Hin)).
  lia.
Qed.

(** C5: with the caller identified, [create_post] and [create_comment]
    answer the one 400 error [Content must be between 1 and 280
    characters] and leave the store alone, both when the text is empty
    once stripped and when its stripped length exceeds 280; a stripped
    length from 1 to 280 (280 included) is accepted, the caller's account
    (and, for a comment, the post) being there: the answer has status 201
    and shows the stripped text under a new key, and in the store left
    the table of posts (resp. comments) is the one before with the new
    row at its end, the other tables are the ones before, and the new
    post is read back by its key. *)
Theorem content_length_enforced (st : Store) (me post_id now : Z)
    (data : body) (text : pystr) :
  data_get data (py "content") = Some text ->
  (strip text = [] ->
   create_post st (Some me) data now = (Rejected 400 CONTENT_LENGTH, st)
   /\ create_comment st (Some me) post_id data now
      = (Rejected 400 CONTENT_LENGTH, st))
  /\ (280 < len (strip text) ->
      create_post st (Some me) data now = (Rejected 400 CONTENT_LENGTH, st)
      /\ create_comment st (Some me) post_id data now
         = (Rejected 400 CONTENT_LENGTH, st))
  /\ (0 < len (strip text) <= 280 -> get_user st me <> None ->
      let post :=
        Post.mk (fresh_id (map Post.id (posts st))) me (strip text)
                (data_get data (py "image_url")) now now in
      exists view st',
        create_post st (Some me) data now
        = (Json 201 (WithMessage view "Post created successfully"), st')
        /\ posts st' = posts st ++ [post]
        /\ users st' = users st /\ likes st' = likes st
        /\ comments st' = comments st /\ follows st' = follows st
        /\ get_post st' (Post.id post) = Some post
        /\ get_post st (Post.id post) = None
        /\ PostView.content view = strip text
        /\ PostView.id view = Post.id post)
  /\ (0 < len (strip text) <= 280 -> get_user st me <> None ->
      get_post st post_id <> None ->
      let comment :=
        Comment.mk (fresh_id (map Comment.id (comments st))) me post_id
                   (strip text) now now in
      exists view st',
        create_comment st (Some me) post_id data now
        = (Json 201 (WithMessage view "Comment created successfully"), st')
        /\ comments st' = comments st ++ [comment]
        /\ users st' = users st /\ posts st' = posts st
        /\ likes st' = likes st /\ follows st' = follows st
        /\ count (fun c => Comment.post_id c =? post_id) (comments st')
           = count (fun c => Comment.post_id c =? post_id) (comments st) + 1
        /\ CommentView.content view = strip text
        /\ CommentView.id view = Comment.id comment).
Proof.
  intros Hdata. apply content_of_some in Hdata.
  split; [|split; [|split]].
  - intros H. unfold create_post, create_comment. rewrite Hdata, H.
    split; reflexivity.
  - intros H. unfold create_post, create_comment. rewrite Hdata.
    assert (bad_content (strip text) = true) as ->.
    { unfold bad_content. apply orb_true_iff. right. apply Z.ltb_lt, H. }
    split; reflexivity.
  - intros Hlen Huser post. apply bad_content_iff in Hlen.
    unfold create_post. rewrite Hdata, Hlen. fold post.
    unfold serialize_post.
    change (get_user (with_posts st ?rows) ?i) with (get_user st i).
    cbn [Post.user_id post].
    destruct (get_user st me) as [author|]; [|congruence].
    eexists _, _. split; [reflexivity|].
    assert (Hnone : get_post st (Post.id post) = None)
      by apply (find_fresh_key Post.id).
    repeat (split; [reflexivity|]).
    split; [|split; [exact Hnone | split; reflexivity]].
    unfold get_post, with_posts. cbn [posts].
    apply find_added; [exact Hnone | apply Z.eqb_refl].
  - intros Hlen Huser Hpost comment. apply bad_content_iff in Hlen.
    unfold create_comment. rewrite Hdata, Hlen.
    destruct (get_post st post_id) as [post|]; [|congruence].
    fold comment. unfold serialize_comment.
    change (get_user (with_comments st ?rows) ?i) with (get_user st i).
    cbn [Comment.user_id comment].
    destruct (get_user st me) as [author|]; [|congruence].
    eexists _, _. split; [reflexivity|].
    repeat (split; [reflexivity|]).
    split; [|split; reflexivity].
    unfold with_comments. cbn [comments].
    apply count_added. cbn [Comment.post_id comment]. apply Z.eqb_refl.
Qed.

(** ** The profile *)

Lemma get_user_updated (f : User.t -> User.t) (me : Z) (rows : list User.t) :
  (forall u, User.id (f u) = User.id u) ->
  find (fun u => User.id u =? me)
       (map (fun u => if User.id u =? me then f u else u) rows)
  = option_map f (find (fun u => User.id u =? me) rows).
Proof.
  intros Hid. induction rows as [|u rows IH]; simpl; [reflexivity|].
  destruct (User.id u =? me) eqn:E.
  - rewrite Hid, E. reflexivity.
  - rewrite E. exact IH.
Qed.

(** C7: with the caller's account there and a [bio] in the request, the
    update is answered with status 200 whatever the length of the text,
    and the caller's row and the returned view hold the first 160
    characters of the text; for a text of 200 characters, exactly 160. *)
Theorem bio_truncated (st : Store) (me now : Z) (user : User.t)
    (data : body) (text : pystr) :
  get_user st me = Some user ->
  data_get data (py "bio") = Some text ->
  exists view st',
    update_profile st (Some me) data now
    = (Json 200 (WithMessage view "Profile updated successfully"), st')
    /\ UserView.bio view = firstn 160 text
    /\ option_map User.bio (get_user st' me) = Some (Some (firstn 160 text))
    /\ len (firstn 160 text) = Z.min 160 (len text)
    /\ (len text = 200 -> len (firstn 160 text) = 160).
Proof.
  intros Huser Hbio. unfold update_profile. rewrite Huser.
  eexists _, _. split; [reflexivity|].
  assert (Hlen : len (firstn 160 text) = Z.min 160 (len text)).
  { unfold len. rewrite length_firstn. lia. }
  repeat split.
  - unfold serialize_user, set_profile. cbn [UserView.bio User.bio].
    rewrite Hbio. reflexivity.
  - unfold get_user in *. cbn [users with_users].
    rewrite get_user_updated by reflexivity. rewrite Huser.
    unfold set_profile. cbn [option_map User.bio]. rewrite Hbio. reflexivity.
  - exact Hlen.
  - intros H200. rewrite Hlen, H200. reflexivity.
Qed.

(** C10: whatever the caller and the request body, [update_profile]
    leaves the posts, likes, comments and follows as they were, keeps the
    rows of the accounts in place, leaves every account but the caller's
    untouched, and on any row changes at most [bio] and [updated_at]. *)
Theorem update_profile_frame (st : Store) (current_user_id : caller)
    (data : body) (now : Z) :
  let st' := snd (update_profile st current_user_id data now) in
  posts st' = posts st /\ likes st' = likes st
  /\ comments st' = comments st /\ follows st' = follows st
  /\ Forall2
       (fun u u' =>
          User.id u' = User.id u
          /\ User.telegram_id u' = User.telegram_id u
          /\ User.username u' = User.username u
          /\ User.first_name u' = User.first_name u
          /\ User.last_name u' = User.last_name u
          /\ User.language_code u' = User.language_code u
          /\ User.photo_url u' = User.photo_url u
          /\ User.created_at u' = User.created_at u
          /\ (current_user_id <> Some (User.id u) -> u' = u))
       (users st) (users st').
Proof.
  assert (Hsame : forall rows : list User.t,
             Forall2 (fun u u' =>
               User.id u' = User.id u
               /\ User.telegram_id u' = User.telegram_id u
               /\ User.username u' = User.username u
               /\ User.first_name u' = User.first_name u
               /\ User.last_name u' = User.last_name u
               /\ User.language_code u' = User.language_code u
               /\ User.photo_url u' = User.photo_url u
               /\ User.created_at u' = User.created_at u
               /\ (current_user_id <> Some (User.id u) -> u' = u)) rows rows).
  { induction rows; constructor; auto. repeat split; auto. }
  unfold update_profile.
  destruct current_user_id as [me|]; cbn [snd]; [|repeat split; auto].
  destruct (get_user st me) as [user|]; cbn [snd]; [|repeat split; auto].
  cbn [posts likes comments follows users with_users].
  repeat split; auto.
  clear Hsame. induction (users st) as [|u rows IH]; simpl; constructor; auto.
  destruct (Z.eqb_spec (User.id u) me) as [E|E].
  - repeat split; try reflexivity. intros Hc. congruence.
  - repeat split; reflexivity.
Qed.

(** ** Lists of views *)

Section Traverse.

Context {A B : Type} (f : A -> option B).

Lemma traverse_Forall2 (rows : list A) (views : list B) :
  traverse f rows = Some views ->
  Forall2 (fun x v => f x = Some v) rows views.
Proof.
  revert views; induction rows as [|x rows IH]; simpl; intros views.
  - intros [= <-]. constructor.
  - destruct (f x) as [y|] eqn:E; [|discriminate].
    destruct (traverse f rows) as [ys|]; [|discriminate].
    intros [= <-]. constructor; auto.
Qed.

Lemma traverse_total (rows : list A) :
  (forall x, In x rows -> f x <> None) ->
  exists views, traverse f rows = Some views.
Proof.
  induction rows as [|x rows IH]; simpl; intros H; [eauto|].
  destruct (f x) as [y|] eqn:E; [|exfalso; apply (H x); auto].
  destruct IH as [ys ->]; eauto.
Qed.

End Traverse.

Lemma In_firstn {A : Type} (n : nat) (l : list A) (x : A) :
  In x (firstn n l) -> In x l.
Proof.
  revert l; induction n as [|n IH]; intros [|y l]; simpl; try tauto.
  intros [->|H]; auto.
Qed.

Lemma In_skipn {A : Type} (n : nat) (l : list A) (x : A) :
  In x (skipn n l) -> In x l.
Proof.
  revert l; induction n as [|n IH]; intros [|y l]; simpl; try tauto.
  auto.
Qed.

Section Sorted.

Context {A : Type} (R : A -> A -> Prop).

Lemma StronglySorted_skipn (n : nat) (l : list A) :
  StronglySorted R l -> StronglySorted R (skipn n l).
Proof.
  revert l; induction n as [|n IH]; intros l H; [exact H|].
  destruct H; simpl; [constructor | auto].
Qed.

Lemma StronglySorted_firstn (n : nat) (l : list A) :
  StronglySorted R l -> StronglySorted R (firstn n l).
Proof.
  revert l; induction n as [|n IH]; intros l H; [constructor|].
  destruct H as [|x l Hs Hx]; simpl; constructor; auto.
  rewrite Forall_forall in *. intros y Hy. apply Hx.
  eapply In_firstn; eauto.
Qed.

(** Sortedness carries over along a pointwise relation between lists. *)
Lemma StronglySorted_Forall2 {B : Type} (R' : B -> B -> Prop)
    (P : A -> B -> Prop) (l : list A) (l' : list B) :
  (forall x y x' y', P x x' -> P y y' -> R x y -> R' x' y') ->
  Forall2 P l l' -> StronglySorted R l -> StronglySorted R' l'.
Proof.
  intros HP F. induction F as [|x x' l l' Hx F IH]; intros S; [constructor|].
  inversion S as [|? ? Hs Hall]; subst. constructor; auto.
  clear IH S Hs. induction F as [|y y' l l' Hy F IH]; constructor.
  - inversion Hall; subst. eapply HP; eauto.
  - apply IH. inversion Hall; auto.
Qed.

End Sorted.

Lemma StronglySorted_impl {A : Type} (R R' : A -> A -> Prop) (l : list A) :
  (forall x y, R x y -> R' x y) -> StronglySorted R l -> StronglySorted R' l.
Proof.
  intros H. induction 1 as [|x l Hs IH Hx]; constructor; auto.
  eapply Forall_impl; [|exact Hx]. auto.
Qed.

Lemma In_paginate {A : Type} (max_per_page : option Z) (page per_page : Z)
    (query : list A) (x : A) :
  In x (items (paginate max_per_page page per_page query)) -> In x query.
Proof.
  unfold paginate; cbn [items]. intros H.
  exact (In_skipn _ _ _ (In_firstn _ _ _ H)).
Qed.

Lemma StronglySorted_paginate {A : Type} (R : A -> A -> Prop)
    (max_per_page : option Z) (page per_page : Z) (query : list A) :
  StronglySorted R query ->
  StronglySorted R (items (paginate max_per_page page per_page query)).
Proof.
  intros H. unfold paginate; cbn [items].
  apply StronglySorted_firstn, StronglySorted_skipn, H.
Qed.

(** ** The comments of a post *)


(** ** The feed *)

Lemma in_add_to_group (groups : list (Post.t * Z)) (p : Post.t)
    (g : Post.t * Z) :
  In g (add_to_group groups p) -> In (fst g) (map fst groups) \/ fst g = p.
Proof.
  induction groups as [|[q n] groups IH]; simpl.
  - intros [<-|[]]. auto.
  - destruct (Post.id p =? Post.id q); simpl.
    + intros [<-|H]; auto. left. right. apply (in_map fst) in H. exact H.
    + intros [<-|H]; auto. destruct (IH H); auto.
Qed.

Lemma in_group_by (rows : list (Post.t * Like.t)) (acc : list (Post.t * Z))
    (g : Post.t * Z) :
  In g (fold_left (fun groups row => add_to_group groups (fst row)) rows acc) ->
  In (fst g) (map fst acc) \/ In (fst g) (map fst rows).
Proof.
  revert acc; induction rows as [|r rows IH]; simpl; intros acc H.
  - left. apply in_map, H.
  - destruct (IH _ H) as [H'|H']; auto.
    apply in_map_iff in H'. destruct H' as (g' & E & H').
    destruct (in_add_to_group _ _ _ H') as [H''|H'']; rewrite <- E; auto.
Qed.

(** A post the ['trending'] query returns has a like. *)
Lemma trending_liked (st : Store) (p : Post.t) :
  In p (trending st) -> 0 < like_count st p.
Proof.
  unfold trending. intros H. apply in_map_iff in H.
  destruct H as (g & <- & H).
  eapply Permutation_in in H; [|apply sort_by_perm].
  apply in_group_by in H. destruct H as [[]|H].
  apply in_map_iff in H. destruct H as ([q l] & E & H). simpl in E. subst q.
  unfold join_likes in H. apply in_flat_map in H.
  destruct H as (p' & _ & H). apply in_map_iff in H.
  destruct H as (l' & E & H). injection E as -> ->.
  unfold like_count, count.
  destruct (filter _ (likes st)); [destruct H | cbn [length]; lia].
Qed.

Lemma add_to_group_new (groups : list (Post.t * Z)) (p : Post.t) :
  ~ In (Post.id p) (map (fun g => Post.id (fst g)) groups) ->
  add_to_group groups p = groups ++ [(p, 1)].
Proof.
  induction groups as [|[q n] groups IH]; simpl; intros H; [reflexivity|].
  destruct (Z.eqb_spec (Post.id p) (Post.id q)) as [E|_].
  - exfalso. apply H. auto.
  - rewrite IH by tauto. reflexivity.
Qed.

Lemma add_to_group_last (groups : list (Post.t * Z)) (p : Post.t) (n : Z) :
  ~ In (Post.id p) (map (fun g => Post.id (fst g)) groups) ->
  add_to_group (groups ++ [(p, n)]) p = groups ++ [(p, n + 1)].
Proof.
  induction groups as [|[q m] groups IH]; simpl; intros H.
  - rewrite Z.eqb_refl. reflexivity.
  - destruct (Z.eqb_spec (Post.id p) (Post.id q)) as [E|_].
    + exfalso. apply H. auto.
    + rewrite IH by tauto. reflexivity.
Qed.

Lemma group_more_rows (groups : list (Post.t * Z)) (p : Post.t) (n : Z)
    (ls : list Like.t) :
  ~ In (Post.id p) (map (fun g => Post.id (fst g)) groups) ->
  fold_left (fun groups row => add_to_group groups (fst row))
            (map (pair p) ls) (groups ++ [(p, n)])
  = groups ++ [(p, n + Z.of_nat (length ls))].
Proof.
  intros H. revert n; induction ls as [|l ls IH]; intros n; cbn [map fold_left fst length].
  - rewrite Z.add_0_r. reflexivity.
  - rewrite add_to_group_last by exact H. rewrite IH.
    do 3 f_equal. lia.
Qed.

Lemma group_rows_of_post (st : Store) (groups : list (Post.t * Z))
    (p : Post.t) :
  ~ In (Post.id p) (map (fun g => Post.id (fst g)) groups) ->
  fold_left (fun groups row => add_to_group groups (fst row))
            (map (pair p)
                 (filter (fun l => Like.post_id l =? Post.id p) (likes st)))
            groups
  = groups ++ group_of st p.
Proof.
  intros H. unfold group_of, like_count, count.
  destruct (filter _ (likes st)) as [|l ls]; cbn [map fold_left fst length].
  - rewrite app_nil_r. reflexivity.
  - rewrite add_to_group_new by exact H.
    rewrite group_more_rows by exact H.
    destruct (Z.ltb_spec 0 (Z.of_nat (S (length ls)))); [|lia].
    do 3 f_equal. lia.
Qed.

Lemma group_of_ids (st : Store) (p : Post.t) (i : Z) :
  In i (map (fun g => Post.id (fst g)) (group_of st p)) -> i = Post.id p.
Proof.
  unfold group_of. destruct (0 <? like_count st p); simpl; intuition.
Qed.

(** With pairwise distinct post keys, the groups are those of the posts
    taken one by one. *)
Lemma group_by_join (st : Store) (rows : list Post.t)
    (groups : list (Post.t * Z)) :
  NoDup (map Post.id rows) ->
  (forall i, In i (map (fun g => Post.id (fst g)) groups) ->
             ~ In i (map Post.id rows)) ->
  fold_left (fun groups row => add_to_group groups (fst row))
            (flat_map
               (fun p => map (pair p)
                  (filter (fun l => Like.post_id l =? Post.id p) (likes st)))
               rows)
            groups
  = groups ++ flat_map (group_of st) rows.
Proof.
  revert groups; induction rows as [|p rows IH]; intros groups ND Hd;
    cbn [flat_map map].
  - rewrite app_nil_r. reflexivity.
  - inversion ND as [|? ? Hp ND']; subst.
    rewrite fold_left_app, group_rows_of_post.
    + rewrite IH; [rewrite <- app_assoc; reflexivity | exact ND' |].
      intros i Hi Hin. rewrite map_app in Hi. apply in_app_or in Hi.
      destruct Hi as [Hi|Hi].
      * apply (Hd i Hi). right. exact Hin.
      * apply group_of_ids in Hi. subst i. contradiction.
    + intros Hin. apply (Hd _ Hin). left. reflexivity.
Qed.

Lemma groups_of_store (st : Store) :
  NoDup (map Post.id (posts st)) ->
  group_by_post (join_likes st) = flat_map (group_of st) (posts st).
Proof.
  intros ND. unfold group_by_post, join_likes.
  rewrite group_by_join; [reflexivity | exact ND | intros i []].
Qed.

Lemma group_counts (st : Store) (g : Post.t * Z) :
  NoDup (map Post.id (posts st)) ->
  In g (group_by_post (join_likes st)) -> snd g = like_count st (fst g).
Proof.
  intros ND H. rewrite groups_of_store in H by exact ND.
  apply in_flat_map in H. destruct H as (p & _ & H).
  unfold group_of in H. destruct (0 <? like_count st p); [|destruct H].
  destruct H as [<-|[]]. reflexivity.
Qed.

Lemma more_liked_first_total (g h : Post.t * Z) :
  more_liked_first g h = true \/ more_liked_first h g = true.
Proof.
  unfold more_liked_first, newer_first.
  rewrite !orb_true_iff, !andb_true_iff, !Z.ltb_lt, !Z.eqb_eq, !Z.leb_le. lia.
Qed.

Lemma more_liked_first_trans (g h k : Post.t * Z) :
  more_liked_first g h = true -> more_liked_first h k = true ->
  more_liked_first g k = true.
Proof.
  unfold more_liked_first, newer_first.
  rewrite !orb_true_iff, !andb_true_iff, !Z.ltb_lt, !Z.eqb_eq, !Z.leb_le. lia.
Qed.

Lemma trending_sorted (st : Store) :
  NoDup (map Post.id (posts st)) ->
  StronglySorted (trending_order st) (trending st).
Proof.
  intros ND. unfold trending.
  set (groups := sort_by more_liked_first (group_by_post (join_likes st))).
  assert (Hs : StronglySorted (fun g h => more_liked_first g h = true) groups)
    by (apply sort_by_sorted;
        [apply more_liked_first_total | apply more_liked_first_trans]).
  assert (Hc : Forall (fun g => snd g = like_count st (fst g)) groups).
  { apply Forall_forall. intros g Hg. apply group_counts; [exact ND|].
    eapply Permutation_in; [apply sort_by_perm | exact Hg]. }
  clearbody groups.
  eapply StronglySorted_Forall2 with
    (P := fun g p => p = fst g /\ snd g = like_count st p); [| | exact Hs].
  - intros g h p q [-> Hg] [-> Hh]. unfold more_liked_first, newer_first.
    rewrite orb_true_iff, andb_true_iff, Z.ltb_lt, Z.eqb_eq, Z.leb_le.
    unfold trending_order. rewrite <- Hg, <- Hh. tauto.
  - clear Hs. induction Hc; simpl; constructor; auto.
Qed.

Lemma trending_in_posts (st : Store) (p : Post.t) :
  In p (trending st) -> In p (posts st).
Proof.
  unfold trending. intros H. apply in_map_iff in H.
  destruct H as (g & <- & H).
  eapply Permutation_in in H; [|apply sort_by_perm].
  apply in_group_by in H. destruct H as [[]|H].
  apply in_map_iff in H. destruct H as ([q l] & E & H). simpl in E. subst q.
  unfold join_likes in H. apply in_flat_map in H.
  destruct H as (p' & Hp & H). apply in_map_iff in H.
  destruct H as (l' & E & H). injection E as -> ->. exact Hp.
Qed.

Lemma serialize_post_view (st : Store) (p : Post.t) (c : caller)
    (v : PostView.t) :
  serialize_post st p c = Some v ->
  PostView.likes_count v = like_count st p
  /\ PostView.created_at v = Post.created_at p.
Proof.
  unfold serialize_post.
  destruct (get_user st (Post.user_id p)); [|discriminate].
  intros [= <-]. split; reflexivity.
Qed.

Lemma feed_query_trending (st : Store) (c : caller) :
  feed_query st c (py "trending") = trending st.
Proof. destruct c; reflexivity. Qed.

Section FeedFacts.

Variable max_per_page : option Z.

(** C4: whatever the store, no post of a ['trending'] response has zero
    likes; and when the keys of the posts are pairwise distinct and their
    authors have rows, the response has status 200 and lists its posts by
    like count, descending, posts with as many likes by [created_at],
    descending. *)
Theorem trending_feed (st : Store) (current_user_id : caller)
    (page per_page : Z) :
  (forall body,
     get_posts max_per_page st current_user_id (py "trending") page per_page
     = Json 200 body ->
     Forall (fun v => 0 < PostView.likes_count v) (Feed.posts body))
  /\ (NoDup (map Post.id (posts st)) ->
      (forall p, In p (posts st) -> get_user st (Post.user_id p) <> None) ->
      exists body,
        get_posts max_per_page st current_user_id (py "trending")
                  page per_page
        = Json 200 body
        /\ Forall (fun v => 0 < PostView.likes_count v) (Feed.posts body)
        /\ StronglySorted
             (fun v w =>
                PostView.likes_count w < PostView.likes_count v
                \/ (PostView.likes_count w = PostView.likes_count v
                    /\ PostView.created_at w <= PostView.created_at v))
             (Feed.posts body)).
Proof.
  unfold get_posts. rewrite feed_query_trending.
  set (page_rows := items (paginate max_per_page page per_page (trending st))).
  assert (Hliked : forall views,
            traverse (fun post => serialize_post st post current_user_id)
                     page_rows = Some views ->
            Forall (fun v => 0 < PostView.likes_count v) views).
  { intros views Hv. apply traverse_Forall2 in Hv.
    assert (Hin : forall p, In p page_rows -> In p (trending st))
      by (intros p; apply In_paginate).
    clearbody page_rows.
    induction Hv as [|p v rows views Hp Hv IH]; constructor.
    - apply serialize_post_view in Hp. destruct Hp as [-> _].
      apply trending_liked, Hin. left. reflexivity.
    - apply IH. intros q Hq. apply Hin. right. exact Hq. }
  split.
  - intros body.
    destruct (traverse _ page_rows) as [views|]; [|discriminate].
    intros [= <-]. cbn [Feed.posts]. auto.
  - intros ND Hauthors.
    destruct (traverse_total
                (fun post => serialize_post st post current_user_id)
                page_rows) as [views Hviews].
    { intros p Hp. apply In_paginate, trending_in_posts in Hp.
      specialize (Hauthors p Hp). unfold serialize_post.
      destruct (get_user st (Post.user_id p)); congruence. }
    rewrite Hviews. eexists. split; [reflexivity|].
    cbn [Feed.posts]. split; [auto|].
    eapply StronglySorted_Forall2 with
      (R := trending_order st)
      (P := fun p v => serialize_post st p current_user_id = Some v).
    + intros p q v w Hp Hq.
      apply serialize_post_view in Hp, Hq.
      destruct Hp as [-> ->], Hq as [-> ->]. auto.
    + apply traverse_Forall2, Hviews.
    + apply StronglySorted_paginate, trending_sorted, ND.
Qed.

(** C2, as amended: with the filter ['following'] and no caller, the feed
    is the ['latest'] feed: the query is all the posts of the store, each
    once, the newest first, and the response is that of ['latest'] at
    every page and page size. *)
Theorem following_without_viewer (st : Store) (page per_page : Z) :
  feed_query st None (py "following") = sort_by newer_first (posts st)
  /\ Permutation (feed_query st None (py "following")) (posts st)
  /\ StronglySorted (fun p q => Post.created_at q <= Post.created_at p)
                    (feed_query st None (py "following"))
  /\ get_posts max_per_page st None (py "following") page per_page
     = get_posts max_per_page st None (py "latest") page per_page.
Proof.
  assert (Hq : feed_query st None (py "following")
               = sort_by newer_first (posts st)) by reflexivity.
  split; [exact Hq|]. rewrite Hq.
  split; [apply sort_by_perm|].
  split; [|reflexivity].
  apply StronglySorted_impl with (R := fun p q => newer_first p q = true).
  - intros p q. unfold newer_first. apply Z.leb_le.
  - apply sort_by_sorted; unfold newer_first; intros.
    + destruct (Z.leb_spec (Post.created_at y) (Post.created_at x));
        [auto | right; apply Z.leb_le; lia].
    + apply Z.leb_le in H, H0. apply Z.leb_le. lia.
Qed.

End FeedFacts.

(** ** The handlers on the demo store *)

(** C2, the counterexample: with the filter ['following'] and no caller,
    the first page of twenty holds the three posts of the store, the
    newest first. *)
Lemma following_without_viewer_not_empty :
  exists body,
    get_posts None demo_store None (py "following") 1 20 = Json 200 body
    /\ map PostView.id (Feed.posts body) = [3; 2; 1]
    /\ Feed.total body = 3.
Proof. eexists. split; [lazy; reflexivity | split; reflexivity]. Qed.

(** A caller who follows nobody gets an empty page. *)
Example following_nobody_empty :
  exists body,
    get_posts None demo_store (Some 2) (py "following") 1 20 = Json 200 body
    /\ Feed.posts body = [] /\ Feed.total body = 0.
Proof. eexists. split; [lazy; reflexivity | split; reflexivity]. Qed.

(** The trending page of the demo store: the post with two likes, then
    the post with one; the post without a like is left out. *)
Example trending_demo :
  exists body,
    get_posts None demo_store None (py "trending") 1 20 = Json 200 body
    /\ map PostView.id (Feed.posts body) = [1; 2]
    /\ map PostView.likes_count (Feed.posts body) = [2; 1].
Proof. eexists. split; [lazy; reflexivity | split; reflexivity]. Qed.

(** C4 on the demo store. *)
Lemma trending_feed_witness :
  exists body,
    get_posts None demo_store (Some 1) (py "trending") 1 20 = Json 200 body
    /\ Forall (fun v => 0 < PostView.likes_count v) (Feed.posts body)
    /\ StronglySorted
         (fun v w =>
            PostView.likes_count w < PostView.likes_count v
            \/ (PostView.likes_count w = PostView.likes_count v
                /\ PostView.created_at w <= PostView.created_at v))
         (Feed.posts body).
Proof.
  apply (trending_feed None demo_store (Some 1) 1 20).
  - distinct_by_computation.
  - simpl. intros p [<-|[<-|[<-|[]]]]; vm_compute; discriminate.
Defined.

(** C3 on the demo store: [bob] and the third post, [bob] and [alice],
    pairs without a row; [alice] and the second post, [alice] and [bob],
    pairs with their row. *)
Lemma toggle_twice_restores_witness :
  (exists r r' st',
     toggle_like demo_store (Some 2) 3 400 = (Json 200 r, st')
     /\ LikeResult.action r = "liked"%string
     /\ count (is_like 2 3) (likes st') = 1
     /\ toggle_like st' (Some 2) 3 500 = (Json 200 r', demo_store)
     /\ LikeResult.action r' = "unliked"%string)
  /\ (exists r r' st',
        toggle_follow demo_store (Some 2) 1 400 = (Json 200 r, st')
        /\ FollowResult.action r = "followed"%string
        /\ count (is_follow 2 1) (follows st') = 1
        /\ toggle_follow st' (Some 2) 1 500 = (Json 200 r', demo_store)
        /\ FollowResult.action r' = "unfollowed"%string)
  /\ (forall u p,
        count (is_like u p)
              (likes (snd (toggle_like
                             (snd (toggle_like demo_store (Some 1) 2 400))
                             (Some 1) 2 500)))
        = count (is_like u p) (likes demo_store))
  /\ (forall a b,
        count (is_follow a b)
              (follows (snd (toggle_follow
                               (snd (toggle_follow demo_store (Some 1) 2 400))
                               (Some 1) 2 500)))
        = count (is_follow a b) (follows demo_store)).
Proof.
  split; [|split; [|split]].
  - apply (toggle_twice_restores demo_store 2 3 1 400 500).
    + vm_compute. discriminate.
    + reflexivity.
  - apply (toggle_twice_restores demo_store 2 3 1 400 500).
    + lia.
    + vm_compute. discriminate.
    + reflexivity.
  - apply (toggle_twice_restores demo_store 1 2 2 400 500).
    + distinct_by_computation.
    + vm_compute. discriminate.
  - apply (toggle_twice_restores demo_store 1 2 2 400 500).
    + distinct_by_computation.
    + vm_compute. discriminate.
Defined.

(** When the pair has its row already, the two toggles delete it and add
    a new one: the row of the pair is there again, dated anew. *)
Example toggle_twice_existing_row :
  find (is_like 1 2) (likes demo_store) = Some (Like.mk 2 1 2 220)
  /\ find (is_like 1 2)
          (likes (snd (toggle_like
                         (snd (toggle_like demo_store (Some 1) 2 400))
                         (Some 1) 2 500)))
     = Some (Like.mk 4 1 2 500).
Proof. vm_compute. split; reflexivity. Qed.

Example empty_content_rejected :
  create_post demo_store (Some 1) [(py "content", py "   ")] 400
  = (Rejected 400 CONTENT_LENGTH, demo_store)
  /\ create_comment demo_store (Some 1) 1 [(py "content", py "   ")] 400
     = (Rejected 400 CONTENT_LENGTH, demo_store).
Proof. vm_compute. split; reflexivity. Qed.

Example long_content_rejected :
  create_post demo_store (Some 1) [(py "content", text_281)] 400
  = (Rejected 400 CONTENT_LENGTH, demo_store)
  /\ create_comment demo_store (Some 1) 1 [(py "content", text_281)] 400
     = (Rejected 400 CONTENT_LENGTH, demo_store).
Proof. vm_compute. split; reflexivity. Qed.

(** C5 on the demo store, for a text of exactly 280 characters once
    stripped. *)
Lemma content_length_enforced_witness :
  len (strip text_280) = 280
  /\ (exists view st',
        create_post demo_store (Some 1) [(py "content", text_280)] 400
        = (Json 201 (WithMessage view "Post created successfully"), st')
        /\ posts st'
           = posts demo_store ++ [Post.mk 4 1 (strip text_280) None 400 400]
        /\ get_post st' 4 = Some (Post.mk 4 1 (strip text_280) None 400 400)
        /\ PostView.content view = strip text_280
        /\ PostView.id view = 4)
  /\ (exists view st',
        create_comment demo_store (Some 1) 1 [(py "content", text_280)] 400
        = (Json 201 (WithMessage view "Comment created successfully"), st')
        /\ comments st'
           = comments demo_store
             ++ [Comment.mk 3 1 1 (strip text_280) 400 400]
        /\ CommentView.content view = strip text_280
        /\ CommentView.id view = 3).
Proof.
  assert (Hlen : len (strip text_280) = 280) by (vm_compute; reflexivity).
  destruct (content_length_enforced demo_store 1 1 400
              [(py "content", text_280)] text_280 eq_refl)
    as (_ & _ & Hpost & Hcomment).
  split; [exact Hlen|]. split.
  - destruct Hpost as (view & st' & H & Hrows & _ & _ & _ & _ & Hget & _ & Hc & Hi);
      [rewrite Hlen; lia | vm_compute; discriminate |].
    exists view, st'. repeat split; assumption.
  - destruct Hcomment as (view & st' & H & Hrows & _ & _ & _ & _ & _ & Hc & Hi);
      [rewrite Hlen; lia | vm_compute; discriminate | vm_compute; discriminate |].
    exists view, st'. repeat split; assumption.
Defined.

(** C5, the counterexample: a text that is empty once stripped and a text
    of 281 characters get the same answer from [create_post] and from
    [create_comment], the 400 error [Content must be between 1 and 280
    characters]; the code has no separate error for each condition. *)
Lemma content_errors_coincide :
  create_post demo_store (Some 1) [(py "content", py "   ")] 400
  = create_post demo_store (Some 1) [(py "content", text_281)] 400
  /\ create_comment demo_store (Some 1) 1 [(py "content", py "   ")] 400
     = create_comment demo_store (Some 1) 1 [(py "content", text_281)] 400
  /\ fst (create_post demo_store (Some 1) [(py "content", py "   ")] 400)
     = Rejected 400 CONTENT_LENGTH
  /\ fst (create_comment demo_store (Some 1) 1 [(py "content", text_281)] 400)
     = Rejected 400 CONTENT_LENGTH.
Proof. vm_compute. repeat split; reflexivity. Qed.

(** C7 on the demo store, for a text of 200 characters. *)
Lemma bio_truncated_witness :
  exists view st',
    update_profile demo_store (Some 1) [(py "bio", text_200)] 400
    = (Json 200 (WithMessage view "Profile updated successfully"), st')
    /\ UserView.bio view = firstn 160 text_200
    /\ option_map User.bio (get_user st' 1) = Some (Some (firstn 160 text_200))
    /\ len (firstn 160 text_200) = Z.min 160 (len text_200)
    /\ (len text_200 = 200 -> len (firstn 160 text_200) = 160).
Proof.
  apply (bio_truncated demo_store 1 400 alice [(py "bio", text_200)] text_200).
  - reflexivity.
  - reflexivity.
Defined.


Example comments_demo :
  exists body,
    get_comments demo_store None 1 = Json 200 body
    /\ map CommentView.id (CommentList.comments body) = [2; 1].
Proof. eexists. split; [lazy; reflexivity | reflexivity]. Qed.

(** C1 on concrete payloads: one without [hash], one whose [hash] lost
    its last character, and the signed one. *)
Lemma validate_succeeds_iff_witness :
  validate_telegram_data pystr accept_text payload_without_hash secret_S = None
  /\ validate_telegram_data pystr accept_text
       (removelast (join [AMP] signed_fields)) secret_S = None
  /\ validate_telegram_data pystr accept_text (join [AMP] signed_fields)
       secret_S
     = Some (unquote (py "%7B%22id%22%3A1%2C%22first_name%22%3A%22A%22%7D")).
Proof.
  split; [|split].
  - apply (validate_succeeds_iff pystr accept_text payload_without_hash
             secret_S). reflexivity.
  - eapply (validate_succeeds_iff pystr accept_text
              (removelast (join [AMP] signed_fields)) secret_S).
    + vm_compute. reflexivity.
    + vm_compute. discriminate.
  - apply (validate_succeeds_iff pystr accept_text (join [AMP] signed_fields)
             secret_S).
    eexists _, _, _, _.
    repeat split; try (vm_compute; reflexivity); vm_compute; discriminate.
Defined.

(** ** Further properties of the handlers *)

(** A payload that repeats a name is read by its first value, so the
    order of its fields matters. *)
Example repeated_name_order_matters :
  data_check_string (parse_qs (py "a=1&a=2")) = py "a=1"
  /\ data_check_string (parse_qs (py "a=2&a=1")) = py "a=2".
Proof. vm_compute. split; reflexivity. Qed.

(** A request that is refused writes nothing: whenever a handler that
    writes answers with an error of the request (no caller, a text of the
    wrong length, a follow of oneself) or with the 404 of a missing post
    or account, the store it leaves is the store it found. *)
Theorem refused_requests_write_nothing (st : Store)
    (current_user_id : caller) (id now : Z) (data : body) :
  (refused (fst (create_post st current_user_id data now)) = true ->
   snd (create_post st current_user_id data now) = st)
  /\ (refused (fst (toggle_like st current_user_id id now)) = true ->
      snd (toggle_like st current_user_id id now) = st)
  /\ (refused (fst (create_comment st current_user_id id data now)) = true ->
      snd (create_comment st current_user_id id data now) = st)
  /\ (refused (fst (toggle_follow st current_user_id id now)) = true ->
      snd (toggle_follow st current_user_id id now) = st)
  /\ (refused (fst (update_profile st current_user_id data now)) = true ->
      snd (update_profile st current_user_id data now) = st).
Proof.
  destruct current_user_id as [me|];
    [|repeat split; intros _; reflexivity].
  split; [|split; [|split; [|split]]].
  - unfold create_post.
    destruct (bad_content (content_of data)); [reflexivity|].
    cbn [fst snd]. destruct (serialize_post _ _ _); discriminate.
  - unfold toggle_like.
    destruct (get_post st id); [|reflexivity].
    destruct (find (is_like me id) (likes st)); discriminate.
  - unfold create_comment.
    destruct (bad_content (content_of data)); [reflexivity|].
    destruct (get_post st id); [|reflexivity].
    cbn [fst snd]. destruct (serialize_comment _ _ _); discriminate.
  - unfold toggle_follow.
    destruct (me =? id); [reflexivity|].
    destruct (get_user st id); [|reflexivity].
    destruct (find (is_follow me id) (follows st)); discriminate.
  - unfold update_profile.
    destruct (get_user st me); [discriminate | reflexivity].
Qed.

Lemma refused_requests_write_nothing_witness :
  fst (create_comment demo_store (Some 1) 99 [(py "content", py "hello")] 400)
  = NotFound
  /\ snd (create_comment demo_store (Some 1) 99 [(py "content", py "hello")]
                         400)
     = demo_store.
Proof.
  split; [vm_compute; reflexivity|].
  apply (refused_requests_write_nothing demo_store (Some 1) 99 400
           [(py "content", py "hello")]).
  vm_compute. reflexivity.
Defined.

Lemma count_filter_le {A : Type} (f g : A -> bool) (rows : list A) :
  count f (filter g rows) <= count f rows.
Proof.
  unfold count. induction rows as [|r rows IH]; cbn [filter length]; [lia|].
  destruct (g r), (f r) eqn:E; cbn [filter length]; rewrite ?E;
    cbn [length]; lia.
Qed.

(** A toggle keeps the unique constraint of its table: when no pair has
    two rows before it, none has after it. *)
Theorem toggle_keeps_unique (st : Store) (current_user_id : caller)
    (id now : Z) :
  ((forall u p, count (is_like u p) (likes st) <= 1) ->
   forall u p,
     count (is_like u p)
           (likes (snd (toggle_like st current_user_id id now))) <= 1)
  /\ ((forall a b, count (is_follow a b) (follows st) <= 1) ->
      forall a b,
        count (is_follow a b)
              (follows (snd (toggle_follow st current_user_id id now))) <= 1).
Proof.
  split.
  - intros Huniq u p. destruct current_user_id as [me|]; [|apply Huniq].
    rewrite toggle_like_store.
    destruct (get_post st id); [|apply Huniq].
    destruct (find (is_like me id) (likes st)) as [e|] eqn:Hfind;
      cbn [likes with_likes].
    + etransitivity; [apply count_filter_le | apply Huniq].
    + rewrite count_app. unfold count at 2. cbn [filter].
      destruct (is_like u p _) eqn:Hm; cbn [length]; [|specialize (Huniq u p); lia].
      apply is_like_of in Hm. cbn [Like.user_id Like.post_id] in Hm.
      destruct Hm as [<- <-].
      apply count_zero_find in Hfind. lia.
  - intros Huniq a b. destruct current_user_id as [me|]; [|apply Huniq].
    rewrite toggle_follow_store.
    destruct (me =? id); [apply Huniq|].
    destruct (get_user st id); [|apply Huniq].
    destruct (find (is_follow me id) (follows st)) as [e|] eqn:Hfind;
      cbn [follows with_follows].
    + etransitivity; [apply count_filter_le | apply Huniq].
    + rewrite count_app. unfold count at 2. cbn [filter].
      destruct (is_follow a b _) eqn:Hm; cbn [length];
        [|specialize (Huniq a b); lia].
      apply is_follow_of in Hm.
      cbn [Follow.follower_id Follow.following_id] in Hm.
      destruct Hm as [<- <-].
      apply count_zero_find in Hfind. lia.
Qed.

(** On the demo store, after [bob] likes the third post. *)
Example toggle_unique_demo :
  forallb (fun l => count (is_like (Like.user_id l) (Like.post_id l))
                          (likes (snd (toggle_like demo_store (Some 2) 3 400)))
                    <=? 1)
          (likes (snd (toggle_like demo_store (Some 2) 3 400)))
  = true.
Proof. vm_compute. reflexivity. Qed.

Section FeedMore.

Variable max_per_page : option Z.

Lemma paginate_nil {A : Type} (page per_page : Z) :
  items (paginate max_per_page page per_page (@nil A)) = []
  /\ total (paginate max_per_page page per_page (@nil A)) = 0
  /\ has_next (paginate max_per_page page per_page (@nil A)) = false.
Proof.
  unfold paginate; cbn [items total has_next length].
  rewrite skipn_nil, firstn_nil. repeat split.
  change (Z.of_nat 0 =? 0) with true. cbn iota.
  apply Z.ltb_ge. destruct (page <? 1) eqn:E; [lia|].
  apply Z.ltb_ge in E. lia.
Qed.

(** For a caller (other than the identity zero) who follows nobody, the
    ['following'] feed is an empty page, at every page and page size: it
    does not fall back to the latest posts. *)
Theorem following_nobody_is_empty (st : Store) (me page per_page : Z) :
  me <> 0 ->
  (forall f, In f (follows st) -> Follow.follower_id f <> me) ->
  exists body,
    get_posts max_per_page st (Some me) (py "following") page per_page
    = Json 200 body
    /\ Feed.posts body = [] /\ Feed.total body = 0
    /\ Feed.has_next body = false.
Proof.
  intros Hme Hnone.
  assert (Hq : feed_query st (Some me) (py "following") = []).
  { unfold feed_query, truthy.
    apply Z.eqb_neq in Hme. rewrite Hme.
    change (str_eqb (py "following") (py "following")) with true.
    change (str_eqb (py "following") (py "trending")) with false.
    cbn [andb negb]. unfold followed_posts.
    assert (filter (fun f => Follow.follower_id f =? me) (follows st) = [])
      as ->.
    { induction (follows st) as [|f fs IH]; [reflexivity|]. cbn [filter].
      destruct (Z.eqb_spec (Follow.follower_id f) me) as [E|_].
      - exfalso. apply (Hnone f); [left; reflexivity | exact E].
      - apply IH. intros g Hg. apply Hnone. right. exact Hg. }
    cbn [map existsb].
    induction (posts st) as [|p ps IH]; [reflexivity | exact IH]. }
  unfold get_posts. rewrite Hq.
  destruct (paginate_nil (A := Post.t) page per_page) as (-> & -> & ->).
  cbn [traverse]. eexists. repeat split.
Qed.

End FeedMore.

Lemma following_nobody_is_empty_witness :
  exists body,
    get_posts None demo_store (Some 2) (py "following") 1 20 = Json 200 body
    /\ Feed.posts body = [] /\ Feed.total body = 0
    /\ Feed.has_next body = false.
Proof.
  apply (following_nobody_is_empty None demo_store 2 1 20).
  - lia.
  - simpl. intros f [<-|[]]. vm_compute. discriminate.
Defined.

(** ** What the writing handlers leave alone *)

Local Ltac frame :=
  unfold with_posts, with_comments, with_likes, with_follows;
  cbn [users posts likes comments follows];
  match goal with |- mkStore _ _ _ _ _ = ?s => destruct s; reflexivity end.

(** Each handler that writes touches one table: [create_post] the posts,
    [create_comment] the comments, [toggle_like] the likes and
    [toggle_follow] the follows; and whatever the request, it adds at most
    one row, a toggle deleting rows only by the key of the row it found. *)
Theorem writes_stay_in_their_table (st : Store) (current_user_id : caller)
    (id now : Z) (data : body) :
  (let st' := snd (create_post st current_user_id data now) in
   with_posts st' (posts st) = st
   /\ (posts st' = posts st \/ exists p, posts st' = posts st ++ [p]))
  /\ (let st' := snd (create_comment st current_user_id id data now) in
      with_comments st' (comments st) = st
      /\ (comments st' = comments st
          \/ exists c, comments st' = comments st ++ [c]))
  /\ (let st' := snd (toggle_like st current_user_id id now) in
      with_likes st' (likes st) = st
      /\ (likes st' = likes st
          \/ (exists l, likes st' = likes st ++ [l])
          \/ exists e, In e (likes st)
                       /\ likes st'
                          = filter (fun l => negb (Like.id l =? Like.id e))
                                   (likes st)))
  /\ (let st' := snd (toggle_follow st current_user_id id now) in
      with_follows st' (follows st) = st
      /\ (follows st' = follows st
          \/ (exists f, follows st' = follows st ++ [f])
          \/ exists e, In e (follows st)
                       /\ follows st'
                          = filter (fun f => negb (Follow.id f =? Follow.id e))
                                   (follows st))).
Proof.
  split; [|split; [|split]]; cbv zeta.
  - unfold create_post. destruct current_user_id as [me|]; cbn [snd].
    2:{ split; [frame | auto]. }
    destruct (bad_content (content_of data)); cbn [snd].
    + split; [frame | auto].
    + split; [frame | right; eexists; reflexivity].
  - unfold create_comment. destruct current_user_id as [me|]; cbn [snd].
    2:{ split; [frame | auto]. }
    destruct (bad_content (content_of data)); cbn [snd].
    { split; [frame | auto]. }
    destruct (get_post st id); cbn [snd].
    + split; [frame | right; eexists; reflexivity].
    + split; [frame | auto].
  - destruct current_user_id as [me|]; [|split; [frame | auto]].
    rewrite toggle_like_store.
    destruct (get_post st id); [|split; [frame | auto]].
    destruct (find (is_like me id) (likes st)) as [e|] eqn:Hfind.
    + split; [frame|]. right. right. exists e.
      split; [exact (proj1 (find_some _ _ Hfind)) | reflexivity].
    + split; [frame|]. right. left. eexists. reflexivity.
  - destruct current_user_id as [me|]; [|split; [frame | auto]].
    rewrite toggle_follow_store.
    destruct (me =? id); [split; [frame | auto]|].
    destruct (get_user st id); [|split; [frame | auto]].
    destruct (find (is_follow me id) (follows st)) as [e|] eqn:Hfind.
    + split; [frame|]. right. right. exists e.
      split; [exact (proj1 (find_some _ _ Hfind)) | reflexivity].
    + split; [frame|]. right. left. eexists. reflexivity.
Qed.

(** ** Keys *)

Section Keys.

Context {R : Type} (key : R -> Z).

Lemma NoDup_keys_added (rows : list R) (row : R) :
  key row = fresh_id (map key rows) ->
  NoDup (map key rows) -> NoDup (map key (rows ++ [row])).
Proof.
  intros Hk ND. rewrite map_app. cbn [map].
  apply NoDup_app; [exact ND | repeat constructor; intros [] |].
  intros i Hi [<-|[]].
  rewrite Hk in Hi. apply fresh_id_above in Hi. lia.
Qed.

Lemma NoDup_keys_filter (f : R -> bool) (rows : list R) :
  NoDup (map key rows) -> NoDup (map key (filter f rows)).
Proof.
  induction rows as [|r rows IH]; cbn [map filter]; intros ND; [constructor|].
  inversion ND as [|? ? Hr ND']; subst.
  destruct (f r); cbn [map]; [constructor|]; auto.
  intros Hin. apply Hr. apply in_map_iff in Hin.
  destruct Hin as (x & <- & Hx). apply filter_In in Hx.
  apply in_map, Hx.
Qed.

End Keys.

(** The handlers that add rows keep the keys of their table pairwise
    distinct: a new row gets a key no row of the table has, and a toggle
    that deletes leaves a part of the table. *)
Theorem keys_stay_distinct (st : Store) (current_user_id : caller)
    (id now : Z) (data : body) :
  (NoDup (map Post.id (posts st)) ->
   NoDup (map Post.id
              (posts (snd (create_post st current_user_id data now)))))
  /\ (NoDup (map Comment.id (comments st)) ->
      NoDup (map Comment.id
                 (comments
                    (snd (create_comment st current_user_id id data now)))))
  /\ (NoDup (map Like.id (likes st)) ->
      NoDup (map Like.id
                 (likes (snd (toggle_like st current_user_id id now)))))
  /\ (NoDup (map Follow.id (follows st)) ->
      NoDup (map Follow.id
                 (follows (snd (toggle_follow st current_user_id id now))))).
Proof.
  split; [|split; [|split]]; intros ND.
  - unfold create_post. destruct current_user_id as [me|]; [|exact ND].
    destruct (bad_content (content_of data)); [exact ND|].
    cbn [snd posts with_posts]. apply NoDup_keys_added; [reflexivity | exact ND].
  - unfold create_comment. destruct current_user_id as [me|]; [|exact ND].
    destruct (bad_content (content_of data)); [exact ND|].
    destruct (get_post st id); [|exact ND].
    cbn [snd comments with_comments].
    apply NoDup_keys_added; [reflexivity | exact ND].
  - destruct current_user_id as [me|]; [|exact ND].
    rewrite toggle_like_store. destruct (get_post st id); [|exact ND].
    destruct (find (is_like me id) (likes st)); cbn [likes with_likes].
    + apply NoDup_keys_filter, ND.
    + apply NoDup_keys_added; [reflexivity | exact ND].
  - destruct current_user_id as [me|]; [|exact ND].
    rewrite toggle_follow_store. destruct (me =? id); [exact ND|].
    destruct (get_user st id); [|exact ND].
    destruct (find (is_follow me id) (follows st)); cbn [follows with_follows].
    + apply NoDup_keys_filter, ND.
    + apply NoDup_keys_added; [reflexivity | exact ND].
Qed.

Lemma keys_stay_distinct_witness :
  NoDup (map Post.id
             (posts (snd (create_post demo_store (Some 1)
                                      [(py "content", py "again")] 400))))
  /\ NoDup (map Like.id (likes (snd (toggle_like demo_store (Some 1) 2 400)))).
Proof.
  split.
  - apply (keys_stay_distinct demo_store (Some 1) 2 400
             [(py "content", py "again")]).
    distinct_by_computation.
  - apply (keys_stay_distinct demo_store (Some 1) 2 400
             [(py "content", py "again")]).
    distinct_by_computation.
Defined.

(** ** The texts the store holds *)

Lemma lstrip_head (s : pystr) :
  match lstrip s with [] => True | c :: _ => is_space c = false end.
Proof.
  induction s as [|c s IH]; cbn [lstrip]; [exact I|].
  destruct (is_space c) eqn:E; [exact IH | exact E].
Qed.

Lemma lstrip_stripped (s : pystr) :
  match s with [] => True | c :: _ => is_space c = false end ->
  lstrip s = s.
Proof. destruct s as [|c s]; cbn [lstrip]; [reflexivity|]. intros ->. reflexivity. Qed.

Lemma lstrip_suffix (s : pystr) : exists blanks, s = blanks ++ lstrip s.
Proof.
  induction s as [|c s [b IH]]; cbn [lstrip]; [exists []; reflexivity|].
  destruct (is_space c); [|exists []; reflexivity].
  exists (c :: b). cbn [app]. f_equal. exact IH.
Qed.

(** The last character of [lstrip s] is the last character of [s], when
    [lstrip s] has one. *)
Lemma lstrip_rev_head (s : pystr) :
  match rev (lstrip s) with
  | [] => True
  | c :: _ => exists t, rev s = c :: t
  end.
Proof.
  destruct (lstrip_suffix s) as [b Hb].
  destruct (rev (lstrip s)) as [|c t] eqn:E; [exact I|].
  apply (f_equal (@rev Z)) in Hb. rewrite rev_app_distr, E in Hb.
  exists (t ++ rev b). exact Hb.
Qed.

(** [strip] leaves a text that neither begins nor ends with a blank. *)
Lemma strip_ends (s : pystr) :
  match strip s with [] => True | c :: _ => is_space c = false end
  /\ match rev (strip s) with [] => True | c :: _ => is_space c = false end.
Proof.
  unfold strip. split.
  - pose proof (lstrip_rev_head (rev (lstrip s))) as H.
    destruct (rev (lstrip (rev (lstrip s)))) as [|c t] eqn:E; [exact I|].
    destruct H as [t' H]. rewrite rev_involutive in H.
    pose proof (lstrip_head s) as Hh. rewrite H in Hh. exact Hh.
  - rewrite rev_involutive. apply lstrip_head.
Qed.

Lemma strip_len (s : pystr) : len (strip s) <= len s.
Proof.
  unfold strip, len. rewrite length_rev.
  destruct (lstrip_suffix (rev (lstrip s))) as [b Hb].
  destruct (lstrip_suffix s) as [b' Hb'].
  apply (f_equal (@length Z)) in Hb, Hb'.
  rewrite length_app in Hb, Hb'. rewrite length_rev in Hb. lia.
Qed.

Lemma strip_clean (s : pystr) :
  bad_content (strip s) = false -> clean_text (strip s).
Proof.
  intros H. apply bad_content_iff in H. split; [exact H|].
  destruct (strip_ends s) as [Hh Hl]. split; intros c Hc.
  - destruct (strip s); [discriminate|]. injection Hc as <-. exact Hh.
  - destruct (rev (strip s)); [discriminate|]. injection Hc as <-. exact Hl.
Qed.

(** The posts and comments the handlers add hold a text of 1 to 280
    characters with no blank at either end: a store whose posts (resp.
    comments) are all so stays so through [create_post] (resp.
    [create_comment]), whatever the request. *)
Theorem stored_texts_stay_clean (st : Store) (current_user_id : caller)
    (id now : Z) (data : body) :
  (Forall (fun p => clean_text (Post.content p)) (posts st) ->
   Forall (fun p => clean_text (Post.content p))
          (posts (snd (create_post st current_user_id data now))))
  /\ (Forall (fun c => clean_text (Comment.content c)) (comments st) ->
      Forall (fun c => clean_text (Comment.content c))
             (comments
                (snd (create_comment st current_user_id id data now)))).
Proof.
  split; intros H.
  - unfold create_post. destruct current_user_id as [me|]; [|exact H].
    destruct (bad_content (content_of data)) eqn:E; [exact H|].
    cbn [snd posts with_posts]. apply Forall_app. split; [exact H|].
    constructor; [|constructor]. cbn [Post.content].
    apply strip_clean, E.
  - unfold create_comment. destruct current_user_id as [me|]; [|exact H].
    destruct (bad_content (content_of data)) eqn:E; [exact H|].
    destruct (get_post st id); [|exact H].
    cbn [snd comments with_comments]. apply Forall_app. split; [exact H|].
    constructor; [|constructor]. cbn [Comment.content].
    apply strip_clean, E.
Qed.

Lemma stored_texts_stay_clean_witness :
  Forall (fun p => clean_text (Post.content p))
         (posts (snd (create_post demo_store (Some 1)
                                  [(py "content", text_280)] 400))).
Proof.
  apply (stored_texts_stay_clean demo_store (Some 1) 1 400
           [(py "content", text_280)]).
  repeat (apply Forall_cons; [|]); try apply Forall_nil;
    (split; [vm_compute; split; [reflexivity | discriminate]|]);
    split; intros c Hc; vm_compute in Hc; injection Hc as <-; reflexivity.
Defined.

(** ** What a toggle answers *)

(** The answer of a like toggle tells the state it left: the count is
    that of the likes of the post after the call, one more than before
    when the answer is [liked], and one less when it is [unliked] in a
    table with pairwise distinct keys; [is_liked] says whether the caller
    has a like on the post afterwards, the table holding at most one row
    for the pair. *)
Theorem toggle_like_reports (st st' : Store) (me post_id now : Z)
    (r : LikeResult.t) :
  toggle_like st (Some me) post_id now = (Json 200 r, st') ->
  LikeResult.likes_count r = likes_of st' post_id
  /\ (LikeResult.action r = "liked"%string
      /\ LikeResult.is_liked r = true
      /\ likes_of st' post_id = likes_of st post_id + 1
      /\ existsb (is_like me post_id) (likes st') = true
      \/ LikeResult.action r = "unliked"%string
         /\ LikeResult.is_liked r = false
         /\ (NoDup (map Like.id (likes st)) ->
             likes_of st' post_id = likes_of st post_id - 1)
         /\ (NoDup (map Like.id (likes st)) ->
             count (is_like me post_id) (likes st) <= 1 ->
             existsb (is_like me post_id) (likes st') = false)).
Proof.
  unfold toggle_like, likes_of.
  destruct (get_post st post_id); [|discriminate].
  destruct (find (is_like me post_id) (likes st)) as [e|] eqn:Hfind;
    intros [= <- <-]; cbn [LikeResult.likes_count LikeResult.action
                            LikeResult.is_liked likes with_likes];
    (split; [reflexivity|]).
  - right. destruct (find_some _ _ Hfind) as [Hin He].
    repeat split.
    + intros ND.
      rewrite (count_deleted Like.id (fun l => Like.post_id l =? post_id)
                 (likes st) e ND Hin).
      apply is_like_of in He. destruct He as [_ ->].
      rewrite Z.eqb_refl. lia.
    + intros ND Hone.
      pose proof (count_deleted Like.id (is_like me post_id)
                    (likes st) e ND Hin) as Hc.
      rewrite He in Hc.
      assert (Hz : count (is_like me post_id)
                     (filter (fun l => negb (Like.id l =? Like.id e))
                             (likes st)) = 0)
        by (unfold count in *; lia).
      apply count_zero_find in Hz.
      destruct (existsb _ _) eqn:Hex; [|reflexivity].
      apply existsb_exists in Hex. destruct Hex as (x & Hx & Hm).
      eapply find_none in Hz; [|exact Hx]. congruence.
  - left. repeat split.
    + rewrite count_app. unfold count at 2. cbn [filter Like.post_id].
      rewrite Z.eqb_refl. reflexivity.
    + rewrite existsb_app. apply orb_true_iff. right.
      cbn [existsb]. unfold is_like. cbn [Like.user_id Like.post_id].
      rewrite !Z.eqb_refl. reflexivity.
Qed.

Lemma toggle_like_reports_witness :
  exists r st',
    toggle_like demo_store (Some 2) 3 400 = (Json 200 r, st')
    /\ LikeResult.likes_count r = 1
    /\ LikeResult.likes_count r = likes_of st' 3.
Proof.
  eexists _, _. split; [reflexivity|]. split; [reflexivity|].
  eapply (toggle_like_reports demo_store _ 2 3 400). reflexivity.
Defined.

(** The answer of a follow toggle shows the target account as the call
    left it: its follower count is one more than before when the answer
    is [followed], one less when it is [unfollowed] in a table with
    pairwise distinct keys; [is_following] is then true, resp. false (at
    most one row for the pair), except that for the caller's identity
    zero it is always false. *)
Theorem toggle_follow_reports (st st' : Store) (me target now : Z)
    (r : FollowResult.t) :
  toggle_follow st (Some me) target now = (Json 200 r, st') ->
  UserView.id (FollowResult.user r) = target
  /\ UserView.followers_count (FollowResult.user r) = follower_count st' target
  /\ (FollowResult.action r = "followed"%string
      /\ follower_count st' target = follower_count st target + 1
      /\ UserView.is_following (FollowResult.user r) = negb (me =? 0)
      \/ FollowResult.action r = "unfollowed"%string
         /\ (NoDup (map Follow.id (follows st)) ->
             follower_count st' target = follower_count st target - 1)
         /\ (NoDup (map Follow.id (follows st)) ->
             count (is_follow me target) (follows st) <= 1 ->
             UserView.is_following (FollowResult.user r) = false)).
Proof.
  unfold toggle_follow, follower_count.
  destruct (me =? target); [discriminate|].
  destruct (get_user st target) as [user|] eqn:Hu; [|discriminate].
  assert (Hid : User.id user = target).
  { unfold get_user in Hu. apply find_some in Hu.
    apply Z.eqb_eq, Hu. }
  destruct (find (is_follow me target) (follows st)) as [e|] eqn:Hfind;
    intros [= <- <-];
    cbn [FollowResult.user FollowResult.action follows with_follows];
    unfold serialize_user;
    cbn [UserView.id UserView.followers_count UserView.is_following
         follows with_follows truthy];
    rewrite Hid; (split; [reflexivity|]); (split; [reflexivity|]).
  - right. destruct (find_some _ _ Hfind) as [Hin He].
    repeat split.
    + intros ND.
      rewrite (count_deleted Follow.id
                 (fun f => Follow.following_id f =? target)
                 (follows st) e ND Hin).
      apply is_follow_of in He. destruct He as [_ ->].
      rewrite Z.eqb_refl. lia.
    + intros ND Hone.
      pose proof (count_deleted Follow.id (is_follow me target)
                    (follows st) e ND Hin) as Hc.
      rewrite He in Hc.
      assert (Hz : count (is_follow me target)
                     (filter (fun f => negb (Follow.id f =? Follow.id e))
                             (follows st)) = 0)
        by (unfold count in *; lia).
      apply count_zero_find in Hz.
      apply andb_false_iff. right.
      destruct (existsb _ _) eqn:Hex; [|reflexivity].
      apply existsb_exists in Hex. destruct Hex as (x & Hx & Hm).
      eapply find_none in Hz; [|exact Hx]. congruence.
  - left. repeat split.
    + rewrite count_app. unfold count at 2. cbn [filter Follow.following_id].
      rewrite Z.eqb_refl. reflexivity.
    + rewrite existsb_app.
      replace (existsb (is_follow me target) [_]) with true;
        [rewrite orb_true_r, andb_true_r; reflexivity|].
      cbn [existsb]. unfold is_follow.
      cbn [Follow.follower_id Follow.following_id].
      rewrite !Z.eqb_refl. reflexivity.
Qed.

Lemma toggle_follow_reports_witness :
  exists r st',
    toggle_follow demo_store (Some 2) 1 400 = (Json 200 r, st')
    /\ UserView.followers_count (FollowResult.user r) = 1
    /\ UserView.is_following (FollowResult.user r) = true
    /\ UserView.id (FollowResult.user r) = 1.
Proof.
  eexists _, _. split; [reflexivity|].
  split; [reflexivity|]. split; [reflexivity|].
  eapply (toggle_follow_reports demo_store _ 2 1 400). reflexivity.
Defined.

(** ** Discovery and profiles *)

Lemma get_user_id (st : Store) (id : Z) (user : User.t) :
  get_user st id = Some user -> User.id user = id /\ In user (users st).
Proof.
  unfold get_user. intros H. apply find_some in H.
  split; [apply Z.eqb_eq, H | apply H].
Qed.

Lemma length_firstn_le {A : Type} (n : nat) (l : list A) :
  (length (firstn n l) <= n)%nat.
Proof. rewrite length_firstn. lia. Qed.

(** [get_users] for a caller answers at most twenty accounts of the
    store, in the order of the table; none of them is the caller, none is
    followed by the caller, each shows [is_following] false; and when at
    most twenty accounts are neither the caller nor followed by it, all
    of them are listed. *)
Theorem discovery_for_caller (st : Store) (me : Z) :
  exists rows,
    get_users st (Some me)
    = Json 200 (map (fun u => serialize_user st u (Some me)) rows)
    /\ (length rows <= 20)%nat
    /\ Forall (fun u =>
                 In u (users st) /\ User.id u <> me
                 /\ existsb (is_follow me (User.id u)) (follows st) = false
                 /\ UserView.is_following (serialize_user st u (Some me))
                    = false)
              rows
    /\ (forall u,
          In u (users st) -> User.id u <> me ->
          existsb (is_follow me (User.id u)) (follows st) = false ->
          count (fun u =>
                   negb (User.id u =? me)
                   && negb (existsb (is_follow me (User.id u)) (follows st)))
                (users st) <= 20 ->
          In u rows).
Proof.
  set (following_ids :=
         map Follow.following_id
             (filter (fun f => Follow.follower_id f =? me) (follows st))
         ++ [me]).
  set (eligible := fun u => negb (existsb (Z.eqb (User.id u)) following_ids)).
  assert (Hel : forall u,
             eligible u
             = negb (User.id u =? me)
               && negb (existsb (is_follow me (User.id u)) (follows st))).
  { intros u. unfold eligible, following_ids.
    rewrite existsb_app. cbn [existsb]. rewrite orb_false_r.
    rewrite negb_orb, andb_comm. f_equal. f_equal.
    induction (follows st) as [|f fs IH]; [reflexivity|].
    cbn [filter existsb]. unfold is_follow at 1.
    destruct (Follow.follower_id f =? me); cbn [map existsb andb].
    - rewrite IH. rewrite (Z.eqb_sym (User.id u)). reflexivity.
    - exact IH. }
  exists (firstn 20 (filter eligible (users st))).
  split; [reflexivity|]. split; [apply length_firstn_le|]. split.
  - apply Forall_forall. intros u Hu. apply In_firstn, filter_In in Hu.
    destruct Hu as [Hin He]. rewrite Hel in He.
    apply andb_true_iff in He. destruct He as [Hme Hf].
    apply negb_true_iff in Hme, Hf. apply Z.eqb_neq in Hme.
    repeat split; auto.
    unfold serialize_user. cbn [UserView.is_following]. rewrite Hf.
    apply andb_false_r.
  - intros u Hin Hme Hf Hcount.
    rewrite firstn_all2.
    + apply filter_In. split; [exact Hin|]. rewrite Hel.
      apply Z.eqb_neq in Hme. rewrite Hme, Hf. reflexivity.
    + unfold count in Hcount.
      rewrite (filter_ext eligible _ Hel). lia.
Qed.

(** For an account that is there, [get_user_profile] answers with status
    200 whatever the rest of the store: the view of the account and the
    views of all its posts, each once, the newest first; the post count
    of the account view is the number of posts listed, and every post
    shows the account as its author.  For an account that is not there
    the answer is 404. *)
Theorem profile_lists_own_posts (st : Store) (current_user_id : caller)
    (user_id : Z) :
  (get_user st user_id = None ->
   get_user_profile st current_user_id user_id = NotFound)
  /\ (forall user,
        get_user st user_id = Some user ->
        exists body rows,
          get_user_profile st current_user_id user_id = Json 200 body
          /\ Profile.user body = serialize_user st user current_user_id
          /\ Permutation rows
               (filter (fun p => Post.user_id p =? user_id) (posts st))
          /\ Forall2
               (fun p v => serialize_post st p current_user_id = Some v)
               rows (Profile.posts body)
          /\ StronglySorted
               (fun v w => PostView.created_at w <= PostView.created_at v)
               (Profile.posts body)
          /\ UserView.posts_count (Profile.user body)
             = Z.of_nat (length (Profile.posts body))
          /\ Forall (fun v => PostView.author v = Profile.user body)
                    (Profile.posts body)).
Proof.
  unfold get_user_profile. split; [intros ->; reflexivity|].
  intros user Hu. rewrite Hu.
  destruct (get_user_id _ _ _ Hu) as [Hid _].
  set (rows := sort_by newer_first
                 (filter (fun p => Post.user_id p =? user_id) (posts st))).
  assert (Hperm : Permutation rows
            (filter (fun p => Post.user_id p =? user_id) (posts st)))
    by apply sort_by_perm.
  assert (Hown : forall p, In p rows -> Post.user_id p = user_id).
  { intros p Hp. eapply Permutation_in in Hp; [|exact Hperm].
    apply filter_In in Hp. apply Z.eqb_eq, Hp. }
  destruct (traverse_total
              (fun post => serialize_post st post current_user_id) rows)
    as [views Hviews].
  { intros p Hp. unfold serialize_post. rewrite (Hown p Hp), Hu. discriminate. }
  rewrite Hviews. eexists _, rows. split; [reflexivity|].
  cbn [Profile.user Profile.posts].
  pose proof (traverse_Forall2 _ _ _ Hviews) as F.
  split; [reflexivity|]. split; [exact Hperm|]. split; [exact F|].
  split; [|split].
  - eapply StronglySorted_Forall2 with
      (R := fun p q => newer_first p q = true)
      (P := fun p v => serialize_post st p current_user_id = Some v);
      [| exact F |].
    + intros p q v w Hp Hq Hle.
      apply serialize_post_view in Hp, Hq.
      destruct Hp as [_ ->], Hq as [_ ->]. apply Z.leb_le, Hle.
    + apply sort_by_sorted; unfold newer_first; intros.
      * destruct (Z.leb_spec (Post.created_at y) (Post.created_at x));
          [auto | right; apply Z.leb_le; lia].
      * apply Z.leb_le in H, H0. apply Z.leb_le. lia.
  - unfold serialize_user at 1. cbn [UserView.posts_count]. rewrite Hid.
    unfold count.
    rewrite <- (Forall2_length F).
    rewrite (Permutation_length Hperm). reflexivity.
  - clear Hperm Hviews. clearbody rows.
    induction F as [|p v ps vs Hp F IH]; constructor.
    + unfold serialize_post in Hp.
      rewrite (Hown p (or_introl eq_refl)), Hu in Hp.
      injection Hp as <-. reflexivity.
    + apply IH. intros q Hq. apply Hown. right. exact Hq.
Qed.

Lemma profile_lists_own_posts_witness :
  exists body rows,
    get_user_profile demo_store (Some 2) 1 = Json 200 body
    /\ Profile.user body = serialize_user demo_store alice (Some 2)
    /\ Permutation rows
         (filter (fun p => Post.user_id p =? 1) (posts demo_store))
    /\ Forall2 (fun p v => serialize_post demo_store p (Some 2) = Some v)
               rows (Profile.posts body)
    /\ StronglySorted
         (fun v w => PostView.created_at w <= PostView.created_at v)
         (Profile.posts body)
    /\ UserView.posts_count (Profile.user body)
       = Z.of_nat (length (Profile.posts body))
    /\ Forall (fun v => PostView.author v = Profile.user body)
              (Profile.posts body).
Proof.
  apply (profile_lists_own_posts demo_store (Some 2) 1). reflexivity.
Defined.

Example profile_demo :
  exists body,
    get_user_profile demo_store (Some 2) 1 = Json 200 body
    /\ map PostView.id (Profile.posts body) = [3; 1]
    /\ UserView.posts_count (Profile.user body) = 2.
Proof. eexists. split; [lazy; reflexivity | split; reflexivity]. Qed.

Example discovery_demo :
  get_users demo_store (Some 1) = Json 200 []
  /\ exists views,
       get_users demo_store (Some 2) = Json 200 views
       /\ map UserView.id views = [1].
Proof.
  split; [vm_compute; reflexivity|].
  eexists. split; [lazy; reflexivity | reflexivity].
Qed.

(** ** Authentication *)

Lemma find_map_same {A : Type} (f : A -> bool) (g : A -> A) (l : list A) :
  (forall x, f (g x) = f x) ->
  find f (map g l) = option_map g (find f l).
Proof.
  intros H. induction l as [|x l IH]; cbn [map find]; [reflexivity|].
  rewrite H. destruct (f x); [reflexivity | exact IH].
Qed.

Lemma find_none_added {A : Type} (f : A -> bool) (l : list A) (x : A) :
  find f l = None -> f x = true -> find f (l ++ [x]) = Some x.
Proof. apply find_added. Qed.

Lemma refresh_if_telegram_id (g : User.t -> User.t) (i : Z) (u : User.t) :
  (forall x, User.telegram_id (g x) = User.telegram_id x) ->
  User.telegram_id (if User.id u =? i then g u else u) = User.telegram_id u.
Proof. intros H. destruct (User.id u =? i); [apply H | reflexivity]. Qed.

Lemma refresh_if_id (g : User.t -> User.t) (i : Z) (u : User.t) :
  (forall x, User.id (g x) = User.id x) ->
  User.id (if User.id u =? i then g u else u) = User.id u.
Proof. intros H. destruct (User.id u =? i); [apply H | reflexivity]. Qed.

Section AuthenticateFacts.

Variable json_loads : pystr -> option user_record.
Variable BOT_TOKEN : pystr.

(** [authenticate] writes to the accounts only, and only when it answers
    with status 200: a request without [initData] (or with an empty one)
    gets the 400 error, a payload the verifier refuses or whose record is
    a false value gets the 401 error, and in every case but the 200 the
    store is the one before. *)
Theorem authenticate_writes_on_success_only (st : Store)
    (init_data : option pystr) (now : Z) :
  (some_nonempty init_data = false ->
   authenticate json_loads BOT_TOKEN st init_data now
   = (Rejected 400 NO_INIT_DATA, st))
  /\ (some_nonempty init_data = true ->
      validate_telegram_data user_record json_loads (or_empty init_data)
                             BOT_TOKEN = None ->
      authenticate json_loads BOT_TOKEN st init_data now
      = (Rejected 401 INVALID_DATA, st))
  /\ (forall r st',
        authenticate json_loads BOT_TOKEN st init_data now = (r, st') ->
        with_users st' (users st) = st
        /\ ((forall status body, r <> Json status body) -> st' = st)).
Proof.
  unfold authenticate. split; [|split].
  - intros ->. reflexivity.
  - intros -> ->. reflexivity.
  - intros r st'. destruct (some_nonempty init_data); cbn [negb].
    2:{ intros [= <- <-]. split; [destruct st|]; reflexivity. }
    destruct (validate_telegram_data _ _ _ _) as [[|d]|].
    2:{ destruct (Identity.id d) as [tid|].
        2:{ intros [= <- <-]. split; [destruct st|]; reflexivity. }
        destruct (find _ (users st)) as [e|], (Identity.first_name d) as [fn|];
          intros [= <- <-];
          (split; [destruct st; reflexivity|]); try reflexivity;
          intros H; exfalso; eapply H; reflexivity. }
    all: intros [= <- <-]; split; [destruct st|]; reflexivity.
Qed.

(** The account of a verified identity is found or created by its
    [telegram_id]: when no account has it, one row is appended, with a new
    key, the fields of the identity, an empty [bio] and the clock reading
    in both timestamps; when an account has it, no row is added, the first
    such account is answered, the rows keep their [id], [telegram_id],
    [bio] and [created_at], and the rows with another key are left as
    they were.  The answer has status 200 and shows the identity. *)
Theorem authenticate_finds_or_creates (st : Store) (init_data : option pystr)
    (now telegram_id : Z) (user_data : Identity.t) (first_name : pystr) :
  some_nonempty init_data = true ->
  validate_telegram_data user_record json_loads (or_empty init_data) BOT_TOKEN
  = Some (TrueValue user_data) ->
  Identity.id user_data = Some telegram_id ->
  Identity.first_name user_data = Some first_name ->
  exists view st',
    authenticate json_loads BOT_TOKEN st init_data now
    = (Json 200 (WithMessage view "Authentication successful"), st')
    /\ UserView.telegram_id view = telegram_id
    /\ UserView.first_name view = first_name
    /\ UserView.username view = Identity.username user_data
    /\ UserView.last_name view = Identity.last_name user_data
    /\ UserView.photo_url view = Identity.photo_url user_data
    /\ (find (fun u => User.telegram_id u =? telegram_id) (users st) = None ->
        users st'
        = users st
          ++ [User.mk (fresh_id (map User.id (users st))) telegram_id
                      (Identity.username user_data) first_name
                      (Identity.last_name user_data)
                      (Identity.language_code user_data)
                      (Identity.photo_url user_data) (Some []) now now]
        /\ UserView.id view = fresh_id (map User.id (users st))
        /\ UserView.bio view = [])
    /\ (forall existing,
          find (fun u => User.telegram_id u =? telegram_id) (users st)
          = Some existing ->
          UserView.id view = User.id existing
          /\ UserView.bio view = or_empty (User.bio existing)
          /\ UserView.created_at view = User.created_at existing
          /\ Forall2
               (fun u u' =>
                  User.id u' = User.id u
                  /\ User.telegram_id u' = User.telegram_id u
                  /\ User.bio u' = User.bio u
                  /\ User.created_at u' = User.created_at u
                  /\ (User.id u <> User.id existing -> u' = u))
               (users st) (users st')).
Proof.
  intros Hinit Hvalid Hid Hfn. unfold authenticate.
  rewrite Hinit, Hvalid, Hid, Hfn. cbn [negb].
  destruct (find _ (users st)) as [e|] eqn:Hfind.
  - eexists _, _. split; [reflexivity|].
    destruct (find_some _ _ Hfind) as [_ Htid]. apply Z.eqb_eq in Htid.
    unfold serialize_user, refresh_user.
    cbn [UserView.telegram_id UserView.first_name UserView.username
         UserView.last_name UserView.photo_url UserView.id UserView.bio
         UserView.created_at User.telegram_id User.first_name User.username
         User.last_name User.photo_url User.id User.bio User.created_at].
    repeat (split; [solve [auto]|]).
    split; [discriminate|].
    intros existing [= <-]. repeat (split; [reflexivity|]).
    cbn [users with_users].
    clear Hfind.
    induction (users st) as [|u us IH]; cbn [map]; [constructor|].
    constructor; [|exact IH].
    destruct (Z.eqb_spec (User.id u) (User.id e)) as [E|E];
      repeat split; try reflexivity. intros H. contradiction.
  - eexists _, _. split; [reflexivity|].
    unfold serialize_user.
    cbn [UserView.telegram_id UserView.first_name UserView.username
         UserView.last_name UserView.photo_url UserView.id UserView.bio
         User.telegram_id User.first_name User.username
         User.last_name User.photo_url User.id User.bio or_empty].
    repeat (split; [reflexivity|]).
    split; [|discriminate].
    intros _. repeat split.
Qed.

(** Authenticating again with the same payload answers the same account
    and adds no row. *)
Theorem authenticate_again_same_account (st : Store)
    (init_data : option pystr) (now now' : Z) (view : UserView.t)
    (st' : Store) :
  authenticate json_loads BOT_TOKEN st init_data now
  = (Json 200 (WithMessage view "Authentication successful"), st') ->
  exists view' st'',
    authenticate json_loads BOT_TOKEN st' init_data now'
    = (Json 200 (WithMessage view' "Authentication successful"), st'')
    /\ UserView.id view' = UserView.id view
    /\ UserView.telegram_id view' = UserView.telegram_id view
    /\ length (users st'') = length (users st').
Proof.
  unfold authenticate.
  destruct (some_nonempty init_data); cbn [negb]; [|discriminate].
  destruct (validate_telegram_data _ _ _ _) as [[|d]|]; try discriminate.
  destruct (Identity.id d) as [tid|]; [|discriminate].
  destruct (find _ (users st)) as [e|] eqn:Hfind,
           (Identity.first_name d) as [fn|]; try discriminate;
    intros [= <- <-]; cbn [users with_users].
  - destruct (find_some _ _ Hfind) as [_ Htid].
    rewrite find_map_same.
    2:{ intros x. rewrite refresh_if_telegram_id; reflexivity. }
    rewrite Hfind. cbn [option_map]. rewrite Z.eqb_refl.
    eexists _, _. split; [reflexivity|].
    cbn [users with_users]. rewrite !length_map. repeat split.
  - rewrite (find_added _ _ _ Hfind) by (cbn [User.telegram_id]; apply Z.eqb_refl).
    eexists _, _. split; [reflexivity|].
    cbn [users with_users]. rewrite !length_map. repeat split.
Qed.

(** [authenticate] keeps the keys and the [telegram_id]s of the accounts
    pairwise distinct, and keeps every [bio] within 160 characters. *)
Theorem accounts_stay_unique (st : Store) (init_data : option pystr)
    (now : Z) :
  (NoDup (map User.id (users st)) ->
   NoDup (map User.id
              (users (snd (authenticate json_loads BOT_TOKEN st init_data
                                        now)))))
  /\ (NoDup (map User.telegram_id (users st)) ->
      NoDup (map User.telegram_id
                 (users (snd (authenticate json_loads BOT_TOKEN st init_data
                                           now)))))
  /\ (Forall (fun u => len (or_empty (User.bio u)) <= 160) (users st) ->
      Forall (fun u => len (or_empty (User.bio u)) <= 160)
             (users (snd (authenticate json_loads BOT_TOKEN st init_data
                                       now)))).
Proof.
  unfold authenticate.
  destruct (some_nonempty init_data); cbn [negb snd]; [|tauto].
  destruct (validate_telegram_data _ _ _ _) as [[|d]|]; cbn [snd]; try tauto.
  destruct (Identity.id d) as [tid|]; cbn [snd]; [|tauto].
  destruct (find _ (users st)) as [e|] eqn:Hfind,
           (Identity.first_name d) as [fn|]; cbn [snd users with_users];
    try tauto.
  - split; [|split]; intros H.
    + rewrite map_map. erewrite map_ext; [exact H|].
      intros u. apply refresh_if_id. reflexivity.
    + rewrite map_map. erewrite map_ext; [exact H|].
      intros u. apply refresh_if_telegram_id. reflexivity.
    + rewrite Forall_map. eapply Forall_impl; [|exact H].
      intros u Hu. destruct (User.id u =? User.id e); exact Hu.
  - split; [|split]; intros H.
    + apply NoDup_keys_added; [reflexivity | exact H].
    + rewrite map_app. cbn [map User.telegram_id].
      apply NoDup_app; [exact H | repeat constructor; intros [] |].
      intros i Hi [<-|[]]. apply in_map_iff in Hi.
      destruct Hi as (u & Hu & Hin).
      eapply find_none in Hfind; [|exact Hin].
      rewrite Hu, Z.eqb_refl in Hfind. discriminate.
    + apply Forall_app. split; [exact H|].
      constructor; [|constructor]. cbn. lia.
Qed.

End AuthenticateFacts.

(** ** Fields the signature does not cover *)

Lemma split_not_nil (sep : Z) (s : pystr) : split sep s <> [].
Proof.
  destruct s as [|c s]; cbn [split]; [discriminate|].
  destruct (c =? sep); [discriminate|].
  destruct (split sep s); discriminate.
Qed.

Lemma split_snoc (sep : Z) (p f : pystr) :
  ~ In sep f -> split sep (p ++ sep :: f) = split sep p ++ [f].
Proof.
  intros Hf. induction p as [|c p IH]; cbn [app split].
  - rewrite Z.eqb_refl, split_no_sep by exact Hf. reflexivity.
  - destruct (c =? sep); [rewrite IH; reflexivity|].
    rewrite IH. pose proof (split_not_nil sep p) as Hne.
    destruct (split sep p) as [|q qs]; [contradiction | reflexivity].
Qed.

Lemma parse_qsl_snoc (p f : pystr) :
  ~ In AMP f ->
  parse_qsl (p ++ AMP :: f) = parse_qsl p ++ parse_field f.
Proof.
  intros Hf. unfold parse_qsl.
  replace (nonempty (p ++ AMP :: f)) with true by (destruct p; reflexivity).
  rewrite split_snoc by exact Hf. rewrite flat_map_app.
  cbn [flat_map]. rewrite app_nil_r.
  destruct p as [|c p]; [reflexivity | reflexivity].
Qed.

Lemma parse_field_short (f : pystr) :
  parse_field f = [] \/ exists name value, parse_field f = [(name, value)].
Proof.
  unfold parse_field. destruct (nonempty f); cbn [negb]; [|auto].
  destruct (split1 EQUALS f) as [n [v|]]; [|auto].
  destruct (nonempty v); [right; eauto | auto].
Qed.

Lemma dict_add_known (d : qs_dict) (name value : pystr) :
  In name (map fst d) ->
  first_values (dict_add d name value) = first_values d.
Proof.
  unfold first_values.
  induction d as [|[k vs] d IH]; cbn [map fst dict_add]; [intros []|].
  intros H. destruct (str_eqb name k) eqn:E; cbn [map fst snd first_value].
  - reflexivity.
  - f_equal. apply IH. destruct H as [H|H]; [|exact H].
    apply str_eqb_neq in E. congruence.
Qed.

Lemma get_first_by_first_values (d d' : qs_dict) (name : pystr) :
  first_values d = first_values d' -> get_first d name = get_first d' name.
Proof.
  unfold first_values. revert d'.
  induction d as [|[k vs] d IH]; intros [|[k' vs'] d']; cbn [map];
    try discriminate; [reflexivity|].
  cbn [fst snd]. intros [= -> Hv Hd]. cbn [get_first].
  rewrite Hv, (IH d' Hd). reflexivity.
Qed.

Lemma data_to_check_by_first_values (d d' : qs_dict) :
  first_values d = first_values d' -> data_to_check d = data_to_check d'.
Proof.
  unfold first_values, data_to_check. revert d'.
  induction d as [|[k vs] d IH]; intros [|[k' vs'] d']; cbn [map];
    try discriminate; [reflexivity|].
  cbn [fst snd]. intros [= -> Hv Hd]. cbn [flat_map fst snd].
  rewrite Hv, (IH d' Hd). reflexivity.
Qed.

Section UnsignedFields.

Variable json : Type.
Variable json_loads : pystr -> option json.

(** A field appended to a payload changes nothing for the verifier when
    [parse_qs] drops it (no [=], or an empty value) or when its name is
    one the payload has already: the verifier reads the first value of a
    name only, so the payload is accepted or refused as before and gives
    the same identity. *)
Theorem appended_field_ignored (payload field bot_token : pystr) :
  ~ In AMP field ->
  (forall name value,
      In (name, value) (parse_field field) ->
      In name (map fst (parse_qs payload))) ->
  validate_telegram_data json json_loads (payload ++ [AMP] ++ field) bot_token
  = validate_telegram_data json json_loads payload bot_token.
Proof.
  intros Hamp Hknown.
  assert (Hf : first_values (parse_qs (payload ++ [AMP] ++ field))
               = first_values (parse_qs payload)).
  { unfold parse_qs. cbn [app]. rewrite parse_qsl_snoc by exact Hamp.
    rewrite fold_left_app.
    destruct (parse_field_short field) as [->|(n & v & E)]; [reflexivity|].
    rewrite E in *. cbn [fold_left fst snd].
    apply dict_add_known. apply (Hknown n v). left. reflexivity. }
  unfold validate_telegram_data, data_check_string.
  rewrite !(get_first_by_first_values _ _ _ Hf).
  rewrite (data_to_check_by_first_values _ _ Hf). reflexivity.
Qed.

End UnsignedFields.

(** The signed payload with a second [user] field and a field without a
    value appended is accepted as the signed payload is. *)
Lemma appended_field_ignored_witness :
  validate_telegram_data pystr accept_text padded_payload secret_S
  = validate_telegram_data pystr accept_text signed_payload secret_S.
Proof.
  unfold padded_payload.
  etransitivity.
  - apply (appended_field_ignored pystr accept_text
             (signed_payload ++ [AMP] ++ second_user_field)
             (py "note=") secret_S).
    + vm_compute. intuition discriminate.
    + intros name value H. vm_compute in H. destruct H.
  - apply (appended_field_ignored pystr accept_text signed_payload
             second_user_field secret_S).
    + vm_compute. intuition discriminate.
    + intros name value H. vm_compute in H. destruct H as [[= <- <-]|[]].
      vm_compute. auto.
Defined.

(** ** The latest and the following feed *)

Lemma sort_newer_first_sorted (rows : list Post.t) :
  StronglySorted (fun p q => newer_first p q = true)
                 (sort_by newer_first rows).
Proof.
  apply sort_by_sorted; unfold newer_first; intros.
  - destruct (Z.leb_spec (Post.created_at y) (Post.created_at x));
      [auto | right; apply Z.leb_le; lia].
  - apply Z.leb_le in H, H0. apply Z.leb_le. lia.
Qed.

Lemma views_newest_first (st : Store) (c : caller) (rows : list Post.t)
    (views : list PostView.t) :
  traverse (fun p => serialize_post st p c) rows = Some views ->
  StronglySorted (fun p q => newer_first p q = true) rows ->
  newest_first views.
Proof.
  intros Hv Hs. unfold newest_first.
  eapply StronglySorted_Forall2 with
    (R := fun p q => newer_first p q = true)
    (P := fun p v => serialize_post st p c = Some v);
    [| apply traverse_Forall2, Hv | exact Hs].
  intros p q v w Hp Hq Hle. apply serialize_post_view in Hp, Hq.
  destruct Hp as [_ ->], Hq as [_ ->]. apply Z.leb_le, Hle.
Qed.

Lemma followed_posts_spec (st : Store) (me : Z) (p : Post.t) :
  existsb (Z.eqb (Post.user_id p))
          (map Follow.following_id
               (filter (fun f => Follow.follower_id f =? me) (follows st)))
  = follows_author st me p.
Proof.
  unfold follows_author.
  induction (follows st) as [|f fs IH]; [reflexivity|].
  cbn [filter existsb]. unfold is_follow at 1.
  destruct (Follow.follower_id f =? me); cbn [map existsb andb].
  - rewrite IH, (Z.eqb_sym (Post.user_id p)). reflexivity.
  - exact IH.
Qed.

Section FeedContents.

Variable max_per_page : option Z.

(** With a filter that is neither ['following'] nor ['trending'], the
    feed is all the posts of the store: the total of a response is the
    number of posts, whatever the page, and its posts are listed the
    newest first. *)
Theorem latest_feed_is_all_posts (st : Store) (current_user_id : caller)
    (filter_type : pystr) (page per_page : Z) (body : Feed.t) :
  filter_type <> py "following" ->
  filter_type <> py "trending" ->
  get_posts max_per_page st current_user_id filter_type page per_page
  = Json 200 body ->
  Feed.total body = Z.of_nat (length (posts st))
  /\ newest_first (Feed.posts body).
Proof.
  intros Hf Ht. apply str_eqb_neq in Hf, Ht.
  assert (Hq : feed_query st current_user_id filter_type
               = sort_by newer_first (posts st)).
  { unfold feed_query. rewrite Hf, Ht.
    destruct current_user_id; reflexivity. }
  unfold get_posts. rewrite Hq.
  destruct (traverse _ _) as [views|] eqn:Hv; [|discriminate].
  intros [= <-]. cbn [Feed.total Feed.posts].
  split.
  - unfold paginate. cbn [total]. f_equal.
    apply Permutation_length, sort_by_perm.
  - eapply views_newest_first; [exact Hv|].
    apply StronglySorted_paginate, sort_newer_first_sorted.
Qed.

(** The ['following'] feed of a caller (other than the identity zero)
    holds the posts of the accounts the caller follows and no other: the
    total is their number, every post of a response shows an author with
    [is_following] true, and the posts are listed the newest first. *)
Theorem following_feed_is_followed_posts (st : Store) (me page per_page : Z)
    (body : Feed.t) :
  me <> 0 ->
  get_posts max_per_page st (Some me) (py "following") page per_page
  = Json 200 body ->
  Feed.total body = count (follows_author st me) (posts st)
  /\ Forall (fun v => UserView.is_following (PostView.author v) = true)
            (Feed.posts body)
  /\ newest_first (Feed.posts body).
Proof.
  intros Hme. apply Z.eqb_neq in Hme.
  assert (Hq : feed_query st (Some me) (py "following")
               = sort_by newer_first (filter (follows_author st me) (posts st))).
  { unfold feed_query, truthy. rewrite Hme.
    change (str_eqb (py "following") (py "following")) with true.
    change (str_eqb (py "following") (py "trending")) with false.
    cbn [andb negb]. unfold followed_posts. f_equal.
    apply filter_ext. intros p. apply followed_posts_spec. }
  unfold get_posts. rewrite Hq.
  set (rows := items (paginate max_per_page page per_page _)).
  assert (Hrows : forall p, In p rows -> follows_author st me p = true).
  { intros p Hp. apply In_paginate in Hp.
    eapply Permutation_in in Hp; [|apply sort_by_perm].
    apply filter_In in Hp. apply Hp. }
  assert (Hsorted : StronglySorted (fun p q => newer_first p q = true) rows)
    by apply StronglySorted_paginate, sort_newer_first_sorted.
  destruct (traverse _ rows) as [views|] eqn:Hv; [|discriminate].
  intros [= <-]. cbn [Feed.total Feed.posts].
  split; [|split].
  - unfold paginate, count. cbn [total]. f_equal.
    apply Permutation_length, sort_by_perm.
  - apply traverse_Forall2 in Hv. clear Hsorted. clearbody rows.
    induction Hv as [|p v ps vs Hp Hv IH]; constructor.
    + pose proof (Hrows p (or_introl eq_refl)) as Hfol.
      unfold serialize_post in Hp.
      destruct (get_user st (Post.user_id p)) as [author|] eqn:Ha;
        [|discriminate].
      apply get_user_id in Ha. destruct Ha as [Hid _].
      injection Hp as <-. cbn [PostView.author]. unfold serialize_user.
      cbn [UserView.is_following truthy]. rewrite Hme, Hid.
      exact Hfol.
    + apply IH. intros q Hq'. apply Hrows. right. exact Hq'.
  - eapply views_newest_first; [exact Hv | exact Hsorted].
Qed.

(** The total of a ['trending'] response is the number of posts that
    have a like (the keys of the posts being pairwise distinct); in a
    store without likes the trending feed is an empty page. *)
Theorem trending_counts_liked_posts (st : Store) (current_user_id : caller)
    (page per_page : Z) :
  (NoDup (map Post.id (posts st)) ->
   forall body,
     get_posts max_per_page st current_user_id (py "trending") page per_page
     = Json 200 body ->
     Feed.total body = count (fun p => 0 <? like_count st p) (posts st))
  /\ (likes st = [] ->
      exists body,
        get_posts max_per_page st current_user_id (py "trending")
                  page per_page
        = Json 200 body
        /\ Feed.posts body = [] /\ Feed.total body = 0
        /\ Feed.has_next body = false).
Proof.
  unfold get_posts. rewrite feed_query_trending. split.
  - intros ND body.
    destruct (traverse _ _) as [views|]; [|discriminate].
    intros [= <-]. cbn [Feed.total]. unfold paginate. cbn [total].
    unfold trending, count. f_equal. rewrite length_map.
    rewrite (Permutation_length (sort_by_perm _ _)).
    rewrite groups_of_store by exact ND. clear ND.
    induction (posts st) as [|p ps IH]; [reflexivity|].
    cbn [flat_map filter]. rewrite length_app. unfold group_of at 1.
    destruct (0 <? like_count st p); cbn [length]; lia.
  - intros Hl.
    assert (Ht : trending st = []).
    { unfold trending, group_by_post, join_likes. rewrite Hl.
      cbn [filter map].
      replace (flat_map _ (posts st)) with (@nil (Post.t * Like.t));
        [reflexivity|].
      induction (posts st) as [|p ps IH]; [reflexivity | exact IH]. }
    rewrite Ht.
    destruct (paginate_nil max_per_page (A := Post.t) page per_page)
      as (Hi & Ht' & Hn).
    rewrite Hi. cbn [traverse]. eexists. split; [reflexivity|].
    cbn [Feed.posts Feed.total Feed.has_next]. auto.
Qed.

End FeedContents.

(** ** Counts after a write *)

Lemma count_none {A : Type} (f : A -> bool) (rows : list A) :
  (forall x, In x rows -> f x = false) -> count f rows = 0.
Proof.
  intros H. unfold count. induction rows as [|x rows IH]; [reflexivity|].
  cbn [filter]. rewrite (H x (or_introl eq_refl)).
  apply IH. intros y Hy. apply H. right. exact Hy.
Qed.

Lemma get_post_id (st : Store) (id : Z) (post : Post.t) :
  get_post st id = Some post -> Post.id post = id /\ In post (posts st).
Proof.
  unfold get_post. intros H. apply find_some in H.
  split; [apply Z.eqb_eq, H | apply H].
Qed.

(** A post just created shows no like and no comment, and is not liked
    by its author, in a store whose likes and comments all name posts
    that are there; its author is shown with one post more than before.
    The text is acceptable and the author has an account. *)
Theorem new_post_starts_empty (st : Store) (me now : Z) (data : body) :
  bad_content (content_of data) = false ->
  get_user st me <> None ->
  (forall l, In l (likes st) -> In (Like.post_id l) (map Post.id (posts st))) ->
  (forall c, In c (comments st) ->
             In (Comment.post_id c) (map Post.id (posts st))) ->
  exists view st',
    create_post st (Some me) data now
    = (Json 201 (WithMessage view "Post created successfully"), st')
    /\ PostView.likes_count view = 0
    /\ PostView.comments_count view = 0
    /\ PostView.is_liked view = false
    /\ UserView.id (PostView.author view) = me
    /\ UserView.posts_count (PostView.author view)
       = count (fun p => Post.user_id p =? me) (posts st) + 1.
Proof.
  intros Hok Huser Hlikes Hcomments. unfold create_post. rewrite Hok.
  unfold serialize_post.
  change (get_user (with_posts st ?rows) ?i) with (get_user st i).
  cbn [Post.user_id Post.id].
  destruct (get_user st me) as [author|] eqn:Ha; [|congruence].
  apply get_user_id in Ha. destruct Ha as [Hid _].
  eexists _, _. split; [reflexivity|].
  cbn [PostView.likes_count PostView.comments_count PostView.is_liked
       PostView.author likes comments with_posts].
  set (new := fresh_id (map Post.id (posts st))).
  assert (Hnew : forall i, In i (map Post.id (posts st)) -> (i =? new) = false).
  { intros i Hi. apply Z.eqb_neq. apply fresh_id_above in Hi. unfold new. lia. }
  split; [|split; [|split; [|split]]].
  - apply count_none. intros l Hl. apply Hnew, Hlikes, Hl.
  - apply count_none. intros c Hc. apply Hnew, Hcomments, Hc.
  - apply andb_false_iff. right.
    destruct (existsb _ _) eqn:Hex; [|reflexivity].
    apply existsb_exists in Hex. destruct Hex as (l & Hl & Hm).
    apply is_like_of in Hm. destruct Hm as [_ Hp].
    pose proof (Hnew _ (Hlikes l Hl)) as E. rewrite Hp, Z.eqb_refl in E.
    discriminate.
  - unfold serialize_user. cbn [UserView.id]. exact Hid.
  - unfold serialize_user. cbn [UserView.posts_count posts with_posts].
    rewrite Hid, count_app. unfold count at 2. cbn [filter Post.user_id].
    rewrite Z.eqb_refl. reflexivity.
Qed.

Lemma new_post_starts_empty_witness :
  exists view st',
    create_post demo_store (Some 1) [(py "content", py "again")] 400
    = (Json 201 (WithMessage view "Post created successfully"), st')
    /\ PostView.likes_count view = 0
    /\ PostView.comments_count view = 0
    /\ PostView.is_liked view = false
    /\ UserView.id (PostView.author view) = 1
    /\ UserView.posts_count (PostView.author view)
       = count (fun p => Post.user_id p =? 1) (posts demo_store) + 1.
Proof.
  apply (new_post_starts_empty demo_store 1 400 [(py "content", py "again")]).
  - reflexivity.
  - vm_compute. discriminate.
  - intros l Hl. vm_compute in Hl. vm_compute.
    repeat (destruct Hl as [<-|Hl]; [cbn; auto|]). destruct Hl.
  - intros c Hc. vm_compute in Hc. vm_compute.
    repeat (destruct Hc as [<-|Hc]; [cbn; auto|]). destruct Hc.
Defined.

(** A comment that is accepted is counted: the post has one comment more
    than before, and the views of the post taken before and after the
    call differ by that count only. *)
Theorem comment_is_counted (st st' : Store) (me post_id now : Z)
    (data : body) (r : with_message CommentView.t) :
  create_comment st (Some me) post_id data now = (Json 201 r, st') ->
  comments_of st' post_id = comments_of st post_id + 1
  /\ (forall other, other <> post_id ->
                    comments_of st' other = comments_of st other)
  /\ CommentView.content (entity r) = content_of data
  /\ UserView.id (CommentView.author (entity r)) = me
  /\ forall post viewer view,
       get_post st post_id = Some post ->
       serialize_post st post viewer = Some view ->
       exists view',
         serialize_post st' post viewer = Some view'
         /\ PostView.comments_count view' = PostView.comments_count view + 1
         /\ PostView.likes_count view' = PostView.likes_count view
         /\ PostView.is_liked view' = PostView.is_liked view.
Proof.
  unfold create_comment, comments_of.
  destruct (bad_content (content_of data)); [discriminate|].
  destruct (get_post st post_id) as [post|] eqn:Hpost; [|discriminate].
  unfold serialize_comment.
  change (get_user (with_comments st ?rows) ?i) with (get_user st i).
  cbn [Comment.user_id].
  destruct (get_user st me) as [author|] eqn:Ha; [|discriminate].
  apply get_user_id in Ha. destruct Ha as [Hid _].
  intros [= <- <-]. cbn [comments with_comments entity].
  split; [|split; [|split; [|split]]].
  - rewrite count_app. unfold count at 2. cbn [filter Comment.post_id].
    rewrite Z.eqb_refl. reflexivity.
  - intros other Hne. rewrite count_app. unfold count at 2.
    cbn [filter Comment.post_id]. apply Z.eqb_neq in Hne.
    rewrite Z.eqb_sym, Hne. cbn [length]. lia.
  - reflexivity.
  - unfold serialize_user. cbn [CommentView.author UserView.id]. exact Hid.
  - intros post' viewer view [= <-] Hview.
    apply get_post_id in Hpost. destruct Hpost as [Hpid _].
    unfold serialize_post in *.
    change (get_user (with_comments st ?rows) ?i) with (get_user st i).
    destruct (get_user st (Post.user_id post)); [|discriminate].
    injection Hview as <-. eexists. split; [reflexivity|].
    cbn [PostView.comments_count PostView.likes_count PostView.is_liked
         comments likes with_comments].
    split; [|split; reflexivity].
    rewrite count_app. unfold count at 2. cbn [filter Comment.post_id].
    rewrite Hpid, Z.eqb_refl. reflexivity.
Qed.

Lemma comment_is_counted_witness :
  exists r st',
    create_comment demo_store (Some 2) 1 [(py "content", py " more ")] 400
    = (Json 201 r, st')
    /\ comments_of st' 1 = comments_of demo_store 1 + 1
    /\ CommentView.content (entity r) = py "more".
Proof.
  eexists _, _. split; [reflexivity|]. split; [|reflexivity].
  eapply (comment_is_counted demo_store _ 2 1 400
            [(py "content", py " more ")] _).
  reflexivity.
Defined.

(** ** The length of a bio *)

(** No [bio] grows past 160 characters through [update_profile]: a store
    whose accounts all have a [bio] of at most 160 characters stays so,
    whatever the request. *)
Theorem bios_stay_short (st : Store) (current_user_id : caller)
    (data : body) (now : Z) :
  Forall (fun u => len (or_empty (User.bio u)) <= 160) (users st) ->
  Forall (fun u => len (or_empty (User.bio u)) <= 160)
         (users (snd (update_profile st current_user_id data now))).
Proof.
  intros H. unfold update_profile.
  destruct current_user_id as [me|]; [|exact H].
  destruct (get_user st me); [|exact H].
  cbn [snd users with_users]. rewrite Forall_map.
  eapply Forall_impl; [|exact H]. intros u Hu.
  destruct (User.id u =? me); [|exact Hu].
  unfold set_profile. cbn [User.bio].
  destruct (data_get data (py "bio")) as [text|]; [|exact Hu].
  cbn [or_empty]. unfold len. rewrite length_firstn. lia.
Qed.

Lemma bios_stay_short_witness :
  Forall (fun u => len (or_empty (User.bio u)) <= 160)
         (users (snd (update_profile demo_store (Some 1)
                                     [(py "bio", text_200)] 400))).
Proof.
  apply (bios_stay_short demo_store (Some 1) [(py "bio", text_200)] 400).
  repeat (apply Forall_cons; [vm_compute; discriminate|]). apply Forall_nil.
Defined.

(** ** The database URL *)

Lemma starts_with_app (prefix rest : pystr) :
  starts_with prefix (prefix ++ rest) = true.
Proof.
  induction prefix as [|c prefix IH]; cbn [app starts_with]; [reflexivity|].
  rewrite Z.eqb_refl. exact IH.
Qed.

Lemma starts_with_inv (prefix s : pystr) :
  starts_with prefix s = true -> exists rest, s = prefix ++ rest.
Proof.
  revert s; induction prefix as [|c prefix IH]; intros s H.
  - exists s. reflexivity.
  - destruct s as [|d s]; [discriminate|]. cbn [starts_with] in H.
    apply andb_true_iff in H. destruct H as [E H]. apply Z.eqb_eq in E.
    destruct (IH s H) as [rest ->]. exists rest. subst. reflexivity.
Qed.

(** A [DATABASE_URL] that begins with [postgres://] is used with that
    scheme turned into [postgresql://] and the rest of the URL as it is,
    wherever else [postgres://] occurs in it; any other non-empty URL is
    used as it is; an unset or empty one gives [sqlite:///telx.db]. *)
Theorem database_url_scheme :
  (forall rest,
      SQLALCHEMY_DATABASE_URI (Some (py "postgres://" ++ rest))
      = py "postgresql://" ++ rest)
  /\ (forall url,
        url <> [] ->
        (forall rest, url <> py "postgres://" ++ rest) ->
        SQLALCHEMY_DATABASE_URI (Some url) = url)
  /\ SQLALCHEMY_DATABASE_URI None = py "sqlite:///telx.db"
  /\ SQLALCHEMY_DATABASE_URI (Some []) = py "sqlite:///telx.db".
Proof.
  split; [|split; [|split; reflexivity]].
  - intros rest. unfold SQLALCHEMY_DATABASE_URI.
    rewrite starts_with_app.
    replace (nonempty (py "postgres://" ++ rest)) with true by reflexivity.
    cbn [andb]. unfold replace_first.
    destruct (py "postgres://" ++ rest) eqn:E; [discriminate|].
    rewrite <- E. fold replace_first. rewrite starts_with_app.
    replace (skipn (length (py "postgres://")) (py "postgres://" ++ rest))
      with rest by reflexivity.
    reflexivity.
  - intros url Hne Hscheme. unfold SQLALCHEMY_DATABASE_URI.
    destruct (starts_with (py "postgres://") url) eqn:E.
    + apply starts_with_inv in E. destruct E as [rest ->].
      exfalso. apply (Hscheme rest). reflexivity.
    + rewrite andb_false_r. cbn [some_nonempty or_empty].
      apply nonempty_true in Hne. rewrite Hne. reflexivity.
Qed.

Example database_url_demo :
  SQLALCHEMY_DATABASE_URI (Some (py "postgres://u@h/postgres://x"))
  = py "postgresql://u@h/postgres://x"
  /\ SQLALCHEMY_DATABASE_URI (Some (py "mysql://h/db")) = py "mysql://h/db".
Proof. vm_compute. split; reflexivity. Qed.

(** ** Authentication and feeds on the demo store *)

Lemma database_url_scheme_witness :
  SQLALCHEMY_DATABASE_URI (Some (py "mysql://h/db")) = py "mysql://h/db".
Proof.
  apply database_url_scheme.
  - discriminate.
  - intros rest. vm_compute. discriminate.
Defined.

Lemma authenticate_writes_on_success_only_witness :
  authenticate loads_signed_user secret_S demo_store (Some []) 400
  = (Rejected 400 NO_INIT_DATA, demo_store)
  /\ authenticate loads_signed_user secret_S demo_store
       (Some payload_without_user) 400
     = (Rejected 401 INVALID_DATA, demo_store).
Proof.
  split.
  - apply (authenticate_writes_on_success_only loads_signed_user secret_S
             demo_store (Some []) 400). reflexivity.
  - apply (authenticate_writes_on_success_only loads_signed_user secret_S
             demo_store (Some payload_without_user) 400).
    + reflexivity.
    + vm_compute. reflexivity.
Defined.

(** The signed payload on the demo store: a third account is created. *)
Lemma authenticate_finds_or_creates_witness :
  exists view st',
    authenticate loads_signed_user secret_S demo_store (Some signed_payload)
                 400
    = (Json 200 (WithMessage view "Authentication successful"), st')
    /\ UserView.telegram_id view = 1
    /\ UserView.id view = 3
    /\ map User.id (users st') = [1; 2; 3].
Proof.
  destruct (authenticate_finds_or_creates loads_signed_user secret_S
              demo_store (Some signed_payload) 400 1
              (Identity.mk (Some 1) None (Some (py "A")) None None None)
              (py "A"))
    as (view & st' & Heq & Htid & _ & _ & _ & _ & Hnew & _).
  - reflexivity.
  - vm_compute. reflexivity.
  - reflexivity.
  - reflexivity.
  - exists view, st'. split; [exact Heq|]. split; [exact Htid|].
    destruct (Hnew eq_refl) as (-> & -> & _). split; reflexivity.
Defined.

(** What [authenticate] answers to the signed payload on the demo store. *)
Lemma demo_authentication :
  exists view st',
    authenticate loads_signed_user secret_S demo_store (Some signed_payload)
                 400
    = (Json 200 (WithMessage view "Authentication successful"), st').
Proof.
  destruct (authenticate loads_signed_user secret_S demo_store
                         (Some signed_payload) 400) as [r s] eqn:E.
  vm_compute in E. injection E as <- <-. eexists _, _. reflexivity.
Qed.

(** The signed payload twice: the second call answers the account the
    first one created. *)
Lemma authenticate_again_same_account_witness :
  exists view view' st' st'',
    authenticate loads_signed_user secret_S demo_store (Some signed_payload)
                 400
    = (Json 200 (WithMessage view "Authentication successful"), st')
    /\ authenticate loads_signed_user secret_S st' (Some signed_payload) 500
       = (Json 200 (WithMessage view' "Authentication successful"), st'')
    /\ UserView.id view' = UserView.id view
    /\ length (users st'') = length (users st').
Proof.
  destruct demo_authentication as (view & st' & Heq).
  destruct (authenticate_again_same_account loads_signed_user secret_S
              demo_store (Some signed_payload) 400 500 view st' Heq)
    as (view' & st'' & Heq' & Hid & _ & Hlen).
  exists view, view', st', st''. auto.
Defined.

Lemma accounts_stay_unique_witness :
  NoDup (map User.telegram_id
             (users (snd (authenticate loads_signed_user secret_S demo_store
                                       (Some signed_payload) 400)))).
Proof.
  apply (accounts_stay_unique loads_signed_user secret_S demo_store
           (Some signed_payload) 400).
  distinct_by_computation.
Defined.

Lemma latest_feed_is_all_posts_witness :
  exists body,
    get_posts None demo_store None (py "latest") 2 2 = Json 200 body
    /\ Feed.total body = Z.of_nat (length (posts demo_store))
    /\ newest_first (Feed.posts body).
Proof.
  eexists. split; [lazy; reflexivity|].
  eapply (latest_feed_is_all_posts None demo_store None (py "latest") 2 2 _).
  - vm_compute. discriminate.
  - vm_compute. discriminate.
  - lazy. reflexivity.
Defined.

Lemma following_feed_is_followed_posts_witness :
  exists body,
    get_posts None demo_store (Some 1) (py "following") 1 20 = Json 200 body
    /\ Feed.total body = count (follows_author demo_store 1) (posts demo_store)
    /\ Forall (fun v => UserView.is_following (PostView.author v) = true)
              (Feed.posts body)
    /\ newest_first (Feed.posts body).
Proof.
  eexists. split; [lazy; reflexivity|].
  eapply (following_feed_is_followed_posts None demo_store 1 1 20 _).
  - lia.
  - lazy. reflexivity.
Defined.

Example following_feed_demo :
  exists body,
    get_posts None demo_store (Some 1) (py "following") 1 20 = Json 200 body
    /\ map PostView.id (Feed.posts body) = [2] /\ Feed.total body = 1.
Proof. eexists. split; [lazy; reflexivity | split; reflexivity]. Qed.

Lemma trending_counts_liked_posts_witness :
  exists body,
    get_posts None demo_store None (py "trending") 1 20 = Json 200 body
    /\ Feed.total body
       = count (fun p => 0 <? like_count demo_store p) (posts demo_store).
Proof.
  eexists. split; [lazy; reflexivity|].
  eapply (trending_counts_liked_posts None demo_store None 1 20).
  - distinct_by_computation.
  - lazy. reflexivity.
Defined.

(** ** Names in an account view *)

Lemma lstrip_app_blank (s : pystr) (c : Z) :
  is_space c = true ->
  lstrip (s ++ [c]) = match lstrip s with [] => [] | _ => lstrip s ++ [c] end.
Proof.
  intros Hc. induction s as [|d s IH]; cbn [app lstrip].
  - rewrite Hc. reflexivity.
  - destruct (is_space d); [exact IH | reflexivity].
Qed.

Lemma strip_app_blank (s : pystr) (c : Z) :
  is_space c = true -> strip (s ++ [c]) = strip s.
Proof.
  intros Hc. unfold strip. rewrite lstrip_app_blank by exact Hc.
  destruct (lstrip s) as [|d t] eqn:E; [reflexivity|].
  rewrite rev_app_distr. cbn [rev app lstrip]. rewrite Hc. reflexivity.
Qed.

(** In the view of an account the handle begins with [@] and has a
    character after it; the full name neither begins nor ends with a
    blank, and is the stripped first name when the account has no last
    name (or an empty one). *)
Theorem user_view_names (st : Store) (user : User.t)
    (current_user_id : caller) :
  let view := serialize_user st user current_user_id in
  hd_error (UserView.handle view) = Some 64
  /\ 1 < len (UserView.handle view)
  /\ (forall c, hd_error (UserView.full_name view) = Some c ->
                is_space c = false)
  /\ (forall c, hd_error (rev (UserView.full_name view)) = Some c ->
                is_space c = false)
  /\ (or_empty (User.last_name user) = [] ->
      UserView.full_name view = strip (User.first_name user)).
Proof.
  cbv zeta. unfold serialize_user.
  cbn [UserView.handle UserView.full_name].
  split; [|split; [|split; [|split]]].
  - destruct (some_nonempty (User.username user)); reflexivity.
  - destruct (User.username user) as [[|c name]|]; cbn [some_nonempty nonempty];
      unfold len; rewrite length_app;
      change (length (py "@user")) with 5%nat;
      change (length (py "@")) with 1%nat; cbn [or_empty length]; lia.
  - intros c Hc. pose proof (proj1 (strip_ends
      (User.first_name user ++ py " " ++ or_empty (User.last_name user)))) as H.
    destruct (strip _); [discriminate|]. injection Hc as <-. exact H.
  - intros c Hc. pose proof (proj2 (strip_ends
      (User.first_name user ++ py " " ++ or_empty (User.last_name user)))) as H.
    destruct (rev (strip _)); [discriminate|]. injection Hc as <-. exact H.
  - intros ->. rewrite app_nil_r. apply strip_app_blank. reflexivity.
Qed.

Lemma user_view_names_witness :
  UserView.full_name (serialize_user demo_store alice None)
  = strip (User.first_name alice).
Proof.
  apply (user_view_names demo_store alice None). reflexivity.
Defined.

Example user_view_demo :
  UserView.handle (serialize_user demo_store alice None) = py "@alice"
  /\ UserView.handle (serialize_user demo_store bob None) = py "@user1002"
  /\ UserView.full_name (serialize_user demo_store bob None) = py "Bob B".
Proof. vm_compute. repeat split; reflexivity. Qed.

(** ** What a page of the feed lists *)

Lemma feed_query_in_posts (st : Store) (c : caller) (f : pystr) (p : Post.t) :
  In p (feed_query st c f) -> In p (posts st).
Proof.
  unfold feed_query.
  assert (Hsort : forall q, In p (sort_by newer_first q) -> In p q)
    by (intros q; apply Permutation_in, sort_by_perm).
  assert (Hfol : forall me, In p (followed_posts st me) -> In p (posts st))
    by (intros me H; apply filter_In in H; apply H).
  destruct c as [me|];
    destruct (str_eqb f (py "following")), (str_eqb f (py "trending"));
    cbn [andb negb]; try destruct (truthy (Some me));
    intros H; try apply Hsort in H;
    auto using trending_in_posts; eauto.
Qed.

Lemma NoDup_group_ids (st : Store) (rows : list Post.t) :
  NoDup (map Post.id rows) ->
  NoDup (map Post.id (map fst (flat_map (group_of st) rows))).
Proof.
  induction rows as [|p rows IH]; cbn [map flat_map]; [constructor|].
  intros ND. apply NoDup_cons_iff in ND. destruct ND as [Hp ND].
  unfold group_of at 1. destruct (0 <? like_count st p); cbn [app map fst].
  - constructor; [|exact (IH ND)].
    intros Hin. apply Hp. clear -Hin.
    induction rows as [|q rows IH]; cbn [flat_map map] in *; [exact Hin|].
    rewrite !map_app in Hin. apply in_app_or in Hin.
    destruct Hin as [Hin|Hin]; [left | right; exact (IH Hin)].
    rewrite map_map in Hin. symmetry. exact (group_of_ids st q _ Hin).
  - exact (IH ND).
Qed.

Lemma NoDup_trending (st : Store) :
  NoDup (map Post.id (posts st)) -> NoDup (map Post.id (trending st)).
Proof.
  intros ND. unfold trending.
  apply (Permutation_NoDup
           (l := map Post.id (map fst (group_by_post (join_likes st))))).
  - apply Permutation_map, Permutation_map, Permutation_sym, sort_by_perm.
  - rewrite groups_of_store by exact ND. apply NoDup_group_ids, ND.
Qed.

Lemma NoDup_sorted_ids {R : Type} (key : R -> Z) (leb : R -> R -> bool)
    (rows : list R) :
  NoDup (map key rows) -> NoDup (map key (sort_by leb rows)).
Proof.
  apply Permutation_NoDup, Permutation_map, Permutation_sym, sort_by_perm.
Qed.

Lemma NoDup_feed_query (st : Store) (c : caller) (f : pystr) :
  NoDup (map Post.id (posts st)) -> NoDup (map Post.id (feed_query st c f)).
Proof.
  intros ND. unfold feed_query.
  assert (Hfol : forall me, NoDup (map Post.id (followed_posts st me)))
    by (intros me; apply NoDup_keys_filter, ND).
  destruct c as [me|];
    destruct (str_eqb f (py "following")), (str_eqb f (py "trending"));
    cbn [andb negb]; try destruct (truthy (Some me));
    try apply NoDup_sorted_ids;
    auto using NoDup_trending.
Qed.

Lemma NoDup_page {A : Type} (n m : nat) (l : list A) :
  NoDup l -> NoDup (firstn n (skipn m l)).
Proof.
  intros ND. rewrite <- (firstn_skipn m l) in ND.
  apply NoDup_app_remove_l in ND.
  rewrite <- (firstn_skipn n (skipn m l)) in ND.
  exact (NoDup_app_remove_r _ _ ND).
Qed.

Section FeedPage.

Variable max_per_page : option Z.

(** The keys of the posts being pairwise distinct, a response of the
    feed lists no post twice, under every filter and for every caller,
    page and page size: a post with several likes is once in the
    ['trending'] feed, and a post whose author is followed is once in the
    ['following'] feed.  Every view listed is that of a post of the store
    the author of which has an account. *)
Theorem feed_page_has_no_repeats (st : Store) (current_user_id : caller)
    (filter_type : pystr) (page per_page : Z) (body : Feed.t) :
  NoDup (map Post.id (posts st)) ->
  get_posts max_per_page st current_user_id filter_type page per_page
  = Json 200 body ->
  NoDup (map PostView.id (Feed.posts body))
  /\ Forall (fun v =>
               exists p author,
                 In p (posts st)
                 /\ serialize_post st p current_user_id = Some v
                 /\ PostView.id v = Post.id p
                 /\ get_user st (Post.user_id p) = Some author
                 /\ UserView.id (PostView.author v) = Post.user_id p)
            (Feed.posts body).
Proof.
  intros ND. unfold get_posts.
  set (rows := items (paginate max_per_page page per_page
                               (feed_query st current_user_id filter_type))).
  assert (Hin : forall p, In p rows -> In p (posts st)).
  { intros p Hp. apply In_paginate in Hp. eapply feed_query_in_posts, Hp. }
  assert (Hrows : NoDup (map Post.id rows)).
  { unfold rows, paginate. cbn [items]. rewrite <- firstn_map, <- skipn_map.
    apply NoDup_page, NoDup_feed_query, ND. }
  clearbody rows.
  destruct (traverse _ rows) as [views|] eqn:Hv; [|discriminate].
  intros [= <-]. cbn [Feed.posts]. apply traverse_Forall2 in Hv.
  assert (Hviews : Forall2 (fun p v => PostView.id v = Post.id p
                                       /\ exists author,
                                         get_user st (Post.user_id p)
                                         = Some author
                                         /\ UserView.id (PostView.author v)
                                            = Post.user_id p)
                           rows views).
  { eapply Forall2_impl; [|exact Hv]. intros p v Hp.
    unfold serialize_post in Hp.
    destruct (get_user st (Post.user_id p)) as [author|] eqn:Ha;
      [|discriminate].
    injection Hp as <-. cbn [PostView.id PostView.author].
    split; [reflexivity|]. exists author. split; [reflexivity|].
    unfold serialize_user. cbn [UserView.id]. apply get_user_id in Ha.
    apply Ha. }
  split.
  - replace (map PostView.id views) with (map Post.id rows); [exact Hrows|].
    clear -Hviews. induction Hviews as [|p v ps vs [Hid _] _ IH];
      cbn [map]; [reflexivity|]. rewrite Hid, IH. reflexivity.
  - clear Hrows. induction Hv as [|p v ps vs Hp Hv IH].
    + constructor.
    + apply Forall2_cons_iff in Hviews.
      destruct Hviews as [[Hid (author & Ha & Hau)] Hviews].
      constructor.
      * exists p, author. split; [apply Hin; left; reflexivity|].
        repeat split; assumption.
      * apply IH; [|exact Hviews]. intros q Hq. apply Hin. right. exact Hq.
Qed.

End FeedPage.

Lemma feed_page_has_no_repeats_witness :
  exists body,
    get_posts None demo_store (Some 1) (py "trending") 1 20 = Json 200 body
    /\ NoDup (map PostView.id (Feed.posts body)).
Proof.
  destruct (get_posts None demo_store (Some 1) (py "trending") 1 20)
    as [status body|status error| |] eqn:E; try (vm_compute in E; discriminate).
  assert (Hs : status = 200) by (vm_compute in E; congruence). subst status.
  exists body. split; [reflexivity|].
  apply (feed_page_has_no_repeats None demo_store (Some 1) (py "trending")
           1 20 body); [|exact E].
  vm_compute. repeat constructor; cbn [In]; lia.
Defined.
